(** * Diyabet-Takipcileri: LibreLinkUp gateway and sync loop

    A shallow embedding of the Express gateway ([server], the second
    document of [src/index.tsx]) and of the React log provider
    ([LogDataProvider] in [App.tsx]), followed by the properties of the
    synchronisation subsystem that the specification states.

    Conventions of the embedding:
    - JavaScript numbers that the code only stores, compares or does
      integer arithmetic on (epoch milliseconds, HTTP statuses, mg/dL
      values) are [Z]; a number that may be [NaN] is an [option Z] whose
      [None] is [NaN];
    - [undefined] and [null] fields of JSON payloads are [option]s;
    - exceptions are the [Throw] case of [Js.Result];
    - the mutable module-level [sessions] map, the [sessions.json] file,
      the React state cells and [localStorage] are fields of explicit
      state records;
    - what the platform supplies (the uuid generator, [Date] parsing and
      printing, SHA-256) is a [Platform] record passed to the code. *)

From Stdlib Require Import ZArith Lia DecimalString.
From Stdlib Require DecimalZ.
From stdpp Require Import gmap strings list sorting.

Open Scope Z_scope.

(* ===================================================================== *)
(** * JavaScript helpers *)
(* ===================================================================== *)

Module Js.

(** [hay.includes(needle)] *)
Fixpoint includes (needle hay : string) : bool :=
  if String.prefix needle hay then true
  else match hay with
       | EmptyString => false
       | String _ rest => includes needle rest
       end.

(** Truthiness of a value that is a string when present. *)
Definition truthy (s : option string) : bool :=
  match s with
  | Some s => negb (String.eqb s "")
  | None => false
  end.

(** [a || b] on such values. *)
Definition orElse (s : option string) (d : string) : string :=
  match s with
  | Some s => if String.eqb s "" then d else s
  | None => d
  end.

(** [a ?? b] *)
Definition nullish {A} (a b : option A) : option A :=
  match a with
  | Some _ => a
  | None => b
  end.

Definition upperChar (c : Ascii.ascii) : Ascii.ascii :=
  let n := Ascii.N_of_ascii c in
  if ((97 <=? n) && (n <=? 122))%N then Ascii.ascii_of_N (n - 32) else c.

(** [s.toUpperCase()] on ASCII letters. *)
Fixpoint toUpperCase (s : string) : string :=
  match s with
  | EmptyString => EmptyString
  | String c rest => String (upperChar c) (toUpperCase rest)
  end.

(** [String(n)] for an integral number. *)
Definition showZ (n : Z) : string := NilZero.string_of_int (Z.to_int n).

(** What a [throw] carries.  Axios errors fill [code] and [response];
    a [TypeError] or [RangeError] has neither. *)
Record ErrResponse := {
  err_status : Z;
  err_data_message : option string   (* response.data?.error?.message *)
}.

Record Error := {
  name : string;
  code : option string;
  message : string;
  response : option ErrResponse
}.

Definition RangeError (msg : string) : Error :=
  {| name := "RangeError"; code := None; message := msg; response := None |}.
Definition TypeError (msg : string) : Error :=
  {| name := "TypeError"; code := None; message := msg; response := None |}.

Inductive Result (A : Type) : Type :=
| Throw (e : Error)
| Ret (a : A).
Arguments Throw {A} e.
Arguments Ret {A} a.

Definition bind {A B} (m : Result A) (k : A -> Result B) : Result B :=
  match m with
  | Throw e => Throw e
  | Ret a => k a
  end.

(** The range of time values a [Date] can hold. *)
Definition maxTime : Z := 8640000000000000.

(** [new Date(ms)]: [None] is the Invalid Date. *)
Definition newDate (ms : Z) : option Z :=
  if (Z.abs ms <=? maxTime) then Some ms else None.

(** [Array.prototype.sort(cmp)]: a stable sort; a comparator result that
    is [NaN] counts as [+0].  [insertBy] places [x], which stood before
    every element of [l], in front of the first [y] with [cmp x y <= 0]. *)
Definition cmpSign (c : option Z) : Z :=
  match c with
  | Some z => z
  | None => 0
  end.

Fixpoint insertBy {A} (cmp : A -> A -> option Z) (x : A) (l : list A) : list A :=
  match l with
  | [] => [x]
  | y :: l' =>
      if cmpSign (cmp x y) <=? 0 then x :: y :: l'
      else y :: insertBy cmp x l'
  end.

Fixpoint sort {A} (cmp : A -> A -> option Z) (l : list A) : list A :=
  match l with
  | [] => []
  | x :: l' => insertBy cmp x (sort cmp l')
  end.

(** [a - b] on numbers that may be [NaN]. *)
Definition sub (a b : option Z) : option Z :=
  match a, b with
  | Some x, Some y => Some (x - y)
  | _, _ => None
  end.

End Js.

Notation "'let*' x ':=' m 'in' k" := (Js.bind m (fun x => k))
  (at level 10, x pattern, m at level 100, k at level 200).

(** What the runtime supplies. *)
Record Platform := {
  uuidv4 : nat -> string;            (* the n-th identifier drawn *)
  dateParse : string -> option Z;    (* new Date(s).getTime(), None = NaN *)
  toISOString : Z -> string;         (* of a valid time value *)
  sha256hex : string -> string       (* createHash('sha256')...digest('hex') *)
}.

(* ===================================================================== *)
(** * Shared types ([types.ts]) *)
(* ===================================================================== *)

Module Types.

Inductive EntryType := BloodSugar | Insulin | Carbs | Activity | Note.

Inductive BloodSugarMeasurementType :=
| BeforeMeal | AfterMeal | Fasting | Bedtime | Other | CGM.

Inductive InsulinType := Bolus | Basal | Correction.

Inductive MealType := Breakfast | Lunch | Dinner | Snack.

Inductive Intensity := low | medium | high.

Record SensorInfo := {
  serial : string;
  startDate : string;
  endDate : string;
  daysLeft : Z;
  state : string
}.

(** The fields of an entry besides those of [BaseEntry]; the constructor
    is the [type] discriminant. *)
Inductive EntryData :=
| BloodSugarData (value : Z) (measurementType : BloodSugarMeasurementType)
                 (trendArrow : option Z)
| InsulinData (units : Z) (insulinType : InsulinType)
| CarbsData (grams : Z) (mealType : MealType) (description photo : option string)
| ActivityData (duration : Z) (activityType : string) (intensity : Intensity)
| NoteData (text : string).

Record LogEntry := {
  id : string;
  timestamp : string;
  profileId : string;
  data : EntryData
}.

Definition type (e : LogEntry) : EntryType :=
  match data e with
  | BloodSugarData _ _ _ => BloodSugar
  | InsulinData _ _ => Insulin
  | CarbsData _ _ _ _ => Carbs
  | ActivityData _ _ _ => Activity
  | NoteData _ => Note
  end.

(** [AddEntryData]: an entry without [id] and [profileId], its
    [timestamp] optional. *)
Record AddEntryData := {
  add_data : EntryData;
  add_timestamp : option string
}.

Inductive Status := disconnected | connecting | connected | error.

Record LibreLinkUp := {
  status : Status;
  email : string;
  region : string;
  lastSync : option string;
  sensor : option SensorInfo
}.

(** The settings the modelled operations read or write; the remaining
    fields of [UserSettings] (units, ratios, dose method) pass through
    every operation below unchanged and are left out. *)
Record UserSettings := {
  targetRange_low : Z;
  targetRange_high : Z;
  notifications_enabled : bool;
  notifications_highLowAlerts : bool;
  libreLinkUp : LibreLinkUp
}.

Record Profile := {
  profile_id : string;
  profile_name : string;
  settings : UserSettings
}.

End Types.

(* ===================================================================== *)
(** * The gateway ([server]) *)
(* ===================================================================== *)

Module Server.
Import Js.

Record Session := {
  token : string;
  clientVersion : string;
  userId : string;
  accountId : string;
  region : string;
  baseURL : string
}.

(** [sessions] and the content of [data/sessions.json]. *)
Record State := {
  sessions : gmap string Session;
  disk : option (gmap string Session)
}.

(** [saveSessions]: the write may fail ([writeOk = false]); the failure
    is caught and ignored. *)
Definition saveSessions (writeOk : bool) (st : State) : State :=
  if writeOk then {| sessions := sessions st; disk := Some (sessions st) |}
  else st.

Definition getBaseUrl (region : option string) : string :=
  let r := toUpperCase (orElse region "EU") in
  if String.eqb r "US" then "https://api-us.libreview.io"
  else if String.eqb r "AE" then "https://api-ae.libreview.io"
  else if String.eqb r "JP" then "https://api-jp.libreview.io"
  else if String.eqb r "AP" then "https://api-ap.libreview.io"
  else "https://api-eu.libreview.io".

(** ** Retry wrapper *)

Record AxiosResponse (A : Type) := {
  resp_status : Z;
  resp_data : A
}.
Arguments resp_status {A} _.
Arguments resp_data {A} _.

(** How one call of [axios(config)] settles. *)
Definition Outcome (A : Type) : Type := Result (AxiosResponse A).

(** The vendor as the wrapper sees it: the outcome of the k-th call. *)
Definition Net (A : Type) : Type := nat -> Outcome A.

Inductive Event :=
| Attempt (k : nat)        (* axios(config) is called *)
| Delay (ms : Z).          (* setTimeout(resolve, ms) is awaited *)

Definition isTimeout (e : Error) : bool :=
  match code e with
  | Some c => String.eqb c "ECONNABORTED"
  | None => false
  end || includes "timeout" (message e).

Definition isServerErr (e : Error) : bool :=
  match response e with
  | Some r => 500 <=? err_status r
  | None => false
  end.

(** [axiosWithRetry(config, retries)], started at call number [k]; the
    events it performs and how it settles. *)
Fixpoint axiosWithRetry {A} (net : Net A) (k : nat) (retries : nat)
  : list Event * Outcome A :=
  match net k with
  | Ret r => ([Attempt k], Ret r)
  | Throw e =>
      match retries with
      | S retries' =>
          if isTimeout e || isServerErr e then
            let delay := (4 - Z.of_nat retries) * 1000 in
            let '(evs, out) := axiosWithRetry net (S k) retries' in
            (Attempt k :: Delay delay :: evs, out)
          else ([Attempt k], Throw e)
      | O => ([Attempt k], Throw e)
      end
  end.

(** The default value of the [retries] parameter; no caller passes
    another. *)
Definition defaultRetries : nat := 3.

Definition request {A} (net : Net A) : Outcome A :=
  snd (axiosWithRetry net 0 defaultRetries).

(** The number of calls made, and the delay awaited before each call
    (none before the first one). *)
Fixpoint attempts (evs : list Event) : nat :=
  match evs with
  | [] => O
  | Attempt _ :: evs' => S (attempts evs')
  | Delay _ :: evs' => attempts evs'
  end.

Fixpoint delaysFrom (pending : Z) (evs : list Event) : list Z :=
  match evs with
  | [] => []
  | Attempt _ :: evs' => pending :: delaysFrom 0 evs'
  | Delay ms :: evs' => delaysFrom (pending + ms) evs'
  end.

Definition delays (evs : list Event) : list Z := delaysFrom 0 evs.

(** ** Responses *)

(** The JSON of a reading as [/api/libre/read] sends it. *)
Record Reading := {
  value : option Z;                    (* null in a sensor-only payload *)
  timestamp : string;
  trendArrow : option Z;
  sensor : option Types.SensorInfo
}.

Inductive Body :=
| Empty                                (* .end() *)
| ErrorJson (error : string)           (* { error } *)
| ConnectJson (sessionId : string)     (* { success: true, sessionId } *)
| SuccessJson                          (* { success: true } *)
| ReadingJson (r : Reading).

Record Response := {
  status : Z;
  body : Body
}.

Definition respond (status : Z) (body : Body) : Response :=
  {| status := status; body := body |}.

(** ** POST /api/libre/connect *)

Record ConnectBody := {
  req_email : option string;
  req_password : option string;
  req_region : option string;
  req_clientVersion : option string
}.

(** The fields of the vendor's login answer that the handler reads. *)
Record LoginData := {
  login_status : option Z;             (* data.status *)
  login_token : option string;         (* data.data?.authTicket?.token *)
  login_userId : option string         (* data.data?.user?.id *)
}.

Definition connectCatch (err : Error) : Response :=
  if isTimeout err then
    respond 504 (ErrorJson "Libre sunucusuna ulaşılamadı (Zaman Aşımı).")
  else
    match response err with
    | Some r =>
        respond (err_status r)
                (ErrorJson (orElse (err_data_message r) "Giriş hatası."))
    | None => respond 500 (ErrorJson "Sunucu hatası.")
    end.

(** [fresh] is the index of the identifier that [uuidv4()] draws;
    [writeOk] tells whether [fs.writeFile] succeeds. *)
Definition connect (P : Platform) (fresh : nat) (req : option ConnectBody)
    (net : Net (option LoginData)) (writeOk : bool) (st : State)
  : State * Response :=
  let email := req ≫= req_email in
  let password := req ≫= req_password in
  let region := req ≫= req_region in
  if negb (truthy email) || negb (truthy password) then
    (st, respond 400 (ErrorJson "E-posta ve şifre gereklidir."))
  else
    let clientVersion := orElse (req ≫= req_clientVersion) "4.16.0" in
    let baseURL := getBaseUrl region in
    match request net with
    | Throw err => (st, connectCatch err)
    | Ret loginResp =>
        match resp_data loginResp with
        | None =>
            (st, respond 403 (ErrorJson "Giriş başarısız. Bilgileri kontrol edin."))
        | Some d =>
            if negb (bool_decide (login_status d = Some 0))
               && negb (truthy (login_token d)) then
              (st, respond 403 (ErrorJson "Giriş başarısız. Bilgileri kontrol edin."))
            else
              match login_token d, login_userId d with
              | Some token, Some userId =>
                  if String.eqb token "" || String.eqb userId "" then
                    (st, respond 403 (ErrorJson "Token alınamadı."))
                  else
                    let accountId := sha256hex P userId in
                    let sessionId := uuidv4 P fresh in
                    let record :=
                      {| token := token;
                         clientVersion := clientVersion;
                         userId := userId;
                         accountId := accountId;
                         region := orElse region "EU";
                         baseURL := baseURL |} in
                    let st1 :=
                      {| sessions := <[sessionId := record]> (sessions st);
                         disk := disk st |} in
                    (saveSessions writeOk st1,
                     respond 200 (ConnectJson sessionId))
              | _, _ => (st, respond 403 (ErrorJson "Token alınamadı."))
              end
        end
    end.

(** ** GET /api/libre/read *)

Record GlucoseMeasurement := {
  gm_Value : option Z;
  gm_value : option Z;
  gm_Timestamp : option string;
  gm_MeasurementDate : option string;
  gm_TrendArrow : option Z;
  gm_trendArrow : option Z
}.

Record Sensor := {
  a : option Z;                        (* activation epoch, seconds *)
  sn : string;
  pt : option Z
}.

Record Connection := {
  pending : option bool;
  connection_glucoseMeasurement : option GlucoseMeasurement;
  glucoseMeasurement : option GlucoseMeasurement;
  conn_sensor : option Sensor;
  patientId : string
}.

Record GraphItem := {
  gi_Value : option Z;
  gi_value : option Z;
  gi_Timestamp : option string;
  gi_MeasurementDate : option string
}.

(** [cons.data?.data] when it is an array ([null] elements are [None]),
    and [hist.data?.data?.graphData] when it is one. *)
Definition ConnectionsData : Type := option (list (option Connection)).
Definition GraphData : Type := option (list GraphItem).

(** [data.find(c => c.pending === false)]; reading [pending] off a
    [null] element throws. *)
Fixpoint findNotPending (l : list (option Connection)) : Result (option Connection) :=
  match l with
  | [] => Ret None
  | None :: _ => Throw (TypeError "Cannot read properties of null (reading 'pending')")
  | Some c :: l' =>
      match pending c with
      | Some false => Ret (Some c)
      | _ => findNotPending l'
      end
  end.

Definition selectFirst (data : ConnectionsData) : Result (option Connection) :=
  match data with
  | None => Ret None
  | Some l =>
      let* found := findNotPending l in
      match found with
      | Some c => Ret (Some c)
      | None => Ret (mjoin (head l))
      end
  end.

(** [new Date(ts ?? md ?? Date.now()).toISOString()] *)
Definition isoTimestamp (P : Platform) (now : Z) (ts md : option string)
  : Result string :=
  match nullish ts md with
  | Some s =>
      match dateParse P s with
      | Some ms => Ret (toISOString P ms)
      | None => Throw (RangeError "Invalid time value")
      end
  | None => Ret (toISOString P now)
  end.

Definition mkReading (P : Platform) (now : Z) (V v : option Z)
    (ts md : option string) : Result Reading :=
  let* iso := isoTimestamp P now ts md in
  Ret {| value := Some (default 0 (nullish V v));
         timestamp := iso;
         trendArrow := None;
         sensor := None |}.

Definition stateStr (pt : option Z) : string :=
  match pt with
  | Some 1 => "Isınıyor"
  | Some 2 => "Aktif"
  | Some 3 => "Süresi Doldu"
  | Some 4 => "Bitti"
  | Some 5 => "Hata"
  | Some n => "Durum " +:+ showZ n
  | None => "Durum undefined"
  end.

Definition msPerDay : Z := 1000 * 60 * 60 * 24.

(** [Math.ceil(x / d)] for a positive [d]. *)
Definition ceilDiv (x d : Z) : Z := - ((- x) / d).

(** Lines 265-275: the start and end [Date] (which may be invalid) and
    [daysLeft] (which may be [NaN]) from the activation epoch
    [first.sensor.a]. *)
Record WearLife := {
  wl_startDate : option Z;
  wl_endDate : option Z;
  wl_daysLeft : option Z
}.

Definition activated (a : option Z) : bool :=     (* if (activationTimestamp) *)
  match a with
  | Some t => negb (t =? 0)
  | None => false
  end.

Definition wearLife (a : option Z) (now : Z) : WearLife :=
  if activated a then
    let startDate := newDate (default 0 a * 1000) in
    let endDate := startDate ≫= (fun s => newDate (s + 14 * 24 * 60 * 60 * 1000)) in
    {| wl_startDate := startDate;
       wl_endDate := endDate;
       wl_daysLeft := (fun e => Z.max 0 (ceilDiv (e - now) msPerDay)) <$> endDate |}
  else
    {| wl_startDate := Some now; wl_endDate := Some now; wl_daysLeft := Some 0 |}.

(** Lines 249-284; [toISOString] of an invalid date throws. *)
Definition sensorInfoOf (P : Platform) (now : Z) (s : Sensor)
  : Result Types.SensorInfo :=
  let w := wearLife (a s) now in
  match wl_startDate w, wl_endDate w, wl_daysLeft w with
  | Some sd, Some ed, Some d =>
      Ret {| Types.serial := sn s;
             Types.startDate := toISOString P sd;
             Types.endDate := toISOString P ed;
             Types.daysLeft := d;
             Types.state := stateStr (pt s) |}
  | _, _, _ => Throw (RangeError "Invalid time value")
  end.

(** The comparator of the graph sort: newest first. *)
Definition graphCmp (P : Platform) (x y : GraphItem) : option Z :=
  sub (gi_Timestamp y ≫= dateParse P) (gi_Timestamp x ≫= dateParse P).

Definition isStale (P : Platform) (now : Z) (reading : option Reading) : bool :=
  match reading with
  | None => true
  | Some r =>
      match dateParse P (timestamp r) with
      | Some t => 15 * 60 * 1000 <? now - t
      | None => false                   (* NaN > n *)
      end
  end.

Definition optional {A B} (f : A -> Result B) (o : option A) : Result (option B) :=
  match o with
  | Some x => let* y := f x in Ret (Some y)
  | None => Ret None
  end.

(** The body of the [try] block.  [netCons] and [netHist] are the
    vendor's answers to the connections and to the graph request, [now]
    the clock during the request. *)
Definition readTry (P : Platform) (now : Z) (sessionId : option string)
    (netCons : Net ConnectionsData) (netHist : Net GraphData) (st : State)
  : Result (State * Response) :=
  match sessionId with
  | None => Ret (st, respond 400 (ErrorJson "sessionId missing"))
  | Some sid =>
  if String.eqb sid "" then Ret (st, respond 400 (ErrorJson "sessionId missing"))
  else
  match sessions st !! sid with
  | None => Ret (st, respond 401 (ErrorJson "Session not found"))
  | Some session =>
  let* consResp := request netCons in
  if resp_status consResp =? 401 then
    Ret ({| sessions := delete sid (sessions st); disk := disk st |},
         respond 401 (ErrorJson "Token expired"))
  else
  let* first := selectFirst (resp_data consResp) in
  match first with
  | None => Ret (st, respond 204 Empty)
  | Some first =>
  let gm := nullish (connection_glucoseMeasurement first) (glucoseMeasurement first) in
  let* reading :=
    optional (fun g => mkReading P now (gm_Value g) (gm_value g)
                         (gm_Timestamp g) (gm_MeasurementDate g)) gm in
  let trend := gm ≫= (fun g => nullish (gm_TrendArrow g) (gm_trendArrow g)) in
  let* sensorInfo := optional (sensorInfoOf P now) (conn_sensor first) in
  let isWarmingUp :=
    match sensorInfo with
    | Some i => String.eqb (Types.state i) "Isınıyor"
    | None => false
    end in
  let* reading :=
    if isStale P now reading && negb isWarmingUp then
      let* hist := request netHist in
      match resp_data hist with
      | Some items =>
          match sort (graphCmp P) items with
          | last :: _ =>
              let* r := mkReading P now (gi_Value last) (gi_value last)
                          (gi_Timestamp last) (gi_MeasurementDate last) in
              Ret (Some r)
          | [] => Ret reading
          end
      | None => Ret reading
      end
    else Ret reading in
  match reading with
  | Some r =>
      Ret (st, respond 200 (ReadingJson
             {| value := value r;
                timestamp := timestamp r;
                trendArrow := trend;
                sensor := sensorInfo |}))
  | None =>
      match sensorInfo with
      | Some i =>
          Ret (st, respond 200 (ReadingJson
                 {| value := None;
                    timestamp := toISOString P now;
                    trendArrow := None;
                    sensor := Some i |}))
      | None => Ret (st, respond 204 Empty)
      end
  end
  end
  end
  end.

(** The handler: whatever the [try] block throws ends as a 204. *)
Definition read (P : Platform) (now : Z) (sessionId : option string)
    (netCons : Net ConnectionsData) (netHist : Net GraphData) (st : State)
  : State * Response :=
  match readTry P now sessionId netCons netHist st with
  | Ret out => out
  | Throw _ => (st, respond 204 Empty)
  end.

(** ** POST /api/libre/disconnect *)

Definition disconnect (sessionId : option string) (writeOk : bool) (st : State)
  : State * Response :=
  let st1 :=
    match sessionId with
    | Some sid =>
        if String.eqb sid "" then st      (* '' is falsy *)
        else {| sessions := delete sid (sessions st); disk := disk st |}
    | None => st
    end in
  (saveSessions writeOk st1, respond 200 SuccessJson).

(** ** Start-up *)

(** [loadSessions]: every entry of [sessions.json] is [set] into the map.
    A file that is missing, empty or not JSON ([disk = None]) leaves the
    map as it is; the errors are ignored. *)
Definition loadSessions (st : State) : State :=
  match disk st with
  | Some stored => {| sessions := stored ∪ sessions st; disk := disk st |}
  | None => st
  end.

(** A restart of the process: [sessions] is a new, empty [Map], and the
    [listen] callback loads the file. *)
Definition restart (st : State) : State :=
  loadSessions {| sessions := ∅; disk := disk st |}.

(** The failures [axiosWithRetry] retries. *)
Definition retryable (e : Error) : bool := isTimeout e || isServerErr e.

End Server.

(* ===================================================================== *)
(** * The log provider ([LogDataProvider]) *)
(* ===================================================================== *)

Module Client.
Import Js Types.

Definition initialLibreLinkUp : LibreLinkUp :=
  {| status := disconnected; email := ""; region := "EU";
     lastSync := None; sensor := None |}.

Definition initialSettings : UserSettings :=
  {| targetRange_low := 70;
     targetRange_high := 180;
     notifications_enabled := false;
     notifications_highLowAlerts := true;
     libreLinkUp := initialLibreLinkUp |}.

(** A [new Notification(title, { body })] that was shown. *)
Record Notification := {
  title : string;
  measured : Z
}.

(** The React state cells, the refs and the [localStorage] keys the
    provider works on.  [activeProfileId] stands for the state cell and
    for [activeProfileIdRef], which lines 59-61 and 128-137 keep equal
    to it; [settingsRef] is a cell of its own, because the effect of
    lines 169-171 refreshes it only after a render. *)
Record State := {
  profiles : list Profile;
  activeProfileId : option string;
  logEntries : list LogEntry;
  settingsRef : UserSettings;
  libreSessionId : option string;      (* localStorage 'libreSessionId' *)
  libreIsMock : option string;         (* localStorage 'libreIsMock' *)
  uuidCount : nat;                     (* identifiers drawn so far *)
  shown : list Notification;
  alerts : list string
}.

Definition withProfiles (ps : list Profile) (st : State) : State :=
  {| profiles := ps; activeProfileId := activeProfileId st;
     logEntries := logEntries st; settingsRef := settingsRef st;
     libreSessionId := libreSessionId st; libreIsMock := libreIsMock st;
     uuidCount := uuidCount st; shown := shown st; alerts := alerts st |}.

Definition withLog (l : list LogEntry) (drawn : nat) (st : State) : State :=
  {| profiles := profiles st; activeProfileId := activeProfileId st;
     logEntries := l; settingsRef := settingsRef st;
     libreSessionId := libreSessionId st; libreIsMock := libreIsMock st;
     uuidCount := (uuidCount st + drawn)%nat; shown := shown st;
     alerts := alerts st |}.

Definition withSessionId (sid : option string) (st : State) : State :=
  {| profiles := profiles st; activeProfileId := activeProfileId st;
     logEntries := logEntries st; settingsRef := settingsRef st;
     libreSessionId := sid; libreIsMock := libreIsMock st;
     uuidCount := uuidCount st; shown := shown st; alerts := alerts st |}.

Definition withShown (n : list Notification) (st : State) : State :=
  {| profiles := profiles st; activeProfileId := activeProfileId st;
     logEntries := logEntries st; settingsRef := settingsRef st;
     libreSessionId := libreSessionId st; libreIsMock := libreIsMock st;
     uuidCount := uuidCount st; shown := shown st ++ n; alerts := alerts st |}.

Definition withAlert (msg : string) (st : State) : State :=
  {| profiles := profiles st; activeProfileId := activeProfileId st;
     logEntries := logEntries st; settingsRef := settingsRef st;
     libreSessionId := libreSessionId st; libreIsMock := libreIsMock st;
     uuidCount := uuidCount st; shown := shown st;
     alerts := alerts st ++ [msg] |}.

(** [profiles.find(p => p.id === activeProfileId)] *)
Definition activeProfile (st : State) : option Profile :=
  match activeProfileId st with
  | Some pid => List.find (fun p => String.eqb (profile_id p) pid) (profiles st)
  | None => None
  end.

(** [activeProfile?.settings ?? initialSettings] *)
Definition settingsOf (st : State) : UserSettings :=
  match activeProfile st with
  | Some p => settings p
  | None => initialSettings
  end.

(** A render followed by its effects: [settingsRef] catches up. *)
Definition render (st : State) : State :=
  {| profiles := profiles st; activeProfileId := activeProfileId st;
     logEntries := logEntries st; settingsRef := settingsOf st;
     libreSessionId := libreSessionId st; libreIsMock := libreIsMock st;
     uuidCount := uuidCount st; shown := shown st; alerts := alerts st |}.

(** [logEntries.filter(e => e.profileId === activeProfileId)] *)
Definition logEntriesForActiveProfile (st : State) : list LogEntry :=
  List.filter
    (fun e => match activeProfileId st with
              | Some pid => String.eqb (profileId e) pid
              | None => false
              end)
    (logEntries st).

(** The comparator of both log sorts: newest first. *)
Definition entryCmp (P : Platform) (x y : LogEntry) : option Z :=
  sub (dateParse P (timestamp y)) (dateParse P (timestamp x)).

(** ** addEntry *)

Definition alertFor (s : UserSettings) (granted : bool) (e : LogEntry)
  : list Notification :=
  match data e with
  | BloodSugarData v _ _ =>
      if notifications_enabled s && notifications_highLowAlerts s && granted then
        if v <? targetRange_low s then
          [{| title := "Düşük Kan Şekeri Uyarısı"; measured := v |}]
        else if targetRange_high s <? v then
          [{| title := "Yüksek Kan Şekeri Uyarısı"; measured := v |}]
        else []
      else []
  | _ => []
  end.

(** [now] is the clock, [granted] whether [Notification.permission] is
    ['granted']. *)
Definition addEntry (P : Platform) (now : Z) (granted : bool)
    (entryData : AddEntryData) (st : State) : State :=
  match activeProfileId st with
  | None => st
  | Some pid =>
      if String.eqb pid "" then st
      else
        let newEntry :=
          {| id := uuidv4 P (uuidCount st);
             timestamp := orElse (add_timestamp entryData) (toISOString P now);
             profileId := pid;
             data := add_data entryData |} in
        let st1 :=
          withLog (sort (entryCmp P) (logEntries st ++ [newEntry])) 1 st in
        withShown (alertFor (settingsOf st) granted newEntry) st1
  end.

(** ** updateSettings *)

(** [{ ...old, ...new }] on [libreLinkUp] objects; [new] carries every
    key but possibly [sensor]. *)
Definition mergeLibreLinkUp (old new : LibreLinkUp) : LibreLinkUp :=
  {| status := status new;
     email := email new;
     region := region new;
     lastSync := lastSync new;
     sensor := nullish (sensor new) (sensor old) |}.

(** The profile that the [map] of [updateSettings] returns for the
    active one (lines 210-226), for an update of [libreLinkUp]. *)
Definition updated (new : LibreLinkUp) (p : Profile) : Profile :=
  {| profile_id := profile_id p;
     profile_name := profile_name p;
     settings :=
       {| targetRange_low := targetRange_low (settings p);
          targetRange_high := targetRange_high (settings p);
          notifications_enabled := notifications_enabled (settings p);
          notifications_highLowAlerts := notifications_highLowAlerts (settings p);
          libreLinkUp := mergeLibreLinkUp (libreLinkUp (settings p)) new |} |}.

(** [updateSettings({ libreLinkUp: new })], the only shape of update the
    connection code issues. *)
Definition updateSettings (new : LibreLinkUp) (st : State) : State :=
  withProfiles
    ((fun p =>
        if bool_decide (Some (profile_id p) = activeProfileId st)
        then updated new p else p) <$> profiles st)
    st.

Definition withStatus (s : Status) (l : LibreLinkUp) : LibreLinkUp :=
  {| status := s; email := email l; region := region l;
     lastSync := lastSync l; sensor := sensor l |}.

Definition withStatusEmail (s : Status) (mail : string) (l : LibreLinkUp)
  : LibreLinkUp :=
  {| status := s; email := mail; region := region l;
     lastSync := lastSync l; sensor := sensor l |}.

(** ** disconnectLibre *)

(** Modelled from the spec: [apiDisconnect] of [api/libre], which is not
    among the sources.  The specification has the client invalidate its
    session on disconnect and has a tick do nothing once no session
    marker is present locally, so the call drops the ['libreSessionId']
    marker (and posts to [/api/libre/disconnect]). *)
Definition apiDisconnect (st : State) : State := withSessionId None st.

(** [apiOk = false]: [apiDisconnect] throws before it has done anything;
    the error is caught and logged. *)
Definition disconnectLibre (apiOk : bool) (st : State) : State :=
  let st1 := if apiOk then apiDisconnect st else st in
  updateSettings (withStatus disconnected initialLibreLinkUp) st1.

(** ** syncLibreData *)

(** [new Set(prevEntries.map(e => e.timestamp))] *)
Definition existingTimestamps (prev : list LogEntry) : gset string :=
  list_to_set (timestamp <$> prev).

(** The [forEach] of lines 256-271; [n] identifiers were drawn before. *)
Fixpoint newEntries (P : Platform) (pid : option string) (seen : gset string)
    (n : nat) (readings : list Server.Reading) : list LogEntry :=
  match readings with
  | [] => []
  | reading :: rest =>
      match Server.value reading, pid with
      | Some v, Some pid' =>
          if bool_decide (Server.timestamp reading ∉ seen)
             && negb (String.eqb pid' "") then
            {| id := uuidv4 P n;
               timestamp := Server.timestamp reading;
               profileId := pid';
               data := BloodSugarData v CGM (Server.trendArrow reading) |}
            :: newEntries P pid seen (S n) rest
          else newEntries P pid seen n rest
      | _, _ => newEntries P pid seen n rest
      end
  end.

(** The updater passed to [setLogEntries] (lines 252-277). *)
Definition mergeReadings (P : Platform) (readings : list Server.Reading)
    (st : State) : State :=
  let fresh :=
    newEntries P (activeProfileId st) (existingTimestamps (logEntries st))
               (uuidCount st) readings in
  match fresh with
  | [] => st
  | _ :: _ =>
      withLog (sort (entryCmp P) (logEntries st ++ fresh)) (length fresh) st
  end.

(** How [fetchLatestReadings()] of [api/libre] settles: it throws an
    error with the given [message], or returns the readings ([None]
    when the result is [null]). *)
Inductive Fetch :=
| Rejects (message : option string)
| Resolves (readings : option (list Server.Reading)).

(** The part of [syncLibreData] after the [await]; [currentSettings] is
    what [settingsRef.current] held when the tick started. *)
Definition afterFetch (P : Platform) (now : Z) (apiOk : bool)
    (currentSettings : UserSettings) (fetch : Fetch) (st : State) : State :=
  match fetch with
  | Resolves None => st
  | Resolves (Some []) => st
  | Resolves (Some (latestReading :: rest)) =>
      let st1 := mergeReadings P (latestReading :: rest) st in
      let cur := libreLinkUp currentSettings in
      updateSettings
        {| status := status cur;
           email := email cur;
           region := region cur;
           lastSync := Some (toISOString P now);
           sensor := nullish (Server.sensor latestReading) (sensor cur) |}
        st1
  | Rejects (Some m) =>
      if includes "Oturum" m then disconnectLibre apiOk st else st
  | Rejects None => st
  end.

Definition syncLibreData (P : Platform) (now : Z) (apiOk : bool)
    (fetch : Fetch) (st : State) : State :=
  let currentSettings := settingsRef st in
  match libreSessionId st with
  | None => st
  | Some _ => afterFetch P now apiOk currentSettings fetch st
  end.

(** One firing of the 30 s interval, and the render it causes. *)
Definition tick (P : Platform) (now : Z) (apiOk : bool) (fetch : Fetch)
    (st : State) : State :=
  render (syncLibreData P now apiOk fetch st).

(** ** connectLibre *)

(** What the [catch] block has in hand after lines 327-339: [error.name]
    and the text extracted from the thrown value. *)
Record Thrown := {
  thrown_name : option string;
  thrown_message : string
}.

(** How [connectToLibre(email, password, region)] of [api/libre]
    settles: with [result.success] and the ['libreSessionId'] marker it
    leaves in [localStorage], or with a thrown value. *)
Inductive Login :=
| LoginResolves (success : bool) (marker : option string)
| LoginRejects (err : Thrown).

Definition connectTimeout : Z := 75000.

Definition timeoutError : Thrown :=
  {| thrown_name := Some "Error"; thrown_message := "TIMEOUT" |}.

(** [Promise.race([connectToLibre(...), timeoutPromise])].  [login] is
    the instant, in ms after the call, at which [connectToLibre]
    settles and how ([None]: never); the timer wins from 75 s on. *)
Definition race (login : option (Z * Login)) : Z * Login :=
  match login with
  | Some (t, l) =>
      if t <? connectTimeout then (t, l)
      else (connectTimeout, LoginRejects timeoutError)
  | None => (connectTimeout, LoginRejects timeoutError)
  end.

Definition connectErrorText (err : Thrown) : string :=
  let errMsg := thrown_message err in
  if bool_decide (thrown_name err = Some "AbortError")
     || String.eqb errMsg "TIMEOUT" || includes "timeout" errMsg then
    "Bağlantı zaman aşımına uğradı. Otomatik olarak Simülasyon Moduna geçiliyor..."
  else if includes "403" errMsg || includes "Giriş başarısız" errMsg then
    "Giriş başarısız. E-posta veya şifre hatalı. Lütfen kontrol edip tekrar deneyin."
  else errMsg.

(** The outcome of a connect attempt: the state when [connectLibre]
    returns, the instant (ms after the call) at which it returns,
    whether the [catch] block ran, and whether a sync was left scheduled
    with [setTimeout(..., 1000)].  The syncs that the interval effect
    (lines 359-369) starts while the attempt runs are not part of it. *)
Record ConnectRun := {
  final : State;
  returnedAt : Z;
  failed : bool;
  deferredSync : bool
}.

(** The [catch] block (lines 324-356); [settings0] is the [settings]
    the closure captured. *)
Definition connectCatch (mail : string) (settings0 : UserSettings) (at_ : Z)
    (err : Thrown) (st : State) : ConnectRun :=
  let st1 := withAlert ("Bağlantı Durumu: " +:+ connectErrorText err) st in
  if bool_decide (libreIsMock st1 = Some "true") then
    {| final :=
         render (updateSettings
                   (withStatusEmail connected mail (libreLinkUp settings0)) st1);
       returnedAt := at_; failed := true; deferredSync := true |}
  else
    {| final :=
         render (updateSettings (withStatus error (libreLinkUp settings0)) st1);
       returnedAt := at_; failed := true; deferredSync := false |}.

(** [connectLibre(email, password)].  [login] tells when and how the
    login call settles; [syncLatency] and [fetch] how long the request
    of the first sync takes and how it settles; [now] is the clock when
    that sync finishes. *)
Definition connectLibre (P : Platform) (now : Z) (apiOk : bool)
    (mail : string) (login : option (Z * Login))
    (syncLatency : Z) (fetch : Fetch) (st : State) : ConnectRun :=
  let settings0 := settingsOf st in
  let st1 :=
    render (updateSettings (withStatus connecting (libreLinkUp settings0)) st) in
  match race login with
  | (t, LoginResolves true marker) =>
      let st2 := withSessionId marker st1 in
      let st3 :=
        updateSettings
          (withStatusEmail connected mail (libreLinkUp settings0)) st2 in
      {| final := render (syncLibreData P now apiOk fetch st3);
         returnedAt :=
           match libreSessionId st3 with
           | Some _ => t + syncLatency
           | None => t
           end;
         failed := false;
         deferredSync := false |}
  | (t, LoginResolves false marker) =>
      connectCatch mail settings0 t
        {| thrown_name := Some "Error"; thrown_message := "Bağlantı Başarısız" |}
        (withSessionId marker st1)
  | (t, LoginRejects err) => connectCatch mail settings0 t err st1
  end.

(** The [libreLinkUp.status] the interface shows. *)
Definition connectionStatus (st : State) : Status :=
  status (libreLinkUp (settingsOf st)).

(** ** deleteEntry and the profile operations *)

Definition withEntries (l : list LogEntry) (st : State) : State :=
  {| profiles := profiles st; activeProfileId := activeProfileId st;
     logEntries := l; settingsRef := settingsRef st;
     libreSessionId := libreSessionId st; libreIsMock := libreIsMock st;
     uuidCount := uuidCount st; shown := shown st; alerts := alerts st |}.

(** [deleteEntry(id)] *)
Definition deleteEntry (entryId : string) (st : State) : State :=
  withEntries
    (List.filter (fun entry => negb (String.eqb (id entry) entryId))
                 (logEntries st))
    st.

(** [switchProfile(profileId)] *)
Definition switchProfile (pid : string) (st : State) : State :=
  {| profiles := profiles st; activeProfileId := Some pid;
     logEntries := logEntries st; settingsRef := settingsRef st;
     libreSessionId := libreSessionId st; libreIsMock := libreIsMock st;
     uuidCount := uuidCount st; shown := shown st; alerts := alerts st |}.

(** [addProfile(profileData)]; of [profileData] the model keeps the
    name. *)
Definition addProfile (P : Platform) (name : string) (st : State) : State :=
  let newProfile :=
    {| profile_id := uuidv4 P (uuidCount st);
       profile_name := name;
       settings := initialSettings |} in
  {| profiles := profiles st ++ [newProfile];
     activeProfileId := Some (profile_id newProfile);
     logEntries := logEntries st; settingsRef := settingsRef st;
     libreSessionId := libreSessionId st; libreIsMock := libreIsMock st;
     uuidCount := S (uuidCount st); shown := shown st; alerts := alerts st |}.

(** [deleteProfile(profileId)]; [confirmed] is the answer to
    [window.confirm].  The cell [activeProfileId] is the state cell
    here: [setActiveProfileId(null)] leaves [activeProfileIdRef] at its
    old value. *)
Definition deleteProfile (confirmed : bool) (pid : string) (st : State) : State :=
  if (length (profiles st) <=? 1)%nat then
    withAlert "En az bir profil kalmalıdır." st
  else if confirmed then
    {| profiles :=
         List.filter (fun p => negb (String.eqb (profile_id p) pid)) (profiles st);
       activeProfileId :=
         if bool_decide (activeProfileId st = Some pid) then
           match List.find (fun p => negb (String.eqb (profile_id p) pid))
                           (profiles st) with
           | Some p =>
               if String.eqb (profile_id p) "" then None else Some (profile_id p)
           | None => None
           end
         else activeProfileId st;
       logEntries :=
         List.filter (fun e => negb (String.eqb (profileId e) pid)) (logEntries st);
       settingsRef := settingsRef st;
       libreSessionId := libreSessionId st; libreIsMock := libreIsMock st;
       uuidCount := uuidCount st; shown := shown st; alerts := alerts st |}
  else st.

End Client.

(* ===================================================================== *)
(** * A concrete platform *)
(* ===================================================================== *)

(** An executable [Platform] on which the code can be run: ISO-8601
    timestamps of the form [YYYY-MM-DDTHH:mm:ss.sssZ], as [toISOString]
    prints them, for the years 0000 to 9999; identifiers numbered in the
    order in which they are drawn. *)
Module Node.

Definition digit (c : Ascii.ascii) : option Z :=
  let n := Ascii.N_of_ascii c in
  if ((48 <=? n) && (n <=? 57))%N then Some (Z.of_N n - 48) else None.

Fixpoint number (acc : Z) (s : string) : option Z :=
  match s with
  | EmptyString => Some acc
  | String c rest =>
      match digit c with
      | Some d => number (acc * 10 + d) rest
      | None => None
      end
  end.

Definition field (s : string) (off len : nat) : option Z :=
  let part := String.substring off len s in
  if (String.length part =? len)%nat then number 0 part else None.

Definition daysFromCivil (y m d : Z) : Z :=
  let y' := if m <=? 2 then y - 1 else y in
  let era := y' / 400 in
  let yoe := y' - era * 400 in
  let doy := (153 * (if 2 <? m then m - 3 else m + 9) + 2) / 5 + d - 1 in
  let doe := yoe * 365 + yoe / 4 - yoe / 100 + doy in
  era * 146097 + doe - 719468.

Definition civilFromDays (days : Z) : Z * Z * Z :=
  let z := days + 719468 in
  let era := z / 146097 in
  let doe := z - era * 146097 in
  let yoe := (doe - doe / 1460 + doe / 36524 - doe / 146096) / 365 in
  let doy := doe - (365 * yoe + yoe / 4 - yoe / 100) in
  let mp := (5 * doy + 2) / 153 in
  let d := doy - (153 * mp + 2) / 5 + 1 in
  let m := if mp <? 10 then mp + 3 else mp - 9 in
  (yoe + era * 400 + (if m <=? 2 then 1 else 0), m, d).

Definition separators (s : string) : bool :=
  String.eqb (String.substring 4 1 s) "-"
  && String.eqb (String.substring 7 1 s) "-"
  && String.eqb (String.substring 10 1 s) "T"
  && String.eqb (String.substring 13 1 s) ":"
  && String.eqb (String.substring 16 1 s) ":"
  && String.eqb (String.substring 19 1 s) "."
  && String.eqb (String.substring 23 2 s) "Z".

Definition parse (s : string) : option Z :=
  if separators s then
    match field s 0 4, field s 5 2, field s 8 2,
          field s 11 2, field s 14 2, field s 17 2, field s 20 3 with
    | Some y, Some mo, Some d, Some h, Some mi, Some sec, Some ms =>
        if (1 <=? mo) && (mo <=? 12) && (1 <=? d) && (d <=? 31)
           && (h <=? 23) && (mi <=? 59) && (sec <=? 59) then
          Some ((((daysFromCivil y mo d * 24 + h) * 60 + mi) * 60 + sec) * 1000 + ms)
        else None
    | _, _, _, _, _, _, _ => None
    end
  else None.

Fixpoint zeros (n : nat) : string :=
  match n with
  | O => EmptyString
  | S n' => "0" +:+ zeros n'
  end.

Definition pad (width : nat) (n : Z) : string :=
  let s := Js.showZ n in
  zeros (width - String.length s) +:+ s.

Definition print (t : Z) : string :=
  let days := t / 86400000 in
  let rest := t mod 86400000 in
  let '(y, m, d) := civilFromDays days in
  pad 4 y +:+ "-" +:+ pad 2 m +:+ "-" +:+ pad 2 d +:+ "T"
  +:+ pad 2 (rest / 3600000) +:+ ":" +:+ pad 2 (rest / 60000 mod 60) +:+ ":"
  +:+ pad 2 (rest / 1000 mod 60) +:+ "." +:+ pad 3 (rest mod 1000) +:+ "Z".

Definition platform : Platform :=
  {| uuidv4 := fun n => "uuid-" +:+ Js.showZ (Z.of_nat n);
     dateParse := parse;
     toISOString := print;
     sha256hex := fun s => "sha256:" +:+ s |}.

End Node.

(* ===================================================================== *)
(** * Scenarios and stated properties *)
(* ===================================================================== *)

Module Scenarios.
Import Js.

(** ** Vendors *)

(** Every call to the vendor fails with a timeout. *)
Definition timesOut {A} (net : Server.Net A) : Prop :=
  ∀ k, ∃ e, net k = Throw e ∧ Server.isTimeout e = true.

(** The error axios raises when its [timeout] elapses. *)
Definition axiosTimeout : Error :=
  {| name := "AxiosError";
     code := Some "ECONNABORTED";
     message := "timeout of 60000ms exceeded";
     response := None |}.

Definition deadVendor {A} : Server.Net A := fun _ => Throw axiosTimeout.

(** The error axios raises on an HTTP status outside 2xx. *)
Definition axiosStatus (status : Z) : Error :=
  {| name := "AxiosError";
     code := Some (if status <? 500 then "ERR_BAD_REQUEST" else "ERR_BAD_RESPONSE");
     message := "Request failed with status code " +:+ showZ status;
     response := Some {| err_status := status; err_data_message := None |} |}.

Definition answers {A} (status : Z) (data : A) : Server.Net A :=
  fun _ => Ret {| Server.resp_status := status; Server.resp_data := data |}.

(** The retry bound as the specification words it. *)
Definition threeAttempts {A} (net : Server.Net A) : Prop :=
  let evs := (Server.axiosWithRetry net 0 Server.defaultRetries).1 in
  Server.attempts evs = 3%nat ∧ Server.delays evs = [0; 1000; 2000].

(** ** Sensors *)

(** The sensor bound as the specification words it. *)
Definition withinFourteenDays (t0 now : Z) : Prop :=
  ∃ s e d,
    Server.wearLife (Some t0) now
    = {| Server.wl_startDate := Some s;
         Server.wl_endDate := Some e;
         Server.wl_daysLeft := Some d |}
    ∧ e = s + 14 * Server.msPerDay
    ∧ d = Z.max 0 (Server.ceilDiv (e - now) Server.msPerDay)
    ∧ 0 ≤ d ≤ 14.

(** ** Sessions *)

Definition demoSession : Server.Session :=
  {| Server.token := "tok";
     Server.clientVersion := "4.16.0";
     Server.userId := "user-1";
     Server.accountId := "sha256:user-1";
     Server.region := "EU";
     Server.baseURL := "https://api-eu.libreview.io" |}.

Definition oneSession : Server.State :=
  {| Server.sessions := {[ "sid-1" := demoSession ]}; Server.disk := None |}.

Definition goodLogin : Server.Net (option Server.LoginData) :=
  answers 200 (Some {| Server.login_status := Some 0;
                       Server.login_token := Some "tok";
                       Server.login_userId := Some "user-1" |}).

Definition credentials : option Server.ConnectBody :=
  Some {| Server.req_email := Some "a@b.c";
          Server.req_password := Some "secret";
          Server.req_region := None;
          Server.req_clientVersion := None |}.

(** A connection without an embedded measurement and without sensor
    data: the read handler turns to the graph endpoint. *)
Definition bareConnection : Server.Connection :=
  {| Server.pending := Some false;
     Server.connection_glucoseMeasurement := None;
     Server.glucoseMeasurement := None;
     Server.conn_sensor := None;
     Server.patientId := "patient-1" |}.

(** ** The log *)

(** [x] is not older than [y], both timestamps being dates. *)
Definition newerFirst (P : Platform) (x y : Types.LogEntry) : Prop :=
  match dateParse P (Types.timestamp x), dateParse P (Types.timestamp y) with
  | Some tx, Some ty => ty ≤ tx
  | _, _ => False
  end.

(** Sorted by timestamp, descending. *)
Definition sortedLog (P : Platform) (l : list Types.LogEntry) : Prop :=
  StronglySorted (newerFirst P) l.

(** Every timestamp of the log parses as a date. *)
Definition dated (P : Platform) (l : list Types.LogEntry) : Prop :=
  Forall (fun e => is_Some (dateParse P (Types.timestamp e))) l.

(** The number of entries that carry the timestamp [ts]. *)
Fixpoint countAt (ts : string) (l : list Types.LogEntry) : nat :=
  match l with
  | [] => O
  | e :: l' =>
      ((if String.eqb (Types.timestamp e) ts then 1 else 0) + countAt ts l')%nat
  end.

(** One tick per clock value, each of which fetches the same reading. *)
Fixpoint poll (P : Platform) (r : Server.Reading) (clocks : list Z)
    (st : Client.State) : Client.State :=
  match clocks with
  | [] => st
  | now :: rest =>
      poll P r rest (Client.tick P now true (Client.Resolves (Some [r])) st)
  end.

(** The two ways in which the log grows. *)
Inductive Insertion :=
| Manual (now : Z) (granted : bool) (entryData : Types.AddEntryData)
| Merge (now : Z) (readings : list Server.Reading).

Definition insertion (P : Platform) (st : Client.State) (i : Insertion)
  : Client.State :=
  match i with
  | Manual now granted entryData =>
      Client.render (Client.addEntry P now granted entryData st)
  | Merge now readings =>
      Client.tick P now true (Client.Resolves (Some readings)) st
  end.

Definition insertions (P : Platform) (l : list Insertion) (st : Client.State)
  : Client.State :=
  foldl (insertion P) st l.

(** The timestamps an insertion brings are dates. *)
Definition datedInsertion (P : Platform) (i : Insertion) : Prop :=
  match i with
  | Manual now _ entryData =>
      is_Some (dateParse P (orElse (Types.add_timestamp entryData)
                                   (toISOString P now)))
  | Merge _ readings =>
      Forall (fun r => is_Some (dateParse P (Server.timestamp r))) readings
  end.

(** What a tick fetched. *)
Definition fetched (fetch : Client.Fetch) : list Server.Reading :=
  match fetch with
  | Client.Resolves (Some readings) => readings
  | _ => []
  end.

(** [e] is the CGM entry built from one of [readings] for the profile
    that is active in [st]. *)
Definition cgmEntryFrom (st : Client.State) (readings : list Server.Reading)
    (e : Types.LogEntry) : Prop :=
  ∃ r v,
    r ∈ readings
    ∧ Server.value r = Some v
    ∧ Types.type e = Types.BloodSugar
    ∧ Types.data e = Types.BloodSugarData v Types.CGM (Server.trendArrow r)
    ∧ Types.timestamp e = Server.timestamp r
    ∧ Client.activeProfileId st = Some (Types.profileId e)
    ∧ Types.profileId e ≠ "".

(** ** Client states *)

Definition demoProfile : Types.Profile :=
  {| Types.profile_id := "p1";
     Types.profile_name := "Ada";
     Types.settings := Client.initialSettings |}.

(** One profile, active, with a session marker and an empty log. *)
Definition freshClient : Client.State :=
  {| Client.profiles := [demoProfile];
     Client.activeProfileId := Some "p1";
     Client.logEntries := [];
     Client.settingsRef := Client.initialSettings;
     Client.libreSessionId := Some "sid-1";
     Client.libreIsMock := None;
     Client.uuidCount := 0;
     Client.shown := [];
     Client.alerts := [] |}.

Definition reading110 : Server.Reading :=
  {| Server.value := Some 110;
     Server.timestamp := "2023-11-14T22:13:20.000Z";
     Server.trendArrow := Some 3;
     Server.sensor := None |}.

Definition manual95 : Types.AddEntryData :=
  {| Types.add_data := Types.BloodSugarData 95 Types.Fasting None;
     Types.add_timestamp := Some "2023-11-15T07:00:00.000Z" |}.

(** The connect bound as the specification words it: an attempt that is
    still running after 75 s is treated as a failure. *)
Definition boundedConnect (run : Client.ConnectRun) : Prop :=
  Client.returnedAt run ≤ Client.connectTimeout ∨ Client.failed run = true.

(** The client after its first successful poll: one CGM entry in the
    log, one identifier drawn. *)
Definition loggedClient : Client.State :=
  {| Client.profiles := [demoProfile];
     Client.activeProfileId := Some "p1";
     Client.logEntries :=
       [{| Types.id := "uuid-0";
           Types.timestamp := "2023-11-14T22:13:20.000Z";
           Types.profileId := "p1";
           Types.data := Types.BloodSugarData 110 Types.CGM (Some 3) |}];
     Client.settingsRef := Client.initialSettings;
     Client.libreSessionId := Some "sid-1";
     Client.libreIsMock := None;
     Client.uuidCount := 1;
     Client.shown := [];
     Client.alerts := [] |}.

Definition secondProfile : Types.Profile :=
  {| Types.profile_id := "p2";
     Types.profile_name := "Bo";
     Types.settings := Client.initialSettings |}.

(** Two profiles on one device, the first one active, with a session
    marker and an empty log. *)
Definition sharedClient : Client.State :=
  {| Client.profiles := [demoProfile; secondProfile];
     Client.activeProfileId := Some "p1";
     Client.logEntries := [];
     Client.settingsRef := Client.initialSettings;
     Client.libreSessionId := Some "sid-1";
     Client.libreIsMock := None;
     Client.uuidCount := 0;
     Client.shown := [];
     Client.alerts := [] |}.

(** The shared client after one poll under the first profile and a
    switch to the second one. *)
Definition switchedClient : Client.State :=
  Client.render
    (Client.switchProfile "p2"
       (poll Node.platform reading110 [1700000000000] sharedClient)).

(** The ids of a log are pairwise different and were each drawn among
    the first [count] identifiers. *)
Definition numberedLog (P : Platform) (count : nat) (l : list Types.LogEntry)
  : Prop :=
  NoDup (Types.id <$> l)
  ∧ Forall (fun e => ∃ n, (n < count)%nat ∧ Types.id e = uuidv4 P n) l.

Definition numbered (P : Platform) (st : Client.State) : Prop :=
  numberedLog P (Client.uuidCount st) (Client.logEntries st).

End Scenarios.


(* ===================================================================== *)
(** * Properties of the gateway *)
(* ===================================================================== *)

Module ServerSpec.
Import Js Server Scenarios.

(** ** Retry policy *)

Lemma timesOut_deadVendor A : timesOut (@deadVendor A).
Proof. intros k. exists axiosTimeout. split; reflexivity. Qed.

Lemma retry_step {A} (net : Net A) k retries e :
  net k = Throw e →
  isTimeout e = true →
  axiosWithRetry net k (S retries)
  = (Attempt k :: Delay ((4 - Z.of_nat (S retries)) * 1000)
       :: (axiosWithRetry net (S k) retries).1,
     (axiosWithRetry net (S k) retries).2).
Proof.
  intros Hk Ht. cbn [axiosWithRetry]. rewrite Hk, Ht. cbn [orb].
  destruct (axiosWithRetry net (S k) retries); reflexivity.
Qed.

Lemma retry_exhausted {A} (net : Net A) k e :
  net k = Throw e → axiosWithRetry net k 0 = ([Attempt k], Throw e).
Proof. intros Hk. cbn [axiosWithRetry]. rewrite Hk. reflexivity. Qed.

Lemma retry_not_retryable {A} (net : Net A) k retries e :
  net k = Throw e →
  isTimeout e = false →
  isServerErr e = false →
  axiosWithRetry net k retries = ([Attempt k], Throw e).
Proof.
  intros Hk Ht Hs. destruct retries; cbn [axiosWithRetry]; rewrite Hk.
  - reflexivity.
  - rewrite Ht, Hs. reflexivity.
Qed.

Lemma request_timesOut {A} (net : Net A) :
  timesOut net → ∃ e, request net = Throw e ∧ isTimeout e = true.
Proof.
  intros Hdead. unfold request, defaultRetries.
  destruct (Hdead 0%nat) as (e0 & H0 & T0).
  destruct (Hdead 1%nat) as (e1 & H1 & T1).
  destruct (Hdead 2%nat) as (e2 & H2 & T2).
  destruct (Hdead 3%nat) as (e3 & H3 & T3).
  rewrite (retry_step net 0 2 e0 H0 T0). cbn [snd].
  rewrite (retry_step net 1 1 e1 H1 T1). cbn [snd].
  rewrite (retry_step net 2 0 e2 H2 T2). cbn [snd].
  rewrite (retry_exhausted net 3 e3 H3). cbn [snd].
  exists e3. split; [reflexivity | exact T3].
Qed.

(** C2, as amended.  A call whose every attempt times out is attempted
    four times, the first at once and the retries after 1 s, 2 s and
    3 s, and then fails with the timeout error of the last attempt,
    which the connect endpoint reports as 504.  A failure that carries a
    4xx response and is no timeout is not retried. *)
Theorem retry_on_persistent_timeout {A} (net : Net A) (Hdead : timesOut net) :
  let evs := (axiosWithRetry net 0 defaultRetries).1 in
  let out := (axiosWithRetry net 0 defaultRetries).2 in
  evs = [Attempt 0; Delay 1000; Attempt 1; Delay 2000;
         Attempt 2; Delay 3000; Attempt 3]
  ∧ attempts evs = 4%nat
  ∧ delays evs = [0; 1000; 2000; 3000]
  ∧ (∃ e, out = Throw e ∧ isTimeout e = true)
  ∧ (∀ P fresh req writeOk st (login : Net (option LoginData)),
       timesOut login →
       truthy (req ≫= req_email) = true →
       truthy (req ≫= req_password) = true →
       connect P fresh req login writeOk st
       = (st, respond 504 (ErrorJson "Libre sunucusuna ulaşılamadı (Zaman Aşımı).")))
  ∧ (∀ (other : Net A) k retries e r,
       other k = Throw e →
       isTimeout e = false →
       response e = Some r →
       400 ≤ err_status r < 500 →
       axiosWithRetry other k retries = ([Attempt k], Throw e)).
Proof.
  cbv zeta. unfold defaultRetries.
  destruct (Hdead 0%nat) as (e0 & H0 & T0).
  destruct (Hdead 1%nat) as (e1 & H1 & T1).
  destruct (Hdead 2%nat) as (e2 & H2 & T2).
  destruct (Hdead 3%nat) as (e3 & H3 & T3).
  rewrite (retry_step net 0 2 e0 H0 T0). cbn [fst snd].
  rewrite (retry_step net 1 1 e1 H1 T1). cbn [fst snd].
  rewrite (retry_step net 2 0 e2 H2 T2). cbn [fst snd].
  rewrite (retry_exhausted net 3 e3 H3). cbn [fst snd].
  repeat split.
  - exists e3. split; [reflexivity | exact T3].
  - intros P fresh req writeOk st login Hlogin Hmail Hpass.
    destruct (request_timesOut login Hlogin) as (e & He & Te).
    unfold connect. rewrite Hmail, Hpass. cbn [negb orb].
    rewrite He. unfold connectCatch. rewrite Te. reflexivity.
  - intros other k retries e r Hk Ht Hr [_ Hlt].
    apply retry_not_retryable; [exact Hk | exact Ht |].
    unfold isServerErr. rewrite Hr. apply Z.leb_gt. exact Hlt.
Qed.

Lemma retry_on_persistent_timeout_witness :
  timesOut (@deadVendor unit)
  ∧ (axiosWithRetry (@deadVendor unit) 0 defaultRetries).1
    = [Attempt 0; Delay 1000; Attempt 1; Delay 2000;
       Attempt 2; Delay 3000; Attempt 3]
  ∧ attempts (axiosWithRetry (@deadVendor unit) 0 defaultRetries).1 = 4%nat.
Proof.
  assert (Hdead : timesOut (@deadVendor unit))
    by (intros k; exists axiosTimeout; split; reflexivity).
  split; [exact Hdead |].
  destruct (retry_on_persistent_timeout deadVendor Hdead) as (Hevs & Hn & _).
  split; [exact Hevs | exact Hn].
Defined.

(** C2, as the specification words it, fails on a vendor that always
    times out: the fourth attempt is made. *)
Lemma three_attempts_refuted :
  timesOut (@deadVendor unit) ∧ ¬ threeAttempts (@deadVendor unit).
Proof.
  split; [apply timesOut_deadVendor |].
  unfold threeAttempts. cbn. intros [Hn _]. discriminate Hn.
Qed.

(** ** Sensor wear-life *)

Lemma ceilDiv_spec x d :
  0 < d → (ceilDiv x d - 1) * d < x ≤ ceilDiv x d * d.
Proof.
  intros Hd. unfold ceilDiv.
  pose proof (Z.div_mod (- x) d ltac:(lia)) as Hdm.
  pose proof (Z.mod_pos_bound (- x) d Hd) as Hb.
  nia.
Qed.

Lemma ceilDiv_le x d n : 0 < d → x ≤ n * d → ceilDiv x d ≤ n.
Proof. intros Hd Hx. pose proof (ceilDiv_spec x d Hd). nia. Qed.

Lemma ceilDiv_exact n d : 0 < d → ceilDiv (n * d) d = n.
Proof. intros Hd. pose proof (ceilDiv_spec (n * d) d Hd). nia. Qed.

Lemma newDate_valid ms : Z.abs ms ≤ maxTime → newDate ms = Some ms.
Proof. intros H. unfold newDate. apply Z.leb_le in H. rewrite H. reflexivity. Qed.

Lemma msPerDay_pos : 0 < msPerDay.
Proof. reflexivity. Qed.

(** C5, as amended.  For a non-zero activation epoch whose dates are
    representable, the end date is the start date plus 14 days and
    [daysLeft] is [max(0, ceil((endDate - now) / 1 day))], the ceiling
    being the least whole number of days that covers the remaining time;
    [daysLeft] is never negative, it is at most 14 when the activation
    is not later than [now], and it is 4 ten days after the
    activation.  [sensorInfoOf] reports these values. *)
Theorem wearLife_bounds (t0 now : Z)
    (Hactivated : t0 ≠ 0)
    (Hrange : Z.abs (t0 * 1000) + 14 * msPerDay ≤ maxTime) :
  let startDate := t0 * 1000 in
  let endDate := startDate + 14 * msPerDay in
  let daysLeft := Z.max 0 (ceilDiv (endDate - now) msPerDay) in
  wearLife (Some t0) now
  = {| wl_startDate := Some startDate;
       wl_endDate := Some endDate;
       wl_daysLeft := Some daysLeft |}
  ∧ (∀ P sn pt,
       sensorInfoOf P now {| a := Some t0; sn := sn; pt := pt |}
       = Ret {| Types.serial := sn;
                Types.startDate := toISOString P startDate;
                Types.endDate := toISOString P endDate;
                Types.daysLeft := daysLeft;
                Types.state := stateStr pt |})
  ∧ ((ceilDiv (endDate - now) msPerDay - 1) * msPerDay
     < endDate - now ≤ ceilDiv (endDate - now) msPerDay * msPerDay)
  ∧ 0 ≤ daysLeft
  ∧ (startDate ≤ now → daysLeft ≤ 14)
  ∧ (now = startDate + 10 * msPerDay → daysLeft = 4).
Proof.
  cbv zeta.
  assert (Hw : wearLife (Some t0) now
               = {| wl_startDate := Some (t0 * 1000);
                    wl_endDate := Some (t0 * 1000 + 14 * msPerDay);
                    wl_daysLeft :=
                      Some (Z.max 0 (ceilDiv (t0 * 1000 + 14 * msPerDay - now)
                                             msPerDay)) |}).
  { unfold wearLife, activated.
    apply Z.eqb_neq in Hactivated. rewrite Hactivated. cbn [negb default from_option]. unfold id.
    rewrite newDate_valid by (unfold msPerDay, maxTime in *; lia).
    cbn [mbind option_bind].
    change (14 * 24 * 60 * 60 * 1000) with (14 * msPerDay).
    rewrite newDate_valid by (unfold msPerDay, maxTime in *; lia).
    reflexivity. }
  split; [exact Hw |].
  split.
  { intros P sn' pt'. unfold sensorInfoOf. cbn [a sn pt]. rewrite Hw.
    reflexivity. }
  split; [apply ceilDiv_spec, msPerDay_pos |].
  split; [lia |].
  split.
  - intros Hpast.
    pose proof (ceilDiv_le (t0 * 1000 + 14 * msPerDay - now) msPerDay 14
                  msPerDay_pos ltac:(lia)).
    lia.
  - intros ->.
    replace (t0 * 1000 + 14 * msPerDay - (t0 * 1000 + 10 * msPerDay))
      with (4 * msPerDay) by lia.
    rewrite ceilDiv_exact by apply msPerDay_pos. reflexivity.
Qed.

Lemma wearLife_bounds_witness :
  1700000000 ≠ 0
  ∧ Z.abs (1700000000 * 1000) + 14 * msPerDay ≤ maxTime
  ∧ wearLife (Some 1700000000) 1700864000000
    = {| wl_startDate := Some 1700000000000;
         wl_endDate := Some 1701209600000;
         wl_daysLeft := Some 4 |}.
Proof.
  assert (Hactivated : 1700000000 ≠ 0) by discriminate.
  assert (Hrange : Z.abs (1700000000 * 1000) + 14 * msPerDay ≤ maxTime)
    by (vm_compute; discriminate).
  split; [exact Hactivated | split; [exact Hrange |]].
  exact (proj1 (wearLife_bounds 1700000000 1700864000000 Hactivated Hrange)).
Defined.

(** C5, as the specification words it, fails for a sensor whose
    activation lies a day ahead of the gateway's clock (15 days are
    left), and for the activation epoch 0, which the code takes for a
    missing one (the end date is then the start date). *)
Lemma fourteen_days_refuted :
  ¬ withinFourteenDays 1700086400 1700000000000
  ∧ ¬ withinFourteenDays 0 1700000000000.
Proof.
  split; intros (s & e & d & Hw & He & Hd & Hb).
  - vm_compute in Hw. injection Hw as <- <- <-. lia.
  - vm_compute in Hw. injection Hw as <- <- <-. vm_compute in He. discriminate He.
Qed.

(** ** Session table *)

Lemma sessions_saveSessions writeOk st :
  sessions (saveSessions writeOk st) = sessions st.
Proof. destruct writeOk; reflexivity. Qed.

Lemma eqb_false_of_ne (s t : string) : s ≠ t → String.eqb s t = false.
Proof. intros H. apply String.eqb_neq. exact H. Qed.

Lemma sessions_disconnect sid writeOk st :
  sid ≠ "" →
  sessions (disconnect (Some sid) writeOk st).1 = delete sid (sessions st).
Proof.
  intros Hsid. unfold disconnect. cbn [fst].
  rewrite sessions_saveSessions, (eqb_false_of_ne _ _ Hsid). reflexivity.
Qed.

Lemma sessions_disconnect_empty writeOk st :
  sessions (disconnect (Some "") writeOk st).1 = sessions st.
Proof. unfold disconnect. cbn [fst]. apply sessions_saveSessions. Qed.

Lemma sessions_disconnect_missing writeOk st :
  sessions (disconnect None writeOk st).1 = sessions st.
Proof. unfold disconnect. cbn [fst]. apply sessions_saveSessions. Qed.

(** C7.  Whatever [sessionId] the request carries, [disconnect] leaves
    no record under it, changes nothing when there was none, leaves the
    other records alone and answers [{success:true}]; a second
    disconnect answers the same and leaves the table as the first one
    left it.  (Identifiers are drawn by [uuidv4], so no record sits
    under the empty string, which the handler takes for a missing id.) *)
Theorem disconnect_idempotent (sessionId : option string) (w1 w2 : bool)
    (st : State) (Hids : sessions st !! "" = None) :
  let once := disconnect sessionId w1 st in
  let twice := disconnect sessionId w2 once.1 in
  (∀ sid, sessionId = Some sid → sessions once.1 !! sid = None)
  ∧ (∀ sid, sessionId = Some sid → sessions st !! sid = None →
       sessions once.1 = sessions st)
  ∧ (sessionId = None → sessions once.1 = sessions st)
  ∧ (∀ other, sessionId ≠ Some other →
       sessions once.1 !! other = sessions st !! other)
  ∧ once.2 = respond 200 SuccessJson
  ∧ twice.2 = respond 200 SuccessJson
  ∧ sessions twice.1 = sessions once.1.
Proof.
  cbv zeta.
  destruct sessionId as [sid|].
  - destruct (decide (sid = "")) as [-> | Hsid].
    + rewrite !sessions_disconnect_empty.
      split_and!; try reflexivity.
      intros sid [= <-]. exact Hids.
    + rewrite !sessions_disconnect by exact Hsid.
      split_and!; try reflexivity.
      * intros sid' [= <-]. apply lookup_delete_eq.
      * intros sid' [= <-] Habsent. apply delete_id. exact Habsent.
      * intros Hnone. discriminate Hnone.
      * intros other Hother. apply lookup_delete_ne. congruence.
      * apply delete_id, lookup_delete_eq.
  - rewrite !sessions_disconnect_missing.
    split_and!; try reflexivity.
    intros sid Hsid. discriminate Hsid.
Qed.

Lemma disconnect_idempotent_witness :
  sessions oneSession !! "" = None
  ∧ sessions (disconnect (Some "sid-1") true oneSession).1 !! "sid-1" = None
  ∧ sessions (disconnect (Some "sid-1") true
                (disconnect (Some "sid-1") true oneSession).1).1
    = sessions (disconnect (Some "sid-1") true oneSession).1.
Proof.
  assert (Hids : sessions oneSession !! "" = None) by (vm_compute; reflexivity).
  split; [exact Hids |].
  destruct (disconnect_idempotent (Some "sid-1") true true oneSession Hids)
    as (Hgone & _ & _ & _ & _ & _ & Htwice).
  split; [exact (Hgone "sid-1" eq_refl) | exact Htwice].
Defined.

(** ** Persistence *)

Lemma connect_writeOk_irrelevant P fresh req net w st :
  sessions (connect P fresh req net w st).1
  = sessions (connect P fresh req net true st).1
  ∧ (connect P fresh req net w st).2 = (connect P fresh req net true st).2.
Proof.
  unfold connect.
  repeat case_match; cbn [fst snd]; rewrite ?sessions_saveSessions; split; reflexivity.
Qed.

(** A login the vendor accepts stores the session and answers with its
    identifier, whether or not the table could be written to disk. *)
Lemma connect_stores_session P fresh req net writeOk st r d tok uid :
  truthy (req ≫= req_email) = true →
  truthy (req ≫= req_password) = true →
  request net = Ret r →
  resp_data r = Some d →
  login_token d = Some tok → tok ≠ "" →
  login_userId d = Some uid → uid ≠ "" →
  let out := connect P fresh req net writeOk st in
  out.2 = respond 200 (ConnectJson (uuidv4 P fresh))
  ∧ is_Some (sessions out.1 !! uuidv4 P fresh).
Proof.
  intros Hmail Hpass Hnet Hdata Htok Htok' Huid Huid'. cbv zeta.
  unfold connect. rewrite Hmail, Hpass. cbn [negb orb].
  rewrite Hnet, Hdata, Htok, Huid.
  unfold truthy. rewrite (eqb_false_of_ne _ _ Htok'), (eqb_false_of_ne _ _ Huid').
  cbn [negb andb orb]. rewrite andb_false_r. cbn [fst snd].
  split; [reflexivity |].
  rewrite sessions_saveSessions. cbn [sessions].
  rewrite lookup_insert_eq. eexists; reflexivity.
Qed.

(** C8.  A failing write to [sessions.json] changes neither the
    in-memory table nor the answer of the operation: with a disk that
    refuses the write, login and disconnect leave the same table and send
    the same response as with a disk that accepts it; only the file keeps
    its old content.  So a login the vendor accepts still stores its
    session and answers 200 with the identifier, and a disconnect still
    removes the record and answers [{success:true}]. *)
Theorem persistence_is_best_effort P fresh req net sessionId st :
  (sessions (connect P fresh req net false st).1
   = sessions (connect P fresh req net true st).1
   ∧ (connect P fresh req net false st).2 = (connect P fresh req net true st).2
   ∧ disk (connect P fresh req net false st).1 = disk st)
  ∧ (∀ r d tok uid,
       truthy (req ≫= req_email) = true →
       truthy (req ≫= req_password) = true →
       request net = Ret r →
       resp_data r = Some d →
       login_token d = Some tok → tok ≠ "" →
       login_userId d = Some uid → uid ≠ "" →
       (connect P fresh req net false st).2
       = respond 200 (ConnectJson (uuidv4 P fresh))
       ∧ is_Some (sessions (connect P fresh req net false st).1 !! uuidv4 P fresh))
  ∧ (sessions (disconnect sessionId false st).1
     = sessions (disconnect sessionId true st).1
     ∧ (disconnect sessionId false st).2 = respond 200 SuccessJson
     ∧ disk (disconnect sessionId false st).1 = disk st)
  ∧ (∀ sid, sessionId = Some sid → sid ≠ "" →
       sessions (disconnect sessionId false st).1 !! sid = None)
  ∧ (let out := connect Node.platform 0 credentials goodLogin false oneSession in
     out.2 = respond 200 (ConnectJson "uuid-0")
     ∧ is_Some (sessions out.1 !! "uuid-0")
     ∧ disk out.1 = None).
Proof.
  split_and!.
  - apply connect_writeOk_irrelevant.
  - apply connect_writeOk_irrelevant.
  - unfold connect. repeat case_match; reflexivity.
  - intros r d tok uid Hmail Hpass Hnet Hdata Htok Htok' Huid Huid'.
    apply (connect_stores_session P fresh req net false st r d tok uid); assumption.
  - unfold disconnect. cbn [fst]. rewrite !sessions_saveSessions. reflexivity.
  - reflexivity.
  - unfold disconnect. cbn [fst snd saveSessions]. repeat case_match; reflexivity.
  - intros sid -> Hsid. rewrite sessions_disconnect by exact Hsid.
    apply lookup_delete_eq.
  - cbv zeta.
    pose proof (connect_stores_session Node.platform 0 credentials goodLogin
                  false oneSession _ _ "tok" "user-1"
                  eq_refl eq_refl eq_refl eq_refl eq_refl
                  ltac:(discriminate) eq_refl ltac:(discriminate)) as [Hr Hs].
    split; [exact Hr | split; [exact Hs |]].
    vm_compute. reflexivity.
Qed.

(** ** The read endpoint *)

(** X8.  A 401 on the connections request removes the session from the
    table and is passed on as 401 ("Token expired"). *)
Lemma read_connections_401 P now sid netCons netHist st session r :
  sid ≠ "" →
  sessions st !! sid = Some session →
  request netCons = Ret r →
  resp_status r = 401 →
  let out := read P now (Some sid) netCons netHist st in
  out.2 = respond 401 (ErrorJson "Token expired")
  ∧ sessions out.1 = delete sid (sessions st)
  ∧ sessions out.1 !! sid = None.
Proof.
  intros Hsid Hsession Hreq H401. cbv zeta.
  unfold read, readTry.
  rewrite (eqb_false_of_ne _ _ Hsid), Hsession, Hreq. cbn [bind].
  rewrite H401. cbn.
  split_and!; try reflexivity. apply lookup_delete_eq.
Qed.

Ltac read_cases :=
  unfold readTry, bind, optional, mkReading, isoTimestamp, sensorInfoOf, bind;
  repeat case_match; simplify_eq; cbn [fst snd status respond sessions].

(** Unless the connections request is answered with 401, reading leaves
    the session table as it was, whatever the graph request returns. *)
Lemma read_keeps_sessions P now sessionId netCons netHist st :
  (∀ r, request netCons = Ret r → resp_status r ≠ 401) →
  sessions (read P now sessionId netCons netHist st).1 = sessions st.
Proof.
  intros Hcons. unfold read.
  destruct (readTry P now sessionId netCons netHist st) as [e | out] eqn:Htry;
    [reflexivity |].
  revert Htry. read_cases; intros; simplify_eq; try reflexivity.
  all: match goal with
       | H' : (resp_status ?r =? 401) = true |- _ =>
           apply Z.eqb_eq in H'; destruct (Hcons r eq_refl H')
       end.
Qed.

Lemma read_status P now sessionId netCons netHist st :
  let code := status (read P now sessionId netCons netHist st).2 in
  code = 200 ∨ code = 204 ∨ code = 400 ∨ code = 401.
Proof.
  cbv zeta. unfold read.
  destruct (readTry P now sessionId netCons netHist st) as [e | out] eqn:Htry;
    [cbn; auto |].
  revert Htry. read_cases; intros; simplify_eq; cbn; auto.
Qed.

(** C9.  Once the session is found, whatever is thrown while the vendor
    is contacted or its payload is processed ends as an empty 204, the
    answer also given when the vendor has no connection to report: a
    failing connections request, a failing graph request and an
    unreadable measurement timestamp are instances.  The status is
    always one of 200, 204 and 401, never a 5xx. *)
Theorem read_failure_is_no_content P now sid netCons netHist st session
    (Hsid : sid ≠ "") (Hsession : sessions st !! sid = Some session) :
  let out := read P now (Some sid) netCons netHist st in
  (∀ e, readTry P now (Some sid) netCons netHist st = Throw e →
        out = (st, respond 204 Empty))
  ∧ (∀ e, request netCons = Throw e → out = (st, respond 204 Empty))
  ∧ (∀ r e, request netCons = Ret r → resp_status r ≠ 401 →
            resp_data r = Some [Some bareConnection] →
            request netHist = Throw e →
            out = (st, respond 204 Empty))
  ∧ (∀ r, request netCons = Ret r → resp_status r ≠ 401 →
          resp_data r = Some [] →
          out = (st, respond 204 Empty))
  ∧ (status out.2 = 200 ∨ status out.2 = 204 ∨ status out.2 = 401)
  ∧ status out.2 < 500.
Proof.
  cbv zeta.
  split_and!.
  - intros e He. unfold read. rewrite He. reflexivity.
  - intros e He. unfold read, readTry.
    rewrite (eqb_false_of_ne _ _ Hsid), Hsession, He. reflexivity.
  - intros r e Hr H401 Hdata Hhist. unfold read, readTry.
    rewrite (eqb_false_of_ne _ _ Hsid), Hsession, Hr. cbn [bind].
    apply Z.eqb_neq in H401. rewrite H401, Hdata. cbn.
    rewrite Hhist. reflexivity.
  - intros r Hr H401 Hdata. unfold read, readTry.
    rewrite (eqb_false_of_ne _ _ Hsid), Hsession, Hr. cbn [bind].
    apply Z.eqb_neq in H401. rewrite H401, Hdata. reflexivity.
  - pose proof (read_status P now (Some sid) netCons netHist st) as Hcode.
    cbv zeta in Hcode. destruct Hcode as [H | [H | [H | H]]]; auto.
    exfalso. revert H. unfold read.
    destruct (readTry P now (Some sid) netCons netHist st) as [e | out] eqn:Htry;
      [cbn; discriminate |].
    revert Htry. unfold readTry.
    rewrite (eqb_false_of_ne _ _ Hsid), Hsession.
    unfold bind, optional, mkReading, isoTimestamp, sensorInfoOf, bind.
    repeat case_match; intros; simplify_eq; cbn in *; discriminate.
  - pose proof (read_status P now (Some sid) netCons netHist st) as Hcode.
    cbv zeta in Hcode. lia.
Qed.

Lemma read_failure_is_no_content_witness :
  "sid-1" ≠ ""
  ∧ sessions oneSession !! "sid-1" = Some demoSession
  ∧ read Node.platform 1700000000000 (Some "sid-1") deadVendor deadVendor
      oneSession
    = (oneSession, respond 204 Empty).
Proof.
  assert (Hsid : "sid-1" ≠ "") by discriminate.
  assert (Hsession : sessions oneSession !! "sid-1" = Some demoSession)
    by (vm_compute; reflexivity).
  split; [exact Hsid | split; [exact Hsession |]].
  destruct (read_failure_is_no_content Node.platform 1700000000000 "sid-1"
              deadVendor deadVendor oneSession demoSession Hsid Hsession)
    as (_ & Hvendor & _).
  exact (Hvendor axiosTimeout eq_refl).
Defined.

(** C3, where the code departs from it.  The connections request is
    answered with 200 and the graph request with 401: the handler
    neither removes the session nor reports the expiry; it answers 204
    and the session stays in the table. *)
Lemma read_graph_401_ignored :
  let out := read Node.platform 1700000000000 (Some "sid-1")
               (answers 200 (Some [Some bareConnection]))
               (answers 401 None) oneSession in
  out.2 = respond 204 Empty
  ∧ sessions out.1 !! "sid-1" = Some demoSession.
Proof. vm_compute. split; reflexivity. Qed.

End ServerSpec.

(* ===================================================================== *)
(** * Properties of the log provider *)
(* ===================================================================== *)

Module ClientSpec.
Import Js Types Client Scenarios.

(** ** [Array.prototype.sort] *)

Section Sort.
Context {A : Type} (cmp : A → A → option Z).

Lemma insertBy_perm x l : insertBy cmp x l ≡ₚ x :: l.
Proof.
  induction l as [| y l IH]; cbn [insertBy]; [reflexivity |].
  destruct (cmpSign (cmp x y) <=? 0); [reflexivity |].
  rewrite IH. apply Permutation_swap.
Qed.

Lemma sort_perm l : sort cmp l ≡ₚ l.
Proof.
  induction l as [| x l IH]; cbn [sort]; [reflexivity |].
  rewrite insertBy_perm, IH. reflexivity.
Qed.

End Sort.

Lemma filter_StronglySorted {A} (R : A → A → Prop) (f : A → bool) l :
  StronglySorted R l → StronglySorted R (List.filter f l).
Proof.
  induction 1 as [| x l Hl IH Hx]; cbn [List.filter]; [constructor |].
  destruct (f x); [| exact IH].
  constructor; [exact IH |].
  rewrite List.Forall_forall in *. intros y Hy.
  apply List.filter_In in Hy. apply Hx, Hy.
Qed.

(** ** Ordering of the log *)

Section Ordering.
Variable P : Platform.

Lemma newerFirst_trans x y z :
  newerFirst P x y → newerFirst P y z → newerFirst P x z.
Proof.
  unfold newerFirst.
  destruct (dateParse P (timestamp x)), (dateParse P (timestamp y)),
    (dateParse P (timestamp z)); try tauto; lia.
Qed.

Lemma dated_perm l l' : l ≡ₚ l' → dated P l → dated P l'.
Proof. intros Hp. unfold dated. rewrite Hp. trivial. Qed.

Lemma insertBy_sorted x l :
  is_Some (dateParse P (timestamp x)) →
  dated P l →
  sortedLog P l →
  sortedLog P (insertBy (entryCmp P) x l).
Proof.
  intros [tx Hx] Hd Hs. induction Hs as [| y l Hl IH Hy]; cbn [insertBy].
  - repeat constructor.
  - apply Forall_cons in Hd as [[ty Hty] Hd].
    assert (Hc : cmpSign (entryCmp P x y) = ty - tx)
      by (unfold entryCmp, sub; rewrite Hx, Hty; reflexivity).
    rewrite Hc. destruct (Z.leb_spec (ty - tx) 0) as [Hle | Hgt].
    + assert (Hxy : newerFirst P x y)
        by (unfold newerFirst; rewrite Hx, Hty; lia).
      constructor; [constructor; assumption |].
      constructor; [exact Hxy |].
      eapply Forall_impl; [exact Hy |].
      intros z Hz. eapply newerFirst_trans; eassumption.
    + constructor; [apply IH; exact Hd |].
      rewrite insertBy_perm. constructor; [| exact Hy].
      unfold newerFirst. rewrite Hty, Hx. lia.
Qed.

Lemma sort_sorted l : dated P l → sortedLog P (sort (entryCmp P) l).
Proof.
  induction l as [| x l IH]; intros Hd; cbn [sort]; [constructor |].
  apply Forall_cons in Hd as [Hx Hd].
  apply insertBy_sorted; [exact Hx | | apply IH; exact Hd].
  eapply dated_perm; [symmetry; apply sort_perm | exact Hd].
Qed.

Lemma sort_dated l : dated P l → dated P (sort (entryCmp P) l).
Proof. apply dated_perm. symmetry. apply sort_perm. Qed.
End Ordering.

(** ** What the operations do to the log *)

Lemma logEntries_updateSettings new st :
  logEntries (updateSettings new st) = logEntries st.
Proof. reflexivity. Qed.

Lemma logEntries_disconnectLibre apiOk st :
  logEntries (disconnectLibre apiOk st) = logEntries st.
Proof. destruct apiOk; reflexivity. Qed.

(** A tick changes the log by [mergeReadings] at most. *)
Lemma logEntries_syncLibreData P now apiOk fetch st :
  logEntries (syncLibreData P now apiOk fetch st)
  = match libreSessionId st with
    | Some _ => logEntries (mergeReadings P (fetched fetch) st)
    | None => logEntries st
    end.
Proof.
  unfold syncLibreData. destruct (libreSessionId st); [| reflexivity].
  destruct fetch as [[m |] | [[| r rs] |]]; cbn [afterFetch fetched];
    try reflexivity.
  destruct (includes "Oturum" m);
    [apply logEntries_disconnectLibre | reflexivity].
Qed.

Lemma logEntries_mergeReadings P readings st :
  let fresh :=
    newEntries P (activeProfileId st) (existingTimestamps (logEntries st))
               (uuidCount st) readings in
  logEntries (mergeReadings P readings st)
  = match fresh with
    | [] => logEntries st
    | _ :: _ => sort (entryCmp P) (logEntries st ++ fresh)
    end.
Proof. cbv zeta. unfold mergeReadings. case_match; reflexivity. Qed.

Lemma elem_of_existingTimestamps ts prev :
  ts ∈ existingTimestamps prev ↔ ∃ e, e ∈ prev ∧ timestamp e = ts.
Proof.
  unfold existingTimestamps. rewrite elem_of_list_to_set, list_elem_of_fmap.
  split; intros (e & H1 & H2); exists e; auto.
Qed.

(** The entries the [forEach] builds: one per reading that has a value
    and an unseen timestamp, provided a profile is active. *)
Lemma newEntries_spec P st seen n readings :
  Forall (fun e => cgmEntryFrom st readings e ∧ timestamp e ∉ seen)
         (newEntries P (activeProfileId st) seen n readings).
Proof.
  revert n. induction readings as [| r rs IH]; intros n; cbn [newEntries];
    [constructor |].
  assert (Hrest : ∀ k,
    Forall (fun e => cgmEntryFrom st (r :: rs) e ∧ timestamp e ∉ seen)
           (newEntries P (activeProfileId st) seen k rs)).
  { intros k. eapply Forall_impl; [apply IH |].
    intros e [(r' & v & Hin & Hrest) Hts]. split; [| exact Hts].
    exists r', v. split; [right; exact Hin | exact Hrest]. }
  destruct (Server.value r) as [v |] eqn:Hv; [| apply Hrest].
  destruct (activeProfileId st) as [pid |] eqn:Hpid; [| apply Hrest].
  destruct (bool_decide (Server.timestamp r ∉ seen)) eqn:Hseen;
    cbn [andb]; [| apply Hrest].
  destruct (String.eqb pid "") eqn:Hempty; cbn [negb]; [apply Hrest |].
  constructor; [| apply Hrest].
  split.
  - exists r, v. cbn.
    split_and!; try reflexivity; try assumption; [left |].
    apply String.eqb_neq. exact Hempty.
  - apply bool_decide_eq_true in Hseen. exact Hseen.
Qed.

Lemma newEntries_no_profile P seen n readings :
  newEntries P None seen n readings = [].
Proof.
  revert n. induction readings as [| r rs IH]; intros n; cbn [newEntries];
    [reflexivity |].
  destruct (Server.value r); apply IH.
Qed.

Lemma newEntries_no_value P pid seen n readings :
  Forall (fun r => Server.value r = None) readings →
  newEntries P pid seen n readings = [].
Proof.
  intros H. revert n. induction H as [| r rs Hr _ IH]; intros n;
    cbn [newEntries]; [reflexivity |].
  rewrite Hr. apply IH.
Qed.

Lemma newEntries_seen P pid seen n readings :
  Forall (fun r => Server.timestamp r ∈ seen) readings →
  newEntries P pid seen n readings = [].
Proof.
  intros H. revert n. induction H as [| r rs Hr _ IH]; intros n;
    cbn [newEntries]; [reflexivity |].
  destruct (Server.value r); [| apply IH].
  destruct pid; [| apply IH].
  rewrite bool_decide_eq_false_2 by (intros Hn; exact (Hn Hr)).
  apply IH.
Qed.

Lemma cgmEntryFrom_dated P st readings e :
  Forall (fun r => is_Some (dateParse P (Server.timestamp r))) readings →
  cgmEntryFrom st readings e →
  is_Some (dateParse P (timestamp e)).
Proof.
  intros Hd (r & v & Hin & _ & _ & _ & Hts & _).
  rewrite Hts. rewrite Forall_forall in Hd. apply Hd, Hin.
Qed.

(** ** C6: ordering *)

Lemma addEntry_log P now granted entryData st pid :
  activeProfileId st = Some pid →
  pid ≠ "" →
  logEntries (addEntry P now granted entryData st)
  = sort (entryCmp P)
      (logEntries st
       ++ [{| id := uuidv4 P (uuidCount st);
              timestamp := orElse (add_timestamp entryData) (toISOString P now);
              profileId := pid;
              data := add_data entryData |}]).
Proof.
  intros Hpid Hne. unfold addEntry. rewrite Hpid.
  apply String.eqb_neq in Hne. rewrite Hne. reflexivity.
Qed.

Lemma addEntry_log_inactive P now granted entryData st :
  (activeProfileId st = None ∨ activeProfileId st = Some "") →
  addEntry P now granted entryData st = st.
Proof. intros [H | H]; unfold addEntry; rewrite H; reflexivity. Qed.

(** An insertion leaves the log alone or leaves it sorted and dated. *)
Lemma insertion_sorted P i st :
  dated P (logEntries st) →
  datedInsertion P i →
  logEntries (insertion P st i) = logEntries st
  ∨ (sortedLog P (logEntries (insertion P st i))
     ∧ dated P (logEntries (insertion P st i))).
Proof.
  intros Hd Hi. destruct i as [now granted entryData | now readings];
    cbn [insertion datedInsertion] in *.
  - change (logEntries (render ?s)) with (logEntries s).
    destruct (activeProfileId st) as [pid |] eqn:Hpid;
      [| left; rewrite addEntry_log_inactive by auto; reflexivity].
    destruct (decide (pid = "")) as [-> | Hne];
      [left; rewrite addEntry_log_inactive by auto; reflexivity |].
    right. rewrite (addEntry_log _ _ _ _ _ _ Hpid Hne).
    assert (Hall : dated P (logEntries st
       ++ [{| id := uuidv4 P (uuidCount st);
              timestamp := orElse (add_timestamp entryData) (toISOString P now);
              profileId := pid;
              data := add_data entryData |}])).
    { apply Forall_app. split; [exact Hd |]. repeat constructor. exact Hi. }
    split; [apply sort_sorted | apply sort_dated]; exact Hall.
  - unfold tick. change (logEntries (render ?s)) with (logEntries s).
    rewrite logEntries_syncLibreData. cbn [fetched].
    destruct (libreSessionId st); [| left; reflexivity].
    rewrite logEntries_mergeReadings.
    pose proof (newEntries_spec P st (existingTimestamps (logEntries st))
                  (uuidCount st) readings) as Hfresh.
    destruct (newEntries P (activeProfileId st)
                (existingTimestamps (logEntries st)) (uuidCount st) readings)
      as [| e fresh] eqn:Hnew; [left; reflexivity |].
    right.
    assert (Hall : dated P (logEntries st ++ e :: fresh)).
    { apply Forall_app. split; [exact Hd |].
      eapply Forall_impl; [exact Hfresh |].
      intros x [Hx _]. eapply cgmEntryFrom_dated; eassumption. }
    split; [apply sort_sorted | apply sort_dated]; exact Hall.
Qed.

Lemma insertions_sorted P ops st :
  dated P (logEntries st) →
  sortedLog P (logEntries st) →
  Forall (datedInsertion P) ops →
  sortedLog P (logEntries (insertions P ops st))
  ∧ dated P (logEntries (insertions P ops st)).
Proof.
  intros Hd Hs Hops. revert st Hd Hs.
  induction Hops as [| i ops Hi _ IH]; intros st Hd Hs; cbn; [auto |].
  destruct (insertion_sorted P i st Hd Hi) as [Hsame | [Hs' Hd']].
  - apply IH; rewrite Hsame; assumption.
  - apply IH; assumption.
Qed.

(** C6.  From a log that is sorted by timestamp, newest first, any
    sequence of manual additions and sync merges leaves the log sorted
    that way, and with it the entries of the active profile; each single
    insertion that changes the log leaves it sorted whatever its order
    was before, and a manual addition under an active profile always
    does.  (The timestamps of the log and of what is inserted are
    dates: the order is that of the parsed dates.) *)
Theorem log_sorted_after_insertions P (ops : list Insertion) (st : State)
    (Hdated : dated P (logEntries st))
    (Hsorted : sortedLog P (logEntries st))
    (Hops : Forall (datedInsertion P) ops) :
  sortedLog P (logEntries (insertions P ops st))
  ∧ sortedLog P (logEntriesForActiveProfile (insertions P ops st))
  ∧ (∀ i st',
       dated P (logEntries st') →
       datedInsertion P i →
       logEntries (insertion P st' i) ≠ logEntries st' →
       sortedLog P (logEntries (insertion P st' i)))
  ∧ (∀ now granted entryData st' pid,
       dated P (logEntries st') →
       datedInsertion P (Manual now granted entryData) →
       activeProfileId st' = Some pid →
       pid ≠ "" →
       sortedLog P (logEntries (addEntry P now granted entryData st'))
       ∧ logEntries (addEntry P now granted entryData st')
         ≡ₚ logEntries st'
            ++ [{| id := uuidv4 P (uuidCount st');
                   timestamp := orElse (add_timestamp entryData)
                                       (toISOString P now);
                   profileId := pid;
                   data := add_data entryData |}]).
Proof.
  destruct (insertions_sorted P ops st Hdated Hsorted Hops) as [Hs _].
  split_and!.
  - exact Hs.
  - apply filter_StronglySorted. exact Hs.
  - intros i st' Hd Hi Hchanged.
    destruct (insertion_sorted P i st' Hd Hi) as [Hsame | [Hs' _]];
      [contradiction | exact Hs'].
  - intros now granted entryData st' pid Hd Hi Hpid Hne.
    rewrite (addEntry_log _ _ _ _ _ _ Hpid Hne).
    split; [| apply sort_perm].
    apply sort_sorted. apply Forall_app. split; [exact Hd |].
    repeat constructor. exact Hi.
Qed.

Lemma log_sorted_after_insertions_witness :
  dated Node.platform (logEntries freshClient)
  ∧ sortedLog Node.platform (logEntries freshClient)
  ∧ Forall (datedInsertion Node.platform)
      [Merge 1700000000000 [reading110]; Manual 1700000100000 false manual95]
  ∧ sortedLog Node.platform
      (logEntries
         (insertions Node.platform
            [Merge 1700000000000 [reading110];
             Manual 1700000100000 false manual95]
            freshClient)).
Proof.
  assert (Hdated : dated Node.platform (logEntries freshClient)) by constructor.
  assert (Hsorted : sortedLog Node.platform (logEntries freshClient))
    by constructor.
  assert (Hops : Forall (datedInsertion Node.platform)
            [Merge 1700000000000 [reading110];
             Manual 1700000100000 false manual95])
    by (repeat constructor; vm_compute; eexists; reflexivity).
  split_and!; [exact Hdated | exact Hsorted | exact Hops |].
  exact (proj1 (log_sorted_after_insertions Node.platform _ freshClient
                  Hdated Hsorted Hops)).
Defined.

(** ** C10: what the sync loop appends *)

(** C10.  The log after a tick is the log before it plus entries that
    are each a blood-sugar entry of measurement type CGM, built from a
    fetched reading whose value is not null, with that value and
    timestamp and with the profile id active at the append.  When every
    fetched reading has a null value, or no profile is active, the log
    is left as it was. *)
Theorem sync_appends_only_cgm P now apiOk fetch st :
  (∃ fresh,
     logEntries (syncLibreData P now apiOk fetch st) ≡ₚ logEntries st ++ fresh
     ∧ Forall (cgmEntryFrom st (fetched fetch)) fresh)
  ∧ (Forall (fun r => Server.value r = None) (fetched fetch) →
     logEntries (syncLibreData P now apiOk fetch st) = logEntries st)
  ∧ (activeProfileId st = None →
     logEntries (syncLibreData P now apiOk fetch st) = logEntries st).
Proof.
  rewrite logEntries_syncLibreData.
  destruct (libreSessionId st) as [marker |].
  2: { split_and!; try reflexivity.
       exists []. rewrite app_nil_r. split; [reflexivity | constructor]. }
  rewrite logEntries_mergeReadings.
  pose proof (newEntries_spec P st (existingTimestamps (logEntries st))
                (uuidCount st) (fetched fetch)) as Hfresh.
  split_and!.
  - exists (newEntries P (activeProfileId st)
              (existingTimestamps (logEntries st)) (uuidCount st)
              (fetched fetch)).
    split.
    + case_match; [rewrite app_nil_r; reflexivity | apply sort_perm].
    + eapply Forall_impl; [exact Hfresh |]. intros e [He _]. exact He.
  - intros Hnull. rewrite newEntries_no_value by exact Hnull. reflexivity.
  - intros Hnone. rewrite Hnone, newEntries_no_profile. reflexivity.
Qed.

(** ** C1: de-duplication *)

Lemma countAt_app ts l l' : countAt ts (l ++ l') = (countAt ts l + countAt ts l')%nat.
Proof. induction l as [| e l IH]; cbn [countAt app]; [reflexivity | lia]. Qed.

Lemma countAt_perm ts l l' : l ≡ₚ l' → countAt ts l = countAt ts l'.
Proof. induction 1; cbn [countAt]; lia. Qed.

Lemma countAt_pos ts l :
  (0 < countAt ts l)%nat ↔ ∃ e, e ∈ l ∧ timestamp e = ts.
Proof.
  induction l as [| x l IH]; cbn [countAt].
  - split; [lia | intros (e & He & _); inversion He].
  - destruct (String.eqb_spec (timestamp x) ts) as [Heq | Hne].
    + split; [intros _; exists x; split; [left | exact Heq] | lia].
    + cbn [Nat.add]. rewrite IH. split.
      * intros (e & He & Hts). exists e. split; [right; exact He | exact Hts].
      * intros (e & He & Hts). apply elem_of_cons in He as [-> | He];
          [contradiction | exists e; auto].
Qed.

(** A tick that fetches only readings whose timestamps the log already
    carries leaves the log as it is. *)
Lemma sync_known_readings P now apiOk readings st :
  Forall (fun r => ∃ e, e ∈ logEntries st ∧ timestamp e = Server.timestamp r)
         readings →
  logEntries (syncLibreData P now apiOk (Resolves (Some readings)) st)
  = logEntries st.
Proof.
  intros Hknown. rewrite logEntries_syncLibreData.
  destruct (libreSessionId st); [| reflexivity].
  cbn [fetched]. rewrite logEntries_mergeReadings.
  rewrite newEntries_seen; [reflexivity |].
  eapply Forall_impl; [exact Hknown |].
  intros r Hr. apply elem_of_existingTimestamps. exact Hr.
Qed.

Lemma tick_preserves P now apiOk readings st :
  libreSessionId (tick P now apiOk (Resolves readings) st) = libreSessionId st
  ∧ activeProfileId (tick P now apiOk (Resolves readings) st) = activeProfileId st.
Proof.
  unfold tick, syncLibreData.
  destruct (libreSessionId st) eqn:Hm; [| cbn; auto].
  destruct readings as [[| r rs] |]; cbn [afterFetch]; try (cbn; auto).
  unfold mergeReadings. case_match; cbn; auto.
Qed.

Lemma logEntries_tick P now apiOk fetch st :
  logEntries (tick P now apiOk fetch st)
  = logEntries (syncLibreData P now apiOk fetch st).
Proof. reflexivity. Qed.

Lemma poll_known P r clocks st :
  (0 < countAt (Server.timestamp r) (logEntries st))%nat →
  logEntries (poll P r clocks st) = logEntries st.
Proof.
  revert st. induction clocks as [| now rest IH]; intros st Hpos;
    cbn [poll]; [reflexivity |].
  assert (Hsame : logEntries (tick P now true (Resolves (Some [r])) st)
                  = logEntries st).
  { rewrite logEntries_tick. apply sync_known_readings.
    repeat constructor. apply countAt_pos. exact Hpos. }
  rewrite IH; rewrite Hsame; [reflexivity | exact Hpos].
Qed.

Lemma tick_new_reading P now r st marker pid v :
  libreSessionId st = Some marker →
  activeProfileId st = Some pid →
  pid ≠ "" →
  Server.value r = Some v →
  countAt (Server.timestamp r) (logEntries st) = 0%nat →
  logEntries (tick P now true (Resolves (Some [r])) st)
  ≡ₚ logEntries st
     ++ [{| id := uuidv4 P (uuidCount st);
            timestamp := Server.timestamp r;
            profileId := pid;
            data := BloodSugarData v CGM (Server.trendArrow r) |}].
Proof.
  intros Hm Hpid Hne Hv Hcount.
  rewrite logEntries_tick, logEntries_syncLibreData, Hm. cbn [fetched].
  rewrite logEntries_mergeReadings. cbn [newEntries].
  rewrite Hv, Hpid.
  rewrite bool_decide_eq_true_2.
  - apply String.eqb_neq in Hne. rewrite Hne. cbn [negb andb].
    apply sort_perm.
  - intros Hseen. apply elem_of_existingTimestamps, countAt_pos in Hseen. lia.
Qed.

(** Counted over the entries of all profiles: a fetched reading whose
    timestamp a log entry already carries is discarded, and the tick
    leaves the log unchanged.  Polling the same reading any number
    N >= 1 of times leaves exactly one entry with its timestamp in the
    log: the entry that was there, or, when no profile had one, the CGM
    entry that the first poll appends for the active profile from the
    reading's value. *)
Theorem poll_same_reading_once P (r : Server.Reading) :
  (∀ now apiOk st e,
     e ∈ logEntries st →
     timestamp e = Server.timestamp r →
     logEntries (syncLibreData P now apiOk (Resolves (Some [r])) st)
     = logEntries st)
  ∧ (∀ clocks st,
       countAt (Server.timestamp r) (logEntries st) = 1%nat →
       logEntries (poll P r clocks st) = logEntries st
       ∧ countAt (Server.timestamp r) (logEntries (poll P r clocks st)) = 1%nat)
  ∧ (∀ clocks st marker pid v,
       clocks ≠ [] →
       libreSessionId st = Some marker →
       activeProfileId st = Some pid →
       pid ≠ "" →
       Server.value r = Some v →
       countAt (Server.timestamp r) (logEntries st) = 0%nat →
       countAt (Server.timestamp r) (logEntries (poll P r clocks st)) = 1%nat
       ∧ logEntries (poll P r clocks st)
         ≡ₚ logEntries st
            ++ [{| id := uuidv4 P (uuidCount st);
                   timestamp := Server.timestamp r;
                   profileId := pid;
                   data := BloodSugarData v CGM (Server.trendArrow r) |}]).
Proof.
  split_and!.
  - intros now apiOk st e He Hts. apply sync_known_readings.
    repeat constructor. exists e. auto.
  - intros clocks st Hone.
    rewrite poll_known by lia. auto.
  - intros [| now rest] st marker pid v Hclocks Hm Hpid Hne Hv Hzero;
      [contradiction |].
    cbn [poll].
    pose proof (tick_new_reading P now r st marker pid v Hm Hpid Hne Hv Hzero)
      as Hfirst.
    assert (Hone : countAt (Server.timestamp r)
                     (logEntries (tick P now true (Resolves (Some [r])) st))
                   = 1%nat).
    { rewrite (countAt_perm _ _ _ Hfirst), countAt_app, Hzero.
      cbn [countAt timestamp]. rewrite String.eqb_refl. reflexivity. }
    rewrite poll_known by lia.
    split; [exact Hone | exact Hfirst].
Qed.

Lemma poll_same_reading_once_witness :
  libreSessionId freshClient = Some "sid-1"
  ∧ activeProfileId freshClient = Some "p1"
  ∧ Server.value reading110 = Some 110
  ∧ countAt (Server.timestamp reading110) (logEntries freshClient) = 0%nat
  ∧ countAt (Server.timestamp reading110)
      (logEntries
         (poll Node.platform reading110
            [1700000000000; 1700000005000; 1700000035000] freshClient))
    = 1%nat.
Proof.
  do 4 (split; [reflexivity |]).
  exact (proj1 (proj2 (proj2 (poll_same_reading_once Node.platform reading110))
                  [1700000000000; 1700000005000; 1700000035000]
                  freshClient "sid-1" "p1" 110
                  ltac:(discriminate) eq_refl eq_refl ltac:(discriminate)
                  eq_refl eq_refl)).
Defined.

(** *** The log of one profile *)

Lemma poll_preserves P r clocks st :
  libreSessionId (poll P r clocks st) = libreSessionId st
  ∧ activeProfileId (poll P r clocks st) = activeProfileId st.
Proof.
  revert st. induction clocks as [| now rest IH]; intros st; cbn [poll];
    [split; reflexivity |].
  destruct (IH (tick P now true (Resolves (Some [r])) st)) as [Hm Hp].
  destruct (tick_preserves P now true (Some [r]) st) as [Hm' Hp'].
  split; congruence.
Qed.

Lemma countAt_filter_le ts (f : LogEntry → bool) l :
  (countAt ts (List.filter f l) ≤ countAt ts l)%nat.
Proof.
  induction l as [| e l IH]; cbn [List.filter countAt]; [lia |].
  destruct (f e); cbn [countAt]; lia.
Qed.

Lemma filter_perm {A} (f : A → bool) l l' :
  l ≡ₚ l' → List.filter f l ≡ₚ List.filter f l'.
Proof.
  induction 1 as [| x l l' _ IH | x y l | l l' l'' _ IH1 _ IH2];
    cbn [List.filter].
  - reflexivity.
  - destruct (f x); [constructor |]; exact IH.
  - destruct (f x), (f y); try reflexivity. constructor.
  - etrans; eassumption.
Qed.

(** Where the claim holds for the profile that polls: when no entry of
    any profile carries the reading's timestamp, N >= 1 polls leave the
    active profile with exactly one entry of that timestamp. *)
Lemma poll_fresh_reading_for_profile P r clocks st marker pid v :
  clocks ≠ [] →
  libreSessionId st = Some marker →
  activeProfileId st = Some pid →
  pid ≠ "" →
  Server.value r = Some v →
  countAt (Server.timestamp r) (logEntries st) = 0%nat →
  countAt (Server.timestamp r) (logEntriesForActiveProfile (poll P r clocks st))
  = 1%nat.
Proof.
  intros Hclocks Hm Hpid Hne Hv Hzero.
  destruct (proj2 (proj2 (poll_same_reading_once P r))
              clocks st marker pid v Hclocks Hm Hpid Hne Hv Hzero)
    as [_ Hperm].
  unfold logEntriesForActiveProfile.
  rewrite (proj2 (poll_preserves P r clocks st)), Hpid.
  rewrite (countAt_perm _ _ _ (filter_perm _ _ _ Hperm)).
  rewrite List.filter_app, countAt_app. cbn [List.filter profileId].
  rewrite String.eqb_refl. cbn [countAt timestamp]. rewrite String.eqb_refl.
  pose proof (countAt_filter_le (Server.timestamp r)
                (fun e => String.eqb (profileId e) pid) (logEntries st)).
  lia.
Qed.

(** The set of line 253 is built from the entries of every profile: an
    entry of any profile with the reading's timestamp makes the polls
    leave the log, and with it the view of the active profile, as they
    are. *)
Lemma poll_foreign_timestamp P r clocks st e :
  e ∈ logEntries st →
  timestamp e = Server.timestamp r →
  logEntries (poll P r clocks st) = logEntries st
  ∧ logEntriesForActiveProfile (poll P r clocks st)
    = logEntriesForActiveProfile st.
Proof.
  intros He Hts.
  assert (Hlog : logEntries (poll P r clocks st) = logEntries st).
  { apply poll_known, countAt_pos. exists e. auto. }
  split; [exact Hlog |].
  unfold logEntriesForActiveProfile.
  rewrite Hlog, (proj2 (poll_preserves P r clocks st)). reflexivity.
Qed.

Lemma switchedClient_log :
  logEntries switchedClient
  = [{| id := uuidv4 Node.platform 0;
        timestamp := Server.timestamp reading110;
        profileId := "p1";
        data := BloodSugarData 110 CGM (Some 3) |}]
  ∧ activeProfileId switchedClient = Some "p2"
  ∧ libreSessionId switchedClient = Some "sid-1".
Proof. vm_compute. split_and!; reflexivity. Qed.

(** C1, where the code departs from it.  Two profiles share the device.
    A poll under the first one logs the reading for it; after a switch
    to the second profile the same reading is polled any number of
    times: every tick discards it, because the first profile's entry
    carries its timestamp, and the second profile, which is the active
    one and has a session marker, is left with no entry of that
    timestamp instead of exactly one. *)
Theorem poll_drops_reading_held_by_other_profile (clocks : list Z) :
  let first := poll Node.platform reading110 [1700000000000] sharedClient in
  let after := poll Node.platform reading110 clocks switchedClient in
  countAt (Server.timestamp reading110) (logEntriesForActiveProfile first)
  = 1%nat
  ∧ libreSessionId switchedClient = Some "sid-1"
  ∧ activeProfileId after = Some "p2"
  ∧ logEntries after = logEntries first
  ∧ logEntriesForActiveProfile after = []
  ∧ countAt (Server.timestamp reading110) (logEntriesForActiveProfile after)
    = 0%nat.
Proof.
  cbv zeta.
  destruct switchedClient_log as (Hentries & Hactive & Hmarker).
  assert (Hfirst : logEntries (poll Node.platform reading110 [1700000000000]
                                 sharedClient)
                   = logEntries switchedClient) by reflexivity.
  destruct (poll_foreign_timestamp Node.platform reading110 clocks switchedClient
              {| id := uuidv4 Node.platform 0;
                 timestamp := Server.timestamp reading110;
                 profileId := "p1";
                 data := BloodSugarData 110 CGM (Some 3) |})
    as [Hlog Hview].
  { rewrite Hentries. left. }
  { reflexivity. }
  assert (Hempty : logEntriesForActiveProfile switchedClient = []).
  { unfold logEntriesForActiveProfile. rewrite Hentries, Hactive. reflexivity. }
  split_and!.
  - vm_compute. reflexivity.
  - exact Hmarker.
  - rewrite (proj2 (poll_preserves _ _ clocks switchedClient)). exact Hactive.
  - rewrite Hlog, Hfirst. reflexivity.
  - rewrite Hview. exact Hempty.
  - rewrite Hview, Hempty. reflexivity.
Qed.

(** ** Connection status *)

Lemma activeProfile_updateSettings new st :
  activeProfile (updateSettings new st) = updated new <$> activeProfile st.
Proof.
  unfold activeProfile, updateSettings. cbn [activeProfileId profiles withProfiles].
  destruct (activeProfileId st) as [pid |]; [| reflexivity].
  induction (profiles st) as [| q ps IH]; [reflexivity |].
  cbn [fmap list_fmap List.find].
  destruct (String.eqb_spec (profile_id q) pid) as [Heq | Hne].
  - subst pid. rewrite bool_decide_eq_true_2 by reflexivity.
    cbn [profile_id updated]. rewrite String.eqb_refl. reflexivity.
  - rewrite bool_decide_eq_false_2 by congruence.
    apply String.eqb_neq in Hne. rewrite Hne. exact IH.
Qed.

Lemma connectionStatus_updateSettings new st :
  is_Some (activeProfile st) →
  connectionStatus (updateSettings new st) = status new.
Proof.
  intros [p Hp]. unfold connectionStatus, settingsOf.
  rewrite activeProfile_updateSettings, Hp. reflexivity.
Qed.

Lemma is_Some_activeProfile_updateSettings new st :
  is_Some (activeProfile st) → is_Some (activeProfile (updateSettings new st)).
Proof.
  intros [p Hp]. rewrite activeProfile_updateSettings, Hp. eexists; reflexivity.
Qed.

(** After [disconnectLibre] the status shown is [disconnected]. *)
Lemma connectionStatus_disconnectLibre apiOk st :
  connectionStatus (disconnectLibre apiOk st) = disconnected.
Proof.
  unfold disconnectLibre.
  set (st1 := if apiOk then apiDisconnect st else st).
  destruct (activeProfile st1) as [p |] eqn:Hp.
  - apply connectionStatus_updateSettings. eexists; exact Hp.
  - unfold connectionStatus, settingsOf.
    rewrite activeProfile_updateSettings, Hp. reflexivity.
Qed.

(** The sync loop on a fetch that fails with the session-expiry message
    (a text that contains "Oturum"): status [disconnected], and with a
    working [apiDisconnect] no session marker is left. *)
Lemma sync_session_expired P now m st marker :
  libreSessionId st = Some marker →
  includes "Oturum" m = true →
  connectionStatus (syncLibreData P now true (Rejects (Some m)) st) = disconnected
  ∧ libreSessionId (syncLibreData P now true (Rejects (Some m)) st) = None
  ∧ logEntries (syncLibreData P now true (Rejects (Some m)) st) = logEntries st.
Proof.
  intros Hm Hexp. unfold syncLibreData. rewrite Hm. cbn [afterFetch].
  rewrite Hexp. split_and!.
  - apply connectionStatus_disconnectLibre.
  - reflexivity.
  - reflexivity.
Qed.

Lemma connectCatch_outcome mail settings0 t err st :
  is_Some (activeProfile st) →
  let run := connectCatch mail settings0 t err st in
  failed run = true
  ∧ returnedAt run = t
  ∧ connectionStatus (final run)
    = if bool_decide (libreIsMock st = Some "true") then connected else error.
Proof.
  intros Hactive. cbv zeta. unfold connectCatch.
  change (libreIsMock (withAlert ?m st)) with (libreIsMock st).
  destruct (bool_decide (libreIsMock st = Some "true"));
    cbn [failed returnedAt final]; split_and!; try reflexivity;
    change (connectionStatus (render ?s)) with (connectionStatus s);
    apply connectionStatus_updateSettings; exact Hactive.
Qed.

(** ** C4: the connect timeout *)

(** C4, as amended.  The 75-second timer bounds the login call only.
    When the login has not settled by then, the attempt fails at 75 s;
    after a failed attempt the status of the active profile is
    [connected] when [localStorage] holds ['libreIsMock'] = ['true'] and
    [error] otherwise.  When the login succeeds before the timer, the
    attempt is not a failure, and [connectLibre] returns once the first
    sync has finished, however long that takes. *)
Theorem connect_timeout_bounds_login P now apiOk mail login syncLatency fetch st
    (Hactive : is_Some (activeProfile st)) :
  let run := connectLibre P now apiOk mail login syncLatency fetch st in
  let fallback :=
    if bool_decide (libreIsMock st = Some "true") then connected else error in
  ((login = None ∨ ∃ t l, login = Some (t, l) ∧ connectTimeout ≤ t) →
     failed run = true
     ∧ returnedAt run = connectTimeout
     ∧ connectionStatus (final run) = fallback)
  ∧ (failed run = true → connectionStatus (final run) = fallback)
  ∧ (∀ t marker,
       login = Some (t, LoginResolves true (Some marker)) →
       t < connectTimeout →
       failed run = false ∧ returnedAt run = t + syncLatency).
Proof.
  cbv zeta.
  assert (Hactive1 : is_Some (activeProfile
            (render (updateSettings
                       (withStatus connecting (libreLinkUp (settingsOf st))) st))))
    by (apply (is_Some_activeProfile_updateSettings _ st); exact Hactive).
  split_and!.
  - intros Hlate.
    assert (Hrace : race login = (connectTimeout, LoginRejects timeoutError)).
    { destruct Hlate as [-> | (t & l & -> & Ht)]; [reflexivity |].
      unfold race. apply Z.ltb_ge in Ht. rewrite Ht. reflexivity. }
    unfold connectLibre. rewrite Hrace.
    apply (connectCatch_outcome mail _ connectTimeout timeoutError _ Hactive1).
  - unfold connectLibre.
    destruct (race login) as [t [[|] marker | err]].
    + cbn [failed]. discriminate.
    + intros _.
      apply (connectCatch_outcome mail _ t _ (withSessionId marker _) Hactive1).
    + intros _. apply (connectCatch_outcome mail _ t err _ Hactive1).
  - intros t marker -> Ht. unfold connectLibre, race.
    apply Z.ltb_lt in Ht. rewrite Ht. cbn. auto.
Qed.

Lemma connect_timeout_bounds_login_witness :
  is_Some (activeProfile freshClient)
  ∧ failed (connectLibre Node.platform 1700000000000 true "a@b.c" None 0
              (Resolves None) freshClient) = true
  ∧ connectionStatus
      (final (connectLibre Node.platform 1700000000000 true "a@b.c" None 0
                (Resolves None) freshClient))
    = error.
Proof.
  assert (Hactive : is_Some (activeProfile freshClient))
    by (vm_compute; eexists; reflexivity).
  split; [exact Hactive |].
  destruct (connect_timeout_bounds_login Node.platform 1700000000000 true
              "a@b.c" None 0 (Resolves None) freshClient Hactive)
    as (Hlate & _).
  destruct (Hlate (or_introl eq_refl)) as (Hfailed & _ & Hstatus).
  split; [exact Hfailed | exact Hstatus].
Defined.

(** C4, as the specification words it, fails when the login succeeds
    after one second and the first sync takes a hundred: the attempt
    ends after 101 s and is no failure. *)
Lemma connect_bound_refuted :
  let run :=
    connectLibre Node.platform 1700000000000 true "a@b.c"
      (Some (1000, LoginResolves true (Some "sid-9")))
      100000 (Resolves (Some [])) freshClient in
  returnedAt run = 101000
  ∧ failed run = false
  ∧ connectionStatus (final run) = connected
  ∧ ¬ boundedConnect run.
Proof.
  cbv zeta. split_and!; try (vm_compute; reflexivity).
  unfold boundedConnect. vm_compute. intros [H | H]; [apply H; reflexivity | discriminate H].
Qed.

End ClientSpec.

(* ===================================================================== *)
(** * Further properties of the gateway *)
(* ===================================================================== *)

Module ServerExtra.
Import Js Server Scenarios ServerSpec.

(** ** Retry wrapper *)

(** X1.  Whatever the vendor does, [axiosWithRetry(config, retries)]
    makes at least one call and at most [retries + 1]; it settles as its
    last call did; every call before the last failed with a timeout or a
    5xx; and when it gives up with calls to spare, the last failure was
    neither. *)
Theorem retry_attempts_bounded {A} (net : Net A) (k retries : nat) :
  let evs := (axiosWithRetry net k retries).1 in
  let out := (axiosWithRetry net k retries).2 in
  (1 ≤ attempts evs ≤ S retries)%nat
  ∧ out = net (k + attempts evs - 1)%nat
  ∧ (∀ j, (k ≤ j < k + attempts evs - 1)%nat →
          ∃ e, net j = Throw e ∧ retryable e = true)
  ∧ (∀ e, out = Throw e → (attempts evs ≤ retries)%nat → retryable e = false).
Proof.
  cbv zeta. revert k. induction retries as [| n IH]; intros k.
  - cbn [axiosWithRetry]. destruct (net k) as [e | r] eqn:Hk; cbn.
    all: replace (k + 1 - 1)%nat with k by lia.
    all: split_and!; try lia; symmetry; exact Hk.
  - cbn [axiosWithRetry]. destruct (net k) as [e | r] eqn:Hk.
    + destruct (isTimeout e || isServerErr e) eqn:Hre.
      * specialize (IH (S k)).
        destruct (axiosWithRetry net (S k) n) as [evs out].
        cbn [fst snd attempts] in *.
        destruct IH as ((Hlo & Hhi) & Hout & Hbefore & Hlast).
        split_and!; try lia.
        -- rewrite Hout. f_equal. lia.
        -- intros j Hj. destruct (decide (j = k)) as [-> | Hne].
           ++ exists e. split; [exact Hk | exact Hre].
           ++ apply Hbefore. lia.
        -- intros e' He' Hn. apply Hlast; [exact He' | lia].
      * cbn. replace (k + 1 - 1)%nat with k by lia.
        split_and!; try lia; try (symmetry; exact Hk).
        intros e' He' _. injection He' as <-. exact Hre.
    + cbn. replace (k + 1 - 1)%nat with k by lia.
      split_and!; try lia; try (symmetry; exact Hk).
      intros e' He'. discriminate He'.
Qed.

(** X2.  When the vendor answers the call made after [j <= retries]
    failures that were timeouts or 5xx, the wrapper returns that answer,
    having made [j + 1] calls. *)
Theorem retry_recovers {A} (net : Net A) (k retries j : nat) (r : AxiosResponse A)
    (Hj : (j ≤ retries)%nat)
    (Hfail : ∀ i, (i < j)%nat → ∃ e, net (k + i)%nat = Throw e ∧ retryable e = true)
    (Hok : net (k + j)%nat = Ret r) :
  (axiosWithRetry net k retries).2 = Ret r
  ∧ attempts (axiosWithRetry net k retries).1 = S j.
Proof.
  revert k retries Hj Hfail Hok. induction j as [| j IH]; intros k retries Hj Hfail Hok.
  - replace (k + 0)%nat with k in Hok by lia.
    destruct retries; cbn [axiosWithRetry]; rewrite Hok; auto.
  - destruct retries as [| n]; [lia |].
    destruct (Hfail 0%nat ltac:(lia)) as (e & He & Hre).
    replace (k + 0)%nat with k in He by lia.
    cbn [axiosWithRetry]. rewrite He. unfold retryable in Hre. rewrite Hre.
    specialize (IH (S k) n ltac:(lia)).
    destruct (axiosWithRetry net (S k) n) as [evs out]. cbn [fst snd attempts] in *.
    assert (IH' : out = Ret r ∧ attempts evs = S j).
    { apply IH.
      - intros i Hi. replace (S k + i)%nat with (k + S i)%nat by lia.
        apply Hfail. lia.
      - replace (S k + j)%nat with (k + S j)%nat by lia. exact Hok. }
    destruct IH' as [-> ->]. auto.
Qed.

Lemma retry_recovers_witness :
  (2 ≤ defaultRetries)%nat
  ∧ (axiosWithRetry
       (fun n => if (n <? 2)%nat then Throw axiosTimeout
                 else Ret {| resp_status := 200; resp_data := tt |})
       0 defaultRetries).2
    = Ret {| resp_status := 200; resp_data := tt |}.
Proof.
  assert (Hj : (2 ≤ defaultRetries)%nat) by (unfold defaultRetries; lia).
  split; [exact Hj |].
  refine (proj1 (retry_recovers _ 0 defaultRetries 2 _ Hj _ _)).
  - intros i Hi. exists axiosTimeout.
    destruct i as [| [| i]]; [split; reflexivity | split; reflexivity | lia].
  - reflexivity.
Defined.

(** ** Login *)

(** X3.  A login without e-mail or password is answered 400 whatever the
    vendor would say, and a login that is not answered 200 leaves the
    session table and the file as they were; the session identifier is
    sent with a 200 only. *)
Theorem connect_failure_stores_nothing P fresh req net writeOk st :
  let out := connect P fresh req net writeOk st in
  ((truthy (req ≫= req_email) = false ∨ truthy (req ≫= req_password) = false) →
   out = (st, respond 400 (ErrorJson "E-posta ve şifre gereklidir.")))
  ∧ (status out.2 ≠ 200 → out.1 = st)
  ∧ (∀ sid, body out.2 = ConnectJson sid →
            status out.2 = 200 ∧ sid = uuidv4 P fresh
            ∧ is_Some (sessions out.1 !! sid)).
Proof.
  cbv zeta. split_and!.
  - intros [H | H]; unfold connect; rewrite H; cbn [negb orb];
      [reflexivity | rewrite orb_true_r; reflexivity].
  - unfold connect, connectCatch.
    repeat case_match; cbn [fst snd status respond]; intros Hstatus;
      first [reflexivity | contradiction].
  - intros sid. unfold connect, connectCatch.
    repeat case_match; cbn [fst snd status body respond]; intros Hbody;
      try discriminate Hbody.
    injection Hbody as <-. split_and!; try reflexivity.
    rewrite sessions_saveSessions. cbn [sessions].
    rewrite lookup_insert_eq. eexists; reflexivity.
Qed.

(** X4.  With credentials present, a vendor failure that is no timeout
    is passed on: with the vendor's status and message (or the default
    text) when the failure carries a response, as 500 otherwise; and an
    answer without payload is a 403. *)
Theorem connect_reports_vendor_errors P fresh req net writeOk st
    (Hmail : truthy (req ≫= req_email) = true)
    (Hpass : truthy (req ≫= req_password) = true) :
  let out := connect P fresh req net writeOk st in
  (∀ e r, request net = Throw e → isTimeout e = false → response e = Some r →
          out = (st, respond (err_status r)
                       (ErrorJson (orElse (err_data_message r) "Giriş hatası."))))
  ∧ (∀ e, request net = Throw e → isTimeout e = false → response e = None →
          out = (st, respond 500 (ErrorJson "Sunucu hatası.")))
  ∧ (∀ resp, request net = Ret resp → resp_data resp = None →
             out = (st, respond 403
                          (ErrorJson "Giriş başarısız. Bilgileri kontrol edin."))).
Proof.
  cbv zeta. unfold connect. rewrite Hmail, Hpass. cbn [negb orb].
  split_and!.
  - intros e r -> Ht Hr. unfold connectCatch. rewrite Ht, Hr. reflexivity.
  - intros e -> Ht Hr. unfold connectCatch. rewrite Ht, Hr. reflexivity.
  - intros resp -> Hd. rewrite Hd. reflexivity.
Qed.

Lemma connect_reports_vendor_errors_witness :
  truthy (credentials ≫= req_email) = true
  ∧ truthy (credentials ≫= req_password) = true
  ∧ connect Node.platform 0 credentials (fun _ => Throw (axiosStatus 403)) true
      oneSession
    = (oneSession, respond 403 (ErrorJson "Giriş hatası.")).
Proof.
  split; [reflexivity | split; [reflexivity |]].
  exact (proj1 (connect_reports_vendor_errors Node.platform 0 credentials
                  (fun _ => Throw (axiosStatus 403)) true oneSession
                  eq_refl eq_refl)
           (axiosStatus 403) _ eq_refl eq_refl eq_refl).
Defined.

(** X5.  A login the vendor accepts stores, under the new identifier, the
    vendor's token and user id, the hash of the user id, the region
    (['EU'] when none was given) and the base URL of that region, and
    leaves every other session alone; when the identifier was unused, a
    disconnect with it brings the table back to what it was. *)
Theorem connect_then_disconnect P fresh req net w1 w2 st resp d tok uid
    (Hmail : truthy (req ≫= req_email) = true)
    (Hpass : truthy (req ≫= req_password) = true)
    (Hnet : request net = Ret resp)
    (Hdata : resp_data resp = Some d)
    (Htok : login_token d = Some tok) (Htok' : tok ≠ "")
    (Huid : login_userId d = Some uid) (Huid' : uid ≠ "")
    (Hid : uuidv4 P fresh ≠ "")
    (Hfresh : sessions st !! uuidv4 P fresh = None) :
  let sid := uuidv4 P fresh in
  let st1 := (connect P fresh req net w1 st).1 in
  sessions st1 !! sid
  = Some {| token := tok;
            clientVersion := orElse (req ≫= req_clientVersion) "4.16.0";
            userId := uid;
            accountId := sha256hex P uid;
            region := orElse (req ≫= req_region) "EU";
            baseURL := getBaseUrl (req ≫= req_region) |}
  ∧ (∀ other, other ≠ sid → sessions st1 !! other = sessions st !! other)
  ∧ sessions (disconnect (Some sid) w2 st1).1 = sessions st.
Proof.
  cbv zeta.
  assert (Hst1 : sessions (connect P fresh req net w1 st).1
                 = <[uuidv4 P fresh :=
                      {| token := tok;
                         clientVersion := orElse (req ≫= req_clientVersion) "4.16.0";
                         userId := uid;
                         accountId := sha256hex P uid;
                         region := orElse (req ≫= req_region) "EU";
                         baseURL := getBaseUrl (req ≫= req_region) |}]>
                   (sessions st)).
  { unfold connect. rewrite Hmail, Hpass. cbn [negb orb].
    rewrite Hnet, Hdata, Htok, Huid.
    unfold truthy. rewrite (eqb_false_of_ne _ _ Htok'), (eqb_false_of_ne _ _ Huid').
    cbn [negb andb orb]. rewrite andb_false_r. cbn [fst].
    rewrite sessions_saveSessions. reflexivity. }
  split_and!.
  - rewrite Hst1. apply lookup_insert_eq.
  - intros other Hother. rewrite Hst1. apply lookup_insert_ne. congruence.
  - rewrite sessions_disconnect by exact Hid. rewrite Hst1.
    apply delete_insert_id. exact Hfresh.
Qed.

Lemma connect_then_disconnect_witness :
  sessions oneSession !! "uuid-0" = None
  ∧ sessions
      (disconnect (Some "uuid-0") true
         (connect Node.platform 0 credentials goodLogin true oneSession).1).1
    = sessions oneSession.
Proof.
  assert (Hfresh : sessions oneSession !! uuidv4 Node.platform 0 = None)
    by (vm_compute; reflexivity).
  split; [exact Hfresh |].
  refine (proj2 (proj2 (connect_then_disconnect Node.platform 0 credentials
                          goodLogin true true oneSession _ _ "tok" "user-1"
                          eq_refl eq_refl eq_refl eq_refl eq_refl _ eq_refl _ _
                          Hfresh))); discriminate.
Defined.

(** ** Regions *)

Lemma upperChar_idem c : upperChar (upperChar c) = upperChar c.
Proof. destruct c as [[] [] [] [] [] [] [] []]; reflexivity. Qed.

Lemma toUpperCase_idem s : toUpperCase (toUpperCase s) = toUpperCase s.
Proof.
  induction s as [| c s IH]; cbn [toUpperCase]; [reflexivity |].
  rewrite upperChar_idem, IH. reflexivity.
Qed.

Lemma toUpperCase_empty s : toUpperCase s = "" ↔ s = "".
Proof. destruct s; cbn [toUpperCase]; split; intros H; congruence. Qed.

(** X6.  [getBaseUrl] always yields one of the five vendor hosts; a
    missing or empty region yields the EU host, and so does every region
    that is not US, AE, JP or AP in some letter case; the letter case of
    the region does not matter. *)
Theorem getBaseUrl_regions (region : string) :
  getBaseUrl (Some region)
  ∈ ["https://api-us.libreview.io"; "https://api-ae.libreview.io";
     "https://api-jp.libreview.io"; "https://api-ap.libreview.io";
     "https://api-eu.libreview.io"]
  ∧ getBaseUrl None = "https://api-eu.libreview.io"
  ∧ getBaseUrl (Some "") = "https://api-eu.libreview.io"
  ∧ getBaseUrl (Some (toUpperCase region)) = getBaseUrl (Some region)
  ∧ (toUpperCase region ∉ ["US"; "AE"; "JP"; "AP"] →
     getBaseUrl (Some region) = "https://api-eu.libreview.io").
Proof.
  split_and!.
  - unfold getBaseUrl. repeat case_match; set_solver.
  - reflexivity.
  - reflexivity.
  - unfold getBaseUrl, orElse.
    destruct (String.eqb_spec region "") as [-> | Hne]; [reflexivity |].
    assert (Hup : toUpperCase region ≠ "") by (rewrite toUpperCase_empty; exact Hne).
    rewrite (eqb_false_of_ne _ _ Hup), toUpperCase_idem. reflexivity.
  - intros Hother. unfold getBaseUrl, orElse.
    destruct (String.eqb_spec region "") as [-> | Hne]; [reflexivity |].
    repeat case_match; try reflexivity;
      match goal with
      | H : String.eqb _ _ = true |- _ =>
          apply String.eqb_eq in H; rewrite H in Hother; set_solver
      end.
Qed.

(** ** The read endpoint *)

(** X7.  A read without session id is answered 400 and a read under an
    unknown id 401 ("Session not found"), in both cases without a word
    to the vendor and with the table untouched. *)
Theorem read_rejects_bad_session P now netCons netHist st :
  read P now None netCons netHist st
  = (st, respond 400 (ErrorJson "sessionId missing"))
  ∧ read P now (Some "") netCons netHist st
    = (st, respond 400 (ErrorJson "sessionId missing"))
  ∧ (∀ sid, sid ≠ "" → sessions st !! sid = None →
            read P now (Some sid) netCons netHist st
            = (st, respond 401 (ErrorJson "Session not found"))).
Proof.
  split_and!; try reflexivity.
  intros sid Hsid Hnone. unfold read, readTry.
  rewrite (eqb_false_of_ne _ _ Hsid), Hnone. reflexivity.
Qed.

Lemma read_connections_401_witness :
  "sid-1" ≠ ""
  ∧ sessions oneSession !! "sid-1" = Some demoSession
  ∧ (read Node.platform 1700000000000 (Some "sid-1") (answers 401 None)
       deadVendor oneSession).2
    = respond 401 (ErrorJson "Token expired").
Proof.
  assert (Hsid : "sid-1" ≠ "") by discriminate.
  assert (Hsession : sessions oneSession !! "sid-1" = Some demoSession)
    by (vm_compute; reflexivity).
  split; [exact Hsid | split; [exact Hsession |]].
  exact (proj1 (read_connections_401 Node.platform 1700000000000 "sid-1"
                  (answers 401 None) deadVendor oneSession demoSession _
                  Hsid Hsession eq_refl eq_refl)).
Defined.

Lemma bind_keeps {A B} (m : Result A) (k : A → Result (B * Response)) (st : B) :
  (∀ a out, k a = Ret out → out.1 = st) →
  ∀ out, bind m k = Ret out → out.1 = st.
Proof.
  intros Hk out. destruct m as [e | a]; cbn [bind]; [discriminate |]. apply Hk.
Qed.

Lemma readTry_keeps_unless_expired P now sessionId netCons netHist st out :
  readTry P now sessionId netCons netHist st = Ret out →
  out.1 = st
  ∨ ∃ sid, sessionId = Some sid
           ∧ out = ({| sessions := delete sid (sessions st); disk := disk st |},
                    respond 401 (ErrorJson "Token expired")).
Proof.
  unfold readTry.
  destruct sessionId as [sid |]; [| intros [= <-]; left; reflexivity].
  destruct (String.eqb sid ""); [intros [= <-]; left; reflexivity |].
  destruct (sessions st !! sid) as [session |];
    [| intros [= <-]; left; reflexivity].
  destruct (request netCons) as [e | consResp]; cbn [bind]; [discriminate |].
  destruct (resp_status consResp =? 401).
  { intros [= <-]. right. exists sid. split; reflexivity. }
  destruct (selectFirst (resp_data consResp)) as [e | [c |]]; cbn [bind];
    [discriminate | | intros [= <-]; left; reflexivity].
  intros Hout. left. revert out Hout.
  apply bind_keeps. intros reading.
  apply bind_keeps. intros sensorInfo.
  apply bind_keeps. intros reading' out.
  destruct reading' as [r |]; [intros [= <-]; reflexivity |].
  destruct sensorInfo as [i |]; intros [= <-]; reflexivity.
Qed.

(** X9.  A read changes nothing on the server, with one exception: when
    it answers "Token expired" it has deleted the session it was asked
    under, and nothing else; it never writes the file. *)
Theorem read_changes_only_expired_session P now sessionId netCons netHist st :
  let out := read P now sessionId netCons netHist st in
  (out.1 = st
   ∨ ∃ sid, sessionId = Some sid
            ∧ out.1 = {| sessions := delete sid (sessions st); disk := disk st |}
            ∧ out.2 = respond 401 (ErrorJson "Token expired"))
  ∧ disk out.1 = disk st
  ∧ (out.2 ≠ respond 401 (ErrorJson "Token expired") → out.1 = st).
Proof.
  cbv zeta. unfold read.
  destruct (readTry P now sessionId netCons netHist st) as [e | out] eqn:Htry.
  { cbn. split_and!; auto. }
  destruct (readTry_keeps_unless_expired _ _ _ _ _ _ _ Htry)
    as [Hsame | (sid & -> & ->)].
  - rewrite Hsame. split_and!; auto.
  - cbn [fst snd disk]. split_and!.
    + right. exists sid. split_and!; reflexivity.
    + reflexivity.
    + intros Hne. contradiction.
Qed.

(** ** Restarts *)

Lemma sessions_restart st : sessions (restart st) = default ∅ (disk st).
Proof.
  unfold restart, loadSessions. cbn [disk sessions].
  destruct (disk st) as [stored |]; cbn; [| reflexivity].
  apply (right_id_L ∅ (∪)).
Qed.

(** X10.  A table that was written to the file is the table after a
    restart; when the write failed, the restart brings back what the
    file held before (nothing, if there was no file); and loading the
    file twice is loading it once. *)
Theorem sessions_survive_restart st :
  sessions (restart (saveSessions true st)) = sessions st
  ∧ sessions (restart (saveSessions false st)) = default ∅ (disk st)
  ∧ loadSessions (loadSessions st) = loadSessions st
  ∧ (∀ sid, sessions st !! sid = None → disk st = None →
            sessions (loadSessions st) !! sid = None).
Proof.
  split_and!.
  - rewrite sessions_restart. reflexivity.
  - rewrite sessions_restart. reflexivity.
  - unfold loadSessions. destruct (disk st) as [stored |] eqn:Hd; cbn [disk];
      [| rewrite Hd; reflexivity].
    f_equal. cbn [sessions]. rewrite (assoc_L (∪)), (idemp_L (∪)). reflexivity.
  - intros sid Hnone Hd. unfold loadSessions. rewrite Hd. exact Hnone.
Qed.

(** X11.  The deletion of a session on the vendor's 401 is not written to
    the file: when the file still holds the session, a restart brings it
    back, whereas the deletion by a disconnect whose write succeeds
    survives the restart. *)
Theorem expired_session_returns_after_restart P now sid netCons netHist st
    session stored kept resp
    (Hsid : sid ≠ "")
    (Hsession : sessions st !! sid = Some session)
    (Hdisk : disk st = Some stored)
    (Hkept : stored !! sid = Some kept)
    (Hreq : request netCons = Ret resp)
    (H401 : resp_status resp = 401) :
  let expired := (read P now (Some sid) netCons netHist st).1 in
  sessions expired !! sid = None
  ∧ sessions (restart expired) !! sid = Some kept
  ∧ sessions (restart (disconnect (Some sid) true st).1) !! sid = None.
Proof.
  cbv zeta.
  assert (Hout : (read P now (Some sid) netCons netHist st).1
                 = {| sessions := delete sid (sessions st); disk := disk st |}).
  { unfold read, readTry.
    rewrite (eqb_false_of_ne _ _ Hsid), Hsession, Hreq. cbn [bind].
    rewrite H401. reflexivity. }
  rewrite Hout. split_and!.
  - apply lookup_delete_eq.
  - rewrite sessions_restart. cbn [disk]. rewrite Hdisk. exact Hkept.
  - rewrite sessions_restart. unfold disconnect.
    rewrite (eqb_false_of_ne _ _ Hsid). cbn. apply lookup_delete_eq.
Qed.

Lemma expired_session_returns_after_restart_witness :
  sessions (saveSessions true oneSession) !! "sid-1" = Some demoSession
  ∧ sessions
      (restart (read Node.platform 1700000000000 (Some "sid-1")
                  (answers 401 None) deadVendor (saveSessions true oneSession)).1)
    !! "sid-1"
    = Some demoSession.
Proof.
  assert (Hsession : sessions (saveSessions true oneSession) !! "sid-1"
                     = Some demoSession) by (vm_compute; reflexivity).
  split; [exact Hsession |].
  refine (proj1 (proj2 (expired_session_returns_after_restart Node.platform
                          1700000000000 "sid-1" (answers 401 None) deadVendor
                          (saveSessions true oneSession) demoSession
                          (sessions oneSession) demoSession _
                          _ Hsession eq_refl Hsession eq_refl eq_refl))).
  discriminate.
Defined.

(** ** What the read endpoint serves *)

Lemma readTry_selected P now sid netCons netHist st session resp c :
  sid ≠ "" →
  sessions st !! sid = Some session →
  request netCons = Ret resp →
  resp_status resp ≠ 401 →
  selectFirst (resp_data resp) = Ret (Some c) →
  readTry P now (Some sid) netCons netHist st
  = (let gm := nullish (connection_glucoseMeasurement c) (glucoseMeasurement c) in
     let* reading :=
       optional (fun g => mkReading P now (gm_Value g) (gm_value g)
                            (gm_Timestamp g) (gm_MeasurementDate g)) gm in
     let trend := gm ≫= (fun g => nullish (gm_TrendArrow g) (gm_trendArrow g)) in
     let* sensorInfo := optional (sensorInfoOf P now) (conn_sensor c) in
     let isWarmingUp :=
       match sensorInfo with
       | Some i => String.eqb (Types.state i) "Isınıyor"
       | None => false
       end in
     let* reading :=
       if isStale P now reading && negb isWarmingUp then
         let* hist := request netHist in
         match resp_data hist with
         | Some items =>
             match sort (graphCmp P) items with
             | last :: _ =>
                 let* r := mkReading P now (gi_Value last) (gi_value last)
                             (gi_Timestamp last) (gi_MeasurementDate last) in
                 Ret (Some r)
             | [] => Ret reading
             end
         | None => Ret reading
         end
       else Ret reading in
     match reading with
     | Some r =>
         Ret (st, respond 200 (ReadingJson
                {| value := value r;
                   timestamp := timestamp r;
                   trendArrow := trend;
                   sensor := sensorInfo |}))
     | None =>
         match sensorInfo with
         | Some i =>
             Ret (st, respond 200 (ReadingJson
                    {| value := None;
                       timestamp := toISOString P now;
                       trendArrow := None;
                       sensor := Some i |}))
         | None => Ret (st, respond 204 Empty)
         end
     end).
Proof.
  intros Hsid Hsession Hreq H401 Hfirst. unfold readTry.
  rewrite (eqb_false_of_ne _ _ Hsid), Hsession, Hreq. cbn [bind].
  apply Z.eqb_neq in H401. rewrite H401, Hfirst. reflexivity.
Qed.

Lemma sensorInfoOf_state P now s info :
  sensorInfoOf P now s = Ret info → Types.state info = stateStr (pt s).
Proof.
  unfold sensorInfoOf. repeat case_match; intros Hret; simplify_eq. reflexivity.
Qed.

(** X12.  While the sensor warms up (status code 1) and the connection
    carries no measurement, the graph endpoint is not asked: whatever it
    would answer, the caller gets the sensor data alone, with a null
    value and the gateway's clock as timestamp. *)
Theorem read_warming_up_sensor_only P now sid netCons netHist st session resp c s info
    (Hsid : sid ≠ "")
    (Hsession : sessions st !! sid = Some session)
    (Hreq : request netCons = Ret resp)
    (H401 : resp_status resp ≠ 401)
    (Hfirst : selectFirst (resp_data resp) = Ret (Some c))
    (Hgm : nullish (connection_glucoseMeasurement c) (glucoseMeasurement c) = None)
    (Hsensor : conn_sensor c = Some s)
    (Hpt : pt s = Some 1)
    (Hinfo : sensorInfoOf P now s = Ret info) :
  read P now (Some sid) netCons netHist st
  = (st, respond 200 (ReadingJson
           {| value := None;
              timestamp := toISOString P now;
              trendArrow := None;
              sensor := Some info |}))
  ∧ Types.state info = "Isınıyor".
Proof.
  assert (Hstate : Types.state info = "Isınıyor")
    by (rewrite (sensorInfoOf_state _ _ _ _ Hinfo), Hpt; reflexivity).
  split; [| exact Hstate].
  unfold read.
  rewrite (readTry_selected _ _ _ _ _ _ _ _ _ Hsid Hsession Hreq H401 Hfirst).
  cbv zeta. rewrite Hgm, Hsensor. cbn [optional bind]. rewrite Hinfo.
  cbn [bind]. rewrite Hstate. reflexivity.
Qed.

Lemma read_warming_up_sensor_only_witness :
  sessions oneSession !! "sid-1" = Some demoSession
  ∧ read Node.platform 1700000000000 (Some "sid-1")
      (answers 200
         (Some [Some {| pending := Some false;
                        connection_glucoseMeasurement := None;
                        glucoseMeasurement := None;
                        conn_sensor := Some {| a := Some 1699990000;
                                               sn := "0M0001";
                                               pt := Some 1 |};
                        patientId := "patient-1" |}]))
      deadVendor oneSession
    = (oneSession,
       respond 200 (ReadingJson
         {| value := None;
            timestamp := toISOString Node.platform 1700000000000;
            trendArrow := None;
            sensor := Some {| Types.serial := "0M0001";
                              Types.startDate := "2023-11-14T19:26:40.000Z";
                              Types.endDate := "2023-11-28T19:26:40.000Z";
                              Types.daysLeft := 14;
                              Types.state := "Isınıyor" |} |})).
Proof.
  assert (Hsession : sessions oneSession !! "sid-1" = Some demoSession)
    by (vm_compute; reflexivity).
  split; [exact Hsession |].
  eapply proj1.
  eapply (read_warming_up_sensor_only Node.platform 1700000000000 "sid-1");
    [ discriminate | exact Hsession | reflexivity | discriminate | reflexivity
    | reflexivity | reflexivity | reflexivity | vm_compute; reflexivity ].
Defined.

(** X13.  A measurement embedded in the connection that is at most 15
    minutes old is served as it is, with its trend arrow and the sensor
    data; the graph endpoint is not asked. *)
Theorem read_fresh_measurement P now sid netCons netHist st session resp c g ts t si
    (Hsid : sid ≠ "")
    (Hsession : sessions st !! sid = Some session)
    (Hreq : request netCons = Ret resp)
    (H401 : resp_status resp ≠ 401)
    (Hfirst : selectFirst (resp_data resp) = Ret (Some c))
    (Hgm : nullish (connection_glucoseMeasurement c) (glucoseMeasurement c) = Some g)
    (Hts : nullish (gm_Timestamp g) (gm_MeasurementDate g) = Some ts)
    (Hparse : dateParse P ts = Some t)
    (Hround : dateParse P (toISOString P t) = Some t)
    (Hfresh : now - t ≤ 15 * 60 * 1000)
    (Hsens : optional (sensorInfoOf P now) (conn_sensor c) = Ret si) :
  read P now (Some sid) netCons netHist st
  = (st, respond 200 (ReadingJson
           {| value := Some (default 0 (nullish (gm_Value g) (gm_value g)));
              timestamp := toISOString P t;
              trendArrow := nullish (gm_TrendArrow g) (gm_trendArrow g);
              sensor := si |})).
Proof.
  unfold read.
  rewrite (readTry_selected _ _ _ _ _ _ _ _ _ Hsid Hsession Hreq H401 Hfirst).
  cbv zeta. rewrite Hgm. cbn [optional bind mbind option_bind].
  unfold mkReading, isoTimestamp. rewrite Hts, Hparse. cbn [bind].
  rewrite Hsens. cbn [bind].
  unfold isStale. cbn [timestamp]. rewrite Hround.
  assert (Hnot : (15 * 60 * 1000 <? now - t) = false) by (apply Z.ltb_ge; exact Hfresh).
  rewrite Hnot. cbn [andb bind]. reflexivity.
Qed.

Lemma read_fresh_measurement_witness :
  sessions oneSession !! "sid-1" = Some demoSession
  ∧ dateParse Node.platform "2023-11-14T22:10:00.000Z" = Some 1699999800000
  ∧ read Node.platform 1700000000000 (Some "sid-1")
      (answers 200
         (Some [Some {| pending := Some false;
                        connection_glucoseMeasurement :=
                          Some {| gm_Value := Some 110; gm_value := None;
                                  gm_Timestamp := Some "2023-11-14T22:10:00.000Z";
                                  gm_MeasurementDate := None;
                                  gm_TrendArrow := Some 3; gm_trendArrow := None |};
                        glucoseMeasurement := None;
                        conn_sensor := None;
                        patientId := "patient-1" |}]))
      deadVendor oneSession
    = (oneSession,
       respond 200 (ReadingJson
         {| value := Some 110;
            timestamp := toISOString Node.platform 1699999800000;
            trendArrow := Some 3;
            sensor := None |})).
Proof.
  assert (Hsession : sessions oneSession !! "sid-1" = Some demoSession)
    by (vm_compute; reflexivity).
  assert (Hparse : dateParse Node.platform "2023-11-14T22:10:00.000Z"
                   = Some 1699999800000) by (vm_compute; reflexivity).
  split; [exact Hsession | split; [exact Hparse |]].
  eapply (read_fresh_measurement Node.platform 1700000000000 "sid-1"
            _ deadVendor oneSession demoSession _ _
            {| gm_Value := Some 110; gm_value := None;
               gm_Timestamp := Some "2023-11-14T22:10:00.000Z";
               gm_MeasurementDate := None;
               gm_TrendArrow := Some 3; gm_trendArrow := None |}
            "2023-11-14T22:10:00.000Z" 1699999800000 None);
    [ discriminate | exact Hsession | reflexivity | discriminate | reflexivity
    | reflexivity | reflexivity | exact Hparse | vm_compute; reflexivity
    | vm_compute; discriminate | reflexivity ].
Defined.

(** The head of the sorted graph data is an item with the latest
    timestamp. *)
Lemma sort_graph_newest P (items : list GraphItem) :
  items ≠ [] →
  Forall (fun i => is_Some (gi_Timestamp i ≫= dateParse P)) items →
  ∃ item rest t,
    sort (graphCmp P) items = item :: rest
    ∧ item ∈ items
    ∧ gi_Timestamp item ≫= dateParse P = Some t
    ∧ ∀ other, other ∈ items →
               ∃ t', gi_Timestamp other ≫= dateParse P = Some t' ∧ t' ≤ t.
Proof.
  induction items as [| x items IH]; intros Hne Hd; [contradiction |].
  apply Forall_cons in Hd as [[tx Hx] Hd]. cbn [sort].
  destruct items as [| y items].
  - cbn. exists x, [], tx. split_and!; [reflexivity | left | exact Hx |].
    intros other Ho. apply list_elem_of_singleton in Ho as ->.
    exists tx. split; [exact Hx | lia].
  - destruct (IH ltac:(discriminate) Hd) as (h & rest & th & Hsort & Hin & Hth & Hmax).
    rewrite Hsort. cbn [insertBy].
    assert (Hc : cmpSign (graphCmp P x h) = th - tx)
      by (unfold graphCmp, sub; rewrite Hx, Hth; reflexivity).
    rewrite Hc. destruct (Z.leb_spec (th - tx) 0) as [Hle | Hgt].
    + exists x, (h :: rest), tx. split_and!; [reflexivity | left | exact Hx |].
      intros other Ho. apply elem_of_cons in Ho as [-> | Ho].
      * exists tx. split; [exact Hx | lia].
      * destruct (Hmax other Ho) as (t' & Ht' & Hle'). exists t'. split; [exact Ht' | lia].
    + exists h, (insertBy (graphCmp P) x rest), th.
      split_and!; [reflexivity | right; exact Hin | exact Hth |].
      intros other Ho. apply elem_of_cons in Ho as [-> | Ho].
      * exists tx. split; [exact Hx | lia].
      * exact (Hmax other Ho).
Qed.

(** X14.  When the connection carries neither a measurement nor sensor
    data and the graph endpoint returns dated items, the reading served
    is built from an item with the latest timestamp among them
    (whatever the HTTP status of the graph answer). *)
Theorem read_graph_takes_newest P now sid netCons netHist st session resp c hist items
    (Hsid : sid ≠ "")
    (Hsession : sessions st !! sid = Some session)
    (Hreq : request netCons = Ret resp)
    (H401 : resp_status resp ≠ 401)
    (Hfirst : selectFirst (resp_data resp) = Ret (Some c))
    (Hgm : nullish (connection_glucoseMeasurement c) (glucoseMeasurement c) = None)
    (Hsensor : conn_sensor c = None)
    (Hhist : request netHist = Ret hist)
    (Hitems : resp_data hist = Some items)
    (Hsome : items ≠ [])
    (Hdated : Forall (fun i => is_Some (gi_Timestamp i ≫= dateParse P)) items) :
  ∃ item t,
    item ∈ items
    ∧ gi_Timestamp item ≫= dateParse P = Some t
    ∧ (∀ other, other ∈ items →
                ∃ t', gi_Timestamp other ≫= dateParse P = Some t' ∧ t' ≤ t)
    ∧ read P now (Some sid) netCons netHist st
      = (st, respond 200 (ReadingJson
               {| value := Some (default 0 (nullish (gi_Value item) (gi_value item)));
                  timestamp := toISOString P t;
                  trendArrow := None;
                  sensor := None |})).
Proof.
  destruct (sort_graph_newest P items Hsome Hdated)
    as (item & rest & t & Hsort & Hin & Ht & Hmax).
  exists item, t. split_and!; [exact Hin | exact Ht | exact Hmax |].
  unfold read.
  rewrite (readTry_selected _ _ _ _ _ _ _ _ _ Hsid Hsession Hreq H401 Hfirst).
  cbv zeta. rewrite Hgm, Hsensor. cbn [optional bind isStale andb negb].
  unfold GraphData in *. rewrite Hhist. cbn [bind]. rewrite Hitems, Hsort.
  unfold mkReading, isoTimestamp.
  destruct (gi_Timestamp item) as [ts |] eqn:Hts; [| discriminate Ht].
  cbn [nullish mbind option_bind] in *. rewrite Ht. reflexivity.
Qed.

Lemma read_graph_takes_newest_witness :
  sessions oneSession !! "sid-1" = Some demoSession
  ∧ ∃ item t,
      item ∈ [ {| gi_Value := Some 101; gi_value := None;
                  gi_Timestamp := Some "2023-11-14T21:00:00.000Z";
                  gi_MeasurementDate := None |};
               {| gi_Value := Some 123; gi_value := None;
                  gi_Timestamp := Some "2023-11-14T22:00:00.000Z";
                  gi_MeasurementDate := None |} ]
      ∧ read Node.platform 1700000000000 (Some "sid-1")
          (answers 200 (Some [Some bareConnection]))
          (answers 200
             (Some [ {| gi_Value := Some 101; gi_value := None;
                        gi_Timestamp := Some "2023-11-14T21:00:00.000Z";
                        gi_MeasurementDate := None |};
                     {| gi_Value := Some 123; gi_value := None;
                        gi_Timestamp := Some "2023-11-14T22:00:00.000Z";
                        gi_MeasurementDate := None |} ]))
          oneSession
        = (oneSession,
           respond 200 (ReadingJson
             {| value := Some (default 0 (nullish (gi_Value item) (gi_value item)));
                timestamp := toISOString Node.platform t;
                trendArrow := None;
                sensor := None |})).
Proof.
  assert (Hsession : sessions oneSession !! "sid-1" = Some demoSession)
    by (vm_compute; reflexivity).
  split; [exact Hsession |].
  assert (Hsid : "sid-1" ≠ "") by discriminate.
  assert (H401 : 200 ≠ 401) by discriminate.
  destruct (read_graph_takes_newest Node.platform 1700000000000 "sid-1"
              (answers 200 (Some [Some bareConnection]))
              (answers 200
                 (Some [ {| gi_Value := Some 101; gi_value := None;
                            gi_Timestamp := Some "2023-11-14T21:00:00.000Z";
                            gi_MeasurementDate := None |};
                         {| gi_Value := Some 123; gi_value := None;
                            gi_Timestamp := Some "2023-11-14T22:00:00.000Z";
                            gi_MeasurementDate := None |} ]))
              oneSession demoSession _ bareConnection _ _
              Hsid Hsession eq_refl H401 eq_refl eq_refl eq_refl eq_refl eq_refl
              ltac:(discriminate)
              ltac:(repeat constructor; vm_compute; eexists; reflexivity))
    as (item & t & Hin & _ & _ & Hread).
  exists item, t. split; [exact Hin | exact Hread].
Defined.

(** ** Wear-life over time *)

Lemma wearLife_activated t0 now :
  t0 ≠ 0 →
  Z.abs (t0 * 1000) + 14 * msPerDay ≤ maxTime →
  wl_daysLeft (wearLife (Some t0) now)
  = Some (Z.max 0 (ceilDiv (t0 * 1000 + 14 * msPerDay - now) msPerDay)).
Proof.
  intros Hact Hrange. unfold wearLife, activated.
  apply Z.eqb_neq in Hact. rewrite Hact. cbn [negb default from_option]. unfold id.
  rewrite newDate_valid by (unfold msPerDay, maxTime in *; lia).
  cbn [mbind option_bind].
  change (14 * 24 * 60 * 60 * 1000) with (14 * msPerDay).
  rewrite newDate_valid by (unfold msPerDay, maxTime in *; lia).
  reflexivity.
Qed.

Lemma ceilDiv_mono x y d : 0 < d → x ≤ y → ceilDiv x d ≤ ceilDiv y d.
Proof.
  intros Hd Hxy. unfold ceilDiv.
  pose proof (Z.div_le_mono (- y) (- x) d Hd ltac:(lia)). lia.
Qed.

(** X15.  For an activated sensor, [daysLeft] never grows as the clock
    advances; it is 14 at the activation instant, lies between 1 and 14
    while the sensor is within its 14 days, and is 0 from the end date
    on. *)
Theorem daysLeft_over_time (t0 now later : Z)
    (Hactivated : t0 ≠ 0)
    (Hrange : Z.abs (t0 * 1000) + 14 * msPerDay ≤ maxTime)
    (Hlater : now ≤ later) :
  ∃ d d',
    wl_daysLeft (wearLife (Some t0) now) = Some d
    ∧ wl_daysLeft (wearLife (Some t0) later) = Some d'
    ∧ d' ≤ d
    ∧ (now = t0 * 1000 → d = 14)
    ∧ (t0 * 1000 ≤ now < t0 * 1000 + 14 * msPerDay → 1 ≤ d ≤ 14)
    ∧ (t0 * 1000 + 14 * msPerDay ≤ now → d = 0 ∧ d' = 0).
Proof.
  rewrite !wearLife_activated by assumption.
  eexists _, _. split; [reflexivity | split; [reflexivity |]].
  pose proof msPerDay_pos as Hpos.
  pose proof (ceilDiv_spec (t0 * 1000 + 14 * msPerDay - now) msPerDay Hpos) as Hn.
  pose proof (ceilDiv_spec (t0 * 1000 + 14 * msPerDay - later) msPerDay Hpos) as Hl.
  pose proof (ceilDiv_mono (t0 * 1000 + 14 * msPerDay - later)
                (t0 * 1000 + 14 * msPerDay - now) msPerDay Hpos ltac:(lia)) as Hmono.
  split_and!.
  - lia.
  - intros ->.
    replace (t0 * 1000 + 14 * msPerDay - t0 * 1000) with (14 * msPerDay) by lia.
    rewrite ceilDiv_exact by exact Hpos. reflexivity.
  - intros [Hlo Hhi].
    pose proof (ceilDiv_le (t0 * 1000 + 14 * msPerDay - now) msPerDay 14 Hpos
                  ltac:(lia)).
    nia.
  - intros Hend.
    pose proof (ceilDiv_le (t0 * 1000 + 14 * msPerDay - now) msPerDay 0 Hpos
                  ltac:(lia)).
    lia.
Qed.

Lemma daysLeft_over_time_witness :
  1700000000 ≠ 0
  ∧ 1700000000000 ≤ 1700864000000
  ∧ ∃ d d',
      wl_daysLeft (wearLife (Some 1700000000) 1700000000000) = Some d
      ∧ wl_daysLeft (wearLife (Some 1700000000) 1700864000000) = Some d'
      ∧ d' ≤ d.
Proof.
  assert (Hact : 1700000000 ≠ 0) by discriminate.
  assert (Hlater : 1700000000000 ≤ 1700864000000) by (vm_compute; discriminate).
  split; [exact Hact | split; [exact Hlater |]].
  destruct (daysLeft_over_time 1700000000 1700000000000 1700864000000 Hact
              ltac:(vm_compute; discriminate) Hlater)
    as (d & d' & H1 & H2 & H3 & _).
  exists d, d'. split; [exact H1 | split; [exact H2 | exact H3]].
Defined.

(** ** Which connection is read *)

(** X30.  Of the vendor's connections the handler reads the first one
    whose [pending] flag is [false], and the first one of all when there
    is none; an empty list gives no connection (the 204 answer). *)
Theorem selectFirst_prefers_not_pending (l : list Connection) :
  selectFirst (Some (Some <$> l))
  = Ret (match List.find (fun c => bool_decide (pending c = Some false)) l with
         | Some c => Some c
         | None => head l
         end)
  ∧ selectFirst (Some []) = Ret None
  ∧ selectFirst None = Ret None.
Proof.
  split_and!; try reflexivity.
  assert (Hfind : findNotPending (Some <$> l)
                  = Ret (List.find (fun c => bool_decide (pending c = Some false)) l)).
  { induction l as [| c l IH]; cbn [fmap list_fmap findNotPending List.find];
      [reflexivity |].
    destruct (pending c) as [[|] |]; cbn; first [exact IH | reflexivity]. }
  unfold selectFirst. rewrite Hfind. cbn [bind].
  destruct (List.find _ l); [reflexivity |].
  destruct l; reflexivity.
Qed.

End ServerExtra.

(* ===================================================================== *)
(** * Further properties of the log provider *)
(* ===================================================================== *)

Module ClientExtra.
Import Js Types Client Scenarios ClientSpec.

(** ** Deleting entries *)

Lemma filter_filter_same {A} (f : A → bool) l :
  List.filter f (List.filter f l) = List.filter f l.
Proof.
  induction l as [| x l IH]; cbn [List.filter]; [reflexivity |].
  destruct (f x) eqn:Hx; cbn [List.filter]; rewrite ?Hx, IH; reflexivity.
Qed.

Lemma filter_all {A} (f : A → bool) l :
  (∀ x, x ∈ l → f x = true) → List.filter f l = l.
Proof.
  induction l as [| x l IH]; intros H; cbn [List.filter]; [reflexivity |].
  rewrite (H x) by left. rewrite IH; [reflexivity |].
  intros y Hy. apply H. right. exact Hy.
Qed.

Lemma elem_of_filter {A} (f : A → bool) l x :
  x ∈ List.filter f l ↔ x ∈ l ∧ f x = true.
Proof. rewrite !list_elem_of_In. apply List.filter_In. Qed.

(** X16.  [deleteEntry(id)] removes the entries with that id and only
    those, keeps the others in their order (a log sorted newest first
    stays so), touches nothing but the log, and does nothing when no
    entry has the id or when it is repeated. *)
Theorem deleteEntry_removes_by_id P entryId st
    (Hsorted : sortedLog P (logEntries st)) :
  sortedLog P (logEntries (deleteEntry entryId st))
  ∧ (∀ e, e ∈ logEntries (deleteEntry entryId st)
          ↔ e ∈ logEntries st ∧ id e ≠ entryId)
  ∧ deleteEntry entryId (deleteEntry entryId st) = deleteEntry entryId st
  ∧ ((∀ e, e ∈ logEntries st → id e ≠ entryId) → deleteEntry entryId st = st)
  ∧ profiles (deleteEntry entryId st) = profiles st
  ∧ activeProfileId (deleteEntry entryId st) = activeProfileId st.
Proof.
  split_and!.
  - apply filter_StronglySorted. exact Hsorted.
  - intros e. unfold deleteEntry. cbn [logEntries withEntries].
    rewrite elem_of_filter, negb_true_iff, String.eqb_neq. reflexivity.
  - unfold deleteEntry, withEntries. cbn. rewrite filter_filter_same. reflexivity.
  - intros Hnone. unfold deleteEntry.
    rewrite filter_all; [destruct st; reflexivity |].
    intros e He. apply negb_true_iff, String.eqb_neq, Hnone, He.
  - reflexivity.
  - reflexivity.
Qed.

Lemma deleteEntry_removes_by_id_witness :
  sortedLog Node.platform (logEntries loggedClient)
  ∧ ∀ e, e ∈ logEntries (deleteEntry "uuid-0" loggedClient) → id e ≠ "uuid-0".
Proof.
  assert (Hsorted : sortedLog Node.platform (logEntries loggedClient))
    by (apply SSorted_cons; [apply SSorted_nil | constructor]).
  split; [exact Hsorted |].
  intros e He.
  exact (proj2 (proj1 (proj1 (proj2 (deleteEntry_removes_by_id Node.platform
                                       "uuid-0" loggedClient Hsorted)) e) He)).
Defined.

Section InsertThenFilter.
Context {A : Type} (cmp : A → A → option Z) (f : A → bool).

Lemma filter_insertBy_dropped x l :
  f x = false → List.filter f (insertBy cmp x l) = List.filter f l.
Proof.
  intros Hx. induction l as [| y l IH]; cbn [insertBy List.filter].
  - rewrite Hx. reflexivity.
  - destruct (cmpSign (cmp x y) <=? 0); cbn [List.filter]; rewrite ?Hx;
      [reflexivity |].
    rewrite IH. reflexivity.
Qed.

Lemma filter_insertBy_front x l :
  f x = true →
  (∀ y, y ∈ l → f y = true → cmpSign (cmp x y) ≤ 0) →
  List.filter f (insertBy cmp x l) = x :: List.filter f l.
Proof.
  intros Hx. induction l as [| y l IH]; intros Hle; cbn [insertBy List.filter].
  - rewrite Hx. reflexivity.
  - destruct (Z.leb_spec (cmpSign (cmp x y)) 0) as [Hc | Hc];
      cbn [List.filter]; rewrite ?Hx; [reflexivity |].
    destruct (f y) eqn:Hy.
    + pose proof (Hle y ltac:(left) Hy). lia.
    + apply IH. intros z Hz. apply Hle. right. exact Hz.
Qed.
End InsertThenFilter.

Lemma newerFirst_cmp P x y :
  newerFirst P x y → cmpSign (entryCmp P x y) ≤ 0.
Proof.
  unfold newerFirst, entryCmp, sub.
  destruct (dateParse P (timestamp x)), (dateParse P (timestamp y));
    cbn [cmpSign]; try tauto; lia.
Qed.

Lemma filter_sort_appended P (f : LogEntry → bool) prev new :
  sortedLog P prev →
  (∀ e, e ∈ prev → f e = true) →
  f new = false →
  List.filter f (sort (entryCmp P) (prev ++ [new])) = prev.
Proof.
  intros Hs Hprev Hnew. induction Hs as [| p ps Hps IH Hp]; cbn [app sort].
  - cbn. rewrite Hnew. reflexivity.
  - rewrite filter_insertBy_front.
    + rewrite IH; [reflexivity |]. intros e He. apply Hprev. right. exact He.
    + apply Hprev. left.
    + intros y Hy Hfy.
      apply list_elem_of_In in Hy.
      apply (Permutation_in _ (sort_perm (entryCmp P) (ps ++ [new]))) in Hy.
      apply list_elem_of_In, elem_of_app in Hy as [Hy | Hy].
      * apply newerFirst_cmp. rewrite Forall_forall in Hp. apply Hp, Hy.
      * apply list_elem_of_singleton in Hy as ->. congruence.
Qed.

(** X17.  Adding an entry and then deleting it by its id gives back the
    log as it was, entry for entry and in the same order, when that log
    was sorted newest first and held no entry with the new id. *)
Theorem addEntry_then_deleteEntry P now granted entryData st pid
    (Hsorted : sortedLog P (logEntries st))
    (Hpid : activeProfileId st = Some pid)
    (Hne : pid ≠ "")
    (Hfresh : ∀ e, e ∈ logEntries st → id e ≠ uuidv4 P (uuidCount st)) :
  logEntries (deleteEntry (uuidv4 P (uuidCount st))
                (addEntry P now granted entryData st))
  = logEntries st.
Proof.
  unfold deleteEntry. cbn [logEntries withEntries].
  rewrite (addEntry_log _ _ _ _ _ _ Hpid Hne).
  apply filter_sort_appended; [exact Hsorted | |].
  - intros e He. apply negb_true_iff, String.eqb_neq, Hfresh, He.
  - cbn [id]. rewrite String.eqb_refl. reflexivity.
Qed.

Lemma addEntry_then_deleteEntry_witness :
  sortedLog Node.platform (logEntries loggedClient)
  ∧ activeProfileId loggedClient = Some "p1"
  ∧ logEntries
      (deleteEntry (uuidv4 Node.platform (uuidCount loggedClient))
         (addEntry Node.platform 1700000100000 false manual95 loggedClient))
    = logEntries loggedClient.
Proof.
  assert (Hsorted : sortedLog Node.platform (logEntries loggedClient))
    by (apply SSorted_cons; [apply SSorted_nil | constructor]).
  split; [exact Hsorted | split; [reflexivity |]].
  apply (addEntry_then_deleteEntry Node.platform 1700000100000 false manual95
           loggedClient "p1" Hsorted eq_refl).
  - discriminate.
  - intros e He. apply list_elem_of_singleton in He as ->.
    vm_compute. discriminate.
Defined.

(** ** Settings updates *)

Lemma elem_of_updated_profiles new st q :
  q ∈ profiles (updateSettings new st) ↔
  ∃ p, p ∈ profiles st
       ∧ q = if bool_decide (Some (profile_id p) = activeProfileId st)
             then updated new p else p.
Proof.
  unfold updateSettings. cbn [profiles withProfiles].
  rewrite list_elem_of_fmap. split; intros (p & H1 & H2); exists p; auto.
Qed.

(** X18.  An update of the connection settings reaches the active
    profile only: the profiles keep their number, order, ids and names,
    every profile that is not the active one is left exactly as it was,
    and in the active one nothing but [libreLinkUp] changes; the log, the
    active profile and the session marker are untouched. *)
Theorem updateSettings_reaches_active_only (new : LibreLinkUp) (st : State) :
  profile_id <$> profiles (updateSettings new st) = profile_id <$> profiles st
  ∧ (∀ p, p ∈ profiles st → Some (profile_id p) ≠ activeProfileId st →
          p ∈ profiles (updateSettings new st))
  ∧ (∀ q, q ∈ profiles (updateSettings new st) →
          ∃ p, p ∈ profiles st
               ∧ profile_id q = profile_id p
               ∧ profile_name q = profile_name p
               ∧ targetRange_low (settings q) = targetRange_low (settings p)
               ∧ targetRange_high (settings q) = targetRange_high (settings p)
               ∧ notifications_enabled (settings q)
                 = notifications_enabled (settings p)
               ∧ notifications_highLowAlerts (settings q)
                 = notifications_highLowAlerts (settings p)
               ∧ (Some (profile_id p) ≠ activeProfileId st → q = p)
               ∧ (Some (profile_id p) = activeProfileId st →
                  libreLinkUp (settings q)
                  = mergeLibreLinkUp (libreLinkUp (settings p)) new))
  ∧ logEntries (updateSettings new st) = logEntries st
  ∧ activeProfileId (updateSettings new st) = activeProfileId st
  ∧ libreSessionId (updateSettings new st) = libreSessionId st.
Proof.
  split_and!.
  - unfold updateSettings. cbn [profiles withProfiles].
    rewrite <- list_fmap_compose. apply list_fmap_ext.
    intros i p _. cbn. case_bool_decide; reflexivity.
  - intros p Hp Hother. apply elem_of_updated_profiles. exists p.
    split; [exact Hp |]. rewrite bool_decide_eq_false_2 by exact Hother.
    reflexivity.
  - intros q Hq. apply elem_of_updated_profiles in Hq as (p & Hp & ->).
    exists p. split; [exact Hp |].
    case_bool_decide as Hact; cbn; split_and!; try reflexivity;
      intros Hc; first [reflexivity | contradiction].
  - reflexivity.
  - reflexivity.
  - reflexivity.
Qed.

(** ** Disconnecting *)

Lemma activeProfile_disconnectLibre apiOk st :
  activeProfile (disconnectLibre apiOk st)
  = updated (withStatus disconnected initialLibreLinkUp) <$> activeProfile st.
Proof.
  unfold disconnectLibre. rewrite activeProfile_updateSettings.
  destruct apiOk; reflexivity.
Qed.

Lemma libreLinkUp_disconnectLibre apiOk st p :
  activeProfile st = Some p →
  libreLinkUp (settingsOf (disconnectLibre apiOk st))
  = {| status := disconnected; email := ""; region := "EU"; lastSync := None;
       sensor := sensor (libreLinkUp (settings p)) |}.
Proof.
  intros Hp. unfold settingsOf. rewrite activeProfile_disconnectLibre, Hp.
  reflexivity.
Qed.

(** X19.  [disconnectLibre] puts the connection of the active profile
    back to its initial values (status [disconnected], no e-mail, region
    EU, no last sync) whether or not the call to the gateway succeeds,
    but keeps the sensor data last received; the log is not touched. *)
Theorem disconnectLibre_resets_connection apiOk st p
    (Hactive : activeProfile st = Some p) :
  libreLinkUp (settingsOf (disconnectLibre apiOk st))
  = {| status := disconnected; email := ""; region := "EU"; lastSync := None;
       sensor := sensor (libreLinkUp (settings p)) |}
  ∧ logEntries (disconnectLibre apiOk st) = logEntries st
  ∧ activeProfileId (disconnectLibre apiOk st) = activeProfileId st.
Proof.
  split_and!.
  - apply libreLinkUp_disconnectLibre. exact Hactive.
  - apply logEntries_disconnectLibre.
  - destruct apiOk; reflexivity.
Qed.

Lemma disconnectLibre_resets_connection_witness :
  activeProfile freshClient = Some demoProfile
  ∧ libreLinkUp (settingsOf (disconnectLibre false freshClient))
    = {| status := disconnected; email := ""; region := "EU"; lastSync := None;
         sensor := None |}.
Proof.
  assert (Hactive : activeProfile freshClient = Some demoProfile)
    by (vm_compute; reflexivity).
  split; [exact Hactive |].
  exact (proj1 (disconnectLibre_resets_connection false freshClient demoProfile
                  Hactive)).
Defined.

(** ** The sync tick *)

Lemma activeProfile_mergeReadings P readings st :
  activeProfile (mergeReadings P readings st) = activeProfile st.
Proof. unfold mergeReadings. case_match; reflexivity. Qed.

Lemma libreLinkUp_after_sync P now apiOk r rs st p marker :
  activeProfile st = Some p →
  libreSessionId st = Some marker →
  libreLinkUp (settingsOf (syncLibreData P now apiOk (Resolves (Some (r :: rs))) st))
  = {| status := status (libreLinkUp (settingsRef st));
       email := email (libreLinkUp (settingsRef st));
       region := region (libreLinkUp (settingsRef st));
       lastSync := Some (toISOString P now);
       sensor :=
         nullish (nullish (Server.sensor r) (sensor (libreLinkUp (settingsRef st))))
                 (sensor (libreLinkUp (settings p))) |}.
Proof.
  intros Hactive Hmarker.
  unfold syncLibreData. rewrite Hmarker. cbn [afterFetch].
  unfold settingsOf.
  rewrite activeProfile_updateSettings, activeProfile_mergeReadings, Hactive.
  reflexivity.
Qed.

(** X20.  A tick that fetched at least one reading writes the connection
    settings back as they were captured in [settingsRef] when the tick
    started (status, e-mail and region), sets [lastSync] to the clock, and
    takes the sensor data from the first reading, else from the captured
    settings, else keeps the profile's. *)
Theorem sync_writes_back_captured_settings P now apiOk r rs st p marker
    (Hactive : activeProfile st = Some p)
    (Hmarker : libreSessionId st = Some marker) :
  libreLinkUp (settingsOf (syncLibreData P now apiOk (Resolves (Some (r :: rs))) st))
  = {| status := status (libreLinkUp (settingsRef st));
       email := email (libreLinkUp (settingsRef st));
       region := region (libreLinkUp (settingsRef st));
       lastSync := Some (toISOString P now);
       sensor :=
         nullish (nullish (Server.sensor r) (sensor (libreLinkUp (settingsRef st))))
                 (sensor (libreLinkUp (settings p))) |}.
Proof. exact (libreLinkUp_after_sync P now apiOk r rs st p marker Hactive Hmarker). Qed.

Lemma sync_writes_back_captured_settings_witness :
  activeProfile freshClient = Some demoProfile
  ∧ libreSessionId freshClient = Some "sid-1"
  ∧ status
      (libreLinkUp
         (settingsOf
            (syncLibreData Node.platform 1700000000000 true
               (Resolves (Some [reading110])) freshClient)))
    = status (libreLinkUp (settingsRef freshClient)).
Proof.
  assert (Hactive : activeProfile freshClient = Some demoProfile)
    by (vm_compute; reflexivity).
  split; [exact Hactive | split; [reflexivity |]].
  exact (f_equal status
           (sync_writes_back_captured_settings Node.platform 1700000000000 true
              reading110 [] freshClient demoProfile "sid-1" Hactive eq_refl)).
Defined.

Lemma sync_leaves_state_alone_aux P now apiOk readings st :
  readings = None ∨ readings = Some [] →
  syncLibreData P now apiOk (Resolves readings) st = st.
Proof.
  intros [-> | ->]; unfold syncLibreData; destruct (libreSessionId st); reflexivity.
Qed.

(** X21.  A tick leaves the whole state as it is when no session marker
    is stored, when the fetch returns nothing or an empty list, and when
    the fetch fails with an error whose message does not name the
    session ("Oturum"): no entry, no [lastSync], no status change. *)
Theorem sync_leaves_state_alone P now apiOk fetch st :
  (libreSessionId st = None → syncLibreData P now apiOk fetch st = st)
  ∧ syncLibreData P now apiOk (Resolves None) st = st
  ∧ syncLibreData P now apiOk (Resolves (Some [])) st = st
  ∧ syncLibreData P now apiOk (Rejects None) st = st
  ∧ (∀ m, includes "Oturum" m = false →
          syncLibreData P now apiOk (Rejects (Some m)) st = st).
Proof.
  unfold syncLibreData. split_and!.
  - intros ->. reflexivity.
  - destruct (libreSessionId st); reflexivity.
  - destruct (libreSessionId st); reflexivity.
  - destruct (libreSessionId st); reflexivity.
  - intros m Hm. destruct (libreSessionId st); [| reflexivity].
    cbn [afterFetch]. rewrite Hm. reflexivity.
Qed.

(** X22.  A tick whose fetch fails with a message that names the session
    ("Oturum") disconnects: the connection of the active profile goes
    back to [disconnected] with e-mail, region and last sync reset, the
    sensor data are kept, and the log is left as it was. *)
Theorem sync_expiry_resets_connection P now apiOk m st p marker
    (Hactive : activeProfile st = Some p)
    (Hmarker : libreSessionId st = Some marker)
    (Hexpired : includes "Oturum" m = true) :
  libreLinkUp (settingsOf (syncLibreData P now apiOk (Rejects (Some m)) st))
  = {| status := disconnected; email := ""; region := "EU"; lastSync := None;
       sensor := sensor (libreLinkUp (settings p)) |}
  ∧ logEntries (syncLibreData P now apiOk (Rejects (Some m)) st) = logEntries st.
Proof.
  unfold syncLibreData. rewrite Hmarker. cbn [afterFetch]. rewrite Hexpired.
  split.
  - apply libreLinkUp_disconnectLibre. exact Hactive.
  - apply logEntries_disconnectLibre.
Qed.

Lemma sync_expiry_resets_connection_witness :
  activeProfile freshClient = Some demoProfile
  ∧ includes "Oturum" "Oturum sona erdi" = true
  ∧ connectionStatus
      (syncLibreData Node.platform 1700000000000 false
         (Rejects (Some "Oturum sona erdi")) freshClient)
    = disconnected.
Proof.
  assert (Hactive : activeProfile freshClient = Some demoProfile)
    by (vm_compute; reflexivity).
  split; [exact Hactive | split; [reflexivity |]].
  exact (f_equal status
           (proj1 (sync_expiry_resets_connection Node.platform 1700000000000
                     false "Oturum sona erdi" freshClient demoProfile "sid-1"
                     Hactive eq_refl eq_refl))).
Defined.

(** ** Connecting *)

Lemma alerts_syncLibreData P now apiOk fetch st :
  alerts (syncLibreData P now apiOk fetch st) = alerts st.
Proof.
  unfold syncLibreData. destruct (libreSessionId st); [| reflexivity].
  destruct fetch as [[m |] | [[| r rs] |]]; cbn [afterFetch]; try reflexivity.
  - destruct (includes "Oturum" m); [| reflexivity].
    unfold disconnectLibre. destruct apiOk; reflexivity.
  - unfold mergeReadings. case_match; reflexivity.
Qed.

Lemma connectCatch_effects mail settings0 t err st :
  let run := connectCatch mail settings0 t err st in
  failed run = true
  ∧ logEntries (final run) = logEntries st
  ∧ alerts (final run) = alerts st ++ ["Bağlantı Durumu: " +:+ connectErrorText err]
  ∧ deferredSync run = bool_decide (libreIsMock st = Some "true").
Proof.
  cbv zeta. unfold connectCatch.
  change (libreIsMock (withAlert ?m st)) with (libreIsMock st).
  destruct (bool_decide (libreIsMock st = Some "true")); cbn; auto.
Qed.

(** X23.  A failed connect attempt leaves the log alone, raises exactly
    one alert, whose text is the timeout notice when the 75-second timer
    won the race, and schedules a later sync only in simulated mode; an
    attempt that does not fail raises no alert. *)
Theorem connect_failure_alerts_once P now apiOk mail login syncLatency fetch st :
  let run := connectLibre P now apiOk mail login syncLatency fetch st in
  (failed run = true →
   logEntries (final run) = logEntries st
   ∧ (∃ text, alerts (final run) = alerts st ++ ["Bağlantı Durumu: " +:+ text])
   ∧ deferredSync run = bool_decide (libreIsMock st = Some "true"))
  ∧ (failed run = false → alerts (final run) = alerts st ∧ deferredSync run = false)
  ∧ ((login = None ∨ ∃ t l, login = Some (t, l) ∧ connectTimeout ≤ t) →
     alerts (final run)
     = alerts st
       ++ ["Bağlantı Durumu: Bağlantı zaman aşımına uğradı. Otomatik olarak Simülasyon Moduna geçiliyor..."]).
Proof.
  cbv zeta. split_and!.
  - unfold connectLibre. destruct (race login) as [t [[|] marker | err]].
    + cbn [failed]. discriminate.
    + intros _.
      destruct (connectCatch_effects mail (settingsOf st) t
                  {| thrown_name := Some "Error";
                     thrown_message := "Bağlantı Başarısız" |}
                  (withSessionId marker
                     (render (updateSettings
                                (withStatus connecting (libreLinkUp (settingsOf st)))
                                st))))
        as (_ & Hlog & Halerts & Hdef).
      split_and!; [exact Hlog | eexists; exact Halerts | exact Hdef].
    + intros _.
      destruct (connectCatch_effects mail (settingsOf st) t err
                  (render (updateSettings
                             (withStatus connecting (libreLinkUp (settingsOf st)))
                             st)))
        as (_ & Hlog & Halerts & Hdef).
      split_and!; [exact Hlog | eexists; exact Halerts | exact Hdef].
  - unfold connectLibre. destruct (race login) as [t [[|] marker | err]].
    + intros _. cbn [final deferredSync]. split; [| reflexivity].
      change (alerts (render ?s)) with (alerts s).
      rewrite alerts_syncLibreData. reflexivity.
    + intros Hf.
      destruct (connectCatch_effects mail (settingsOf st) t
                  {| thrown_name := Some "Error";
                     thrown_message := "Bağlantı Başarısız" |}
                  (withSessionId marker
                     (render (updateSettings
                                (withStatus connecting (libreLinkUp (settingsOf st)))
                                st))))
        as (Hfail & _). cbv zeta in Hfail. congruence.
    + intros Hf.
      destruct (connectCatch_effects mail (settingsOf st) t err
                  (render (updateSettings
                             (withStatus connecting (libreLinkUp (settingsOf st)))
                             st)))
        as (Hfail & _). cbv zeta in Hfail. congruence.
  - intros Hlate.
    assert (Hrace : race login = (connectTimeout, LoginRejects timeoutError)).
    { destruct Hlate as [-> | (t & l & -> & Ht)]; [reflexivity |].
      unfold race. apply Z.ltb_ge in Ht. rewrite Ht. reflexivity. }
    unfold connectLibre. rewrite Hrace.
    destruct (connectCatch_effects mail (settingsOf st) connectTimeout timeoutError
                (render (updateSettings
                           (withStatus connecting (libreLinkUp (settingsOf st)))
                           st)))
      as (_ & _ & Halerts & _).
    exact Halerts.
Qed.

(** ** Batches *)

Lemma length_newEntries P pid seen n readings :
  pid ≠ "" →
  length (newEntries P (Some pid) seen n readings)
  = length (List.filter
              (fun r => match Server.value r with Some _ => true | None => false end
                        && bool_decide (Server.timestamp r ∉ seen))
              readings).
Proof.
  intros Hpid. apply String.eqb_neq in Hpid.
  revert n. induction readings as [| r rs IH]; intros n;
    cbn [newEntries List.filter]; [reflexivity |].
  destruct (Server.value r); cbn [andb]; [| apply IH].
  destruct (bool_decide (Server.timestamp r ∉ seen)); cbn [andb];
    [| apply IH].
  rewrite Hpid. cbn [negb length]. rewrite IH. reflexivity.
Qed.

(** X25.  Under an active profile, a merge makes the log longer by
    exactly the number of fetched readings that have a value and whose
    timestamp the log did not carry before the merge, and draws as many
    identifiers; readings of one batch are not compared with each
    other. *)
Theorem mergeReadings_growth P readings st pid
    (Hpid : activeProfileId st = Some pid)
    (Hne : pid ≠ "") :
  let accepted :=
    List.filter
      (fun r => match Server.value r with Some _ => true | None => false end
                && bool_decide (Server.timestamp r
                                ∉ existingTimestamps (logEntries st)))
      readings in
  length (logEntries (mergeReadings P readings st))
  = (length (logEntries st) + length accepted)%nat
  ∧ uuidCount (mergeReadings P readings st)
    = (uuidCount st + length accepted)%nat.
Proof.
  cbv zeta.
  pose proof (length_newEntries P pid (existingTimestamps (logEntries st))
                (uuidCount st) readings Hne) as Hlen.
  unfold mergeReadings. rewrite Hpid.
  destruct (newEntries P (Some pid) (existingTimestamps (logEntries st))
              (uuidCount st) readings) as [| e fresh] eqn:Hnew.
  - rewrite <- Hlen. cbn [length]. split; lia.
  - rewrite <- Hlen. cbn [logEntries uuidCount withLog]. split; [| reflexivity].
    rewrite (Permutation_length (sort_perm (entryCmp P) (logEntries st ++ e :: fresh))).
    apply length_app.
Qed.

Lemma mergeReadings_growth_witness :
  activeProfileId freshClient = Some "p1"
  ∧ length (logEntries
              (mergeReadings Node.platform [reading110; reading110] freshClient))
    = 2%nat.
Proof.
  split; [reflexivity |].
  destruct (mergeReadings_growth Node.platform [reading110; reading110]
              freshClient "p1" eq_refl ltac:(discriminate)) as [Hlen _].
  cbv zeta in Hlen. rewrite Hlen. vm_compute. reflexivity.
Defined.

(** ** Profiles *)

Lemma find_app_fresh {A} (f : A → bool) l x :
  (∀ y, y ∈ l → f y = false) → f x = true → List.find f (l ++ [x]) = Some x.
Proof.
  intros Hl Hx. induction l as [| y l IH]; cbn [app List.find].
  - rewrite Hx. reflexivity.
  - rewrite (Hl y) by left. apply IH. intros z Hz. apply Hl. right. exact Hz.
Qed.

(** X26.  A profile added with an id that no profile and no log entry
    carries becomes the active one, starts with the initial settings
    (status [disconnected]) and an empty log view; the profiles that
    were there and the log are kept. *)
Theorem addProfile_starts_clean P name st
    (Hfresh : ∀ p, p ∈ profiles st → profile_id p ≠ uuidv4 P (uuidCount st))
    (Hunused : ∀ e, e ∈ logEntries st → profileId e ≠ uuidv4 P (uuidCount st)) :
  let st' := addProfile P name st in
  activeProfile st'
  = Some {| profile_id := uuidv4 P (uuidCount st);
            profile_name := name;
            settings := initialSettings |}
  ∧ connectionStatus st' = disconnected
  ∧ logEntriesForActiveProfile st' = []
  ∧ (∀ p, p ∈ profiles st → p ∈ profiles st')
  ∧ logEntries st' = logEntries st.
Proof.
  cbv zeta.
  assert (Hact : activeProfile (addProfile P name st)
                 = Some {| profile_id := uuidv4 P (uuidCount st);
                           profile_name := name;
                           settings := initialSettings |}).
  { unfold activeProfile, addProfile. cbn [activeProfileId profiles profile_id].
    apply find_app_fresh.
    - intros q Hq. apply String.eqb_neq, Hfresh, Hq.
    - cbn [profile_id]. apply String.eqb_refl. }
  split_and!.
  - exact Hact.
  - unfold connectionStatus, settingsOf. rewrite Hact. reflexivity.
  - unfold logEntriesForActiveProfile, addProfile.
    cbn [activeProfileId logEntries profile_id].
    induction (logEntries st) as [| e l IH]; [reflexivity |].
    cbn [List.filter].
    rewrite (proj2 (String.eqb_neq _ _) (Hunused e ltac:(left))).
    apply IH. intros e' He'. apply Hunused. right. exact He'.
  - intros p Hp. unfold addProfile. cbn [profiles].
    apply elem_of_app. left. exact Hp.
  - reflexivity.
Qed.

Lemma addProfile_starts_clean_witness :
  (∀ p, p ∈ profiles loggedClient →
        profile_id p ≠ uuidv4 Node.platform (uuidCount loggedClient))
  ∧ logEntriesForActiveProfile (addProfile Node.platform "Bob" loggedClient) = [].
Proof.
  assert (Hfresh : ∀ p, p ∈ profiles loggedClient →
                        profile_id p ≠ uuidv4 Node.platform (uuidCount loggedClient)).
  { intros p Hp. apply list_elem_of_singleton in Hp as ->. vm_compute. discriminate. }
  split; [exact Hfresh |].
  refine (proj1 (proj2 (proj2 (addProfile_starts_clean Node.platform "Bob"
                                 loggedClient Hfresh _)))).
  intros e He. apply list_elem_of_singleton in He as ->. vm_compute. discriminate.
Defined.

(** X27.  [deleteProfile] refuses to delete the only profile (an alert,
    nothing else) and does nothing when the user declines.  Otherwise it
    removes the profile and every log entry of it, keeps the other
    profiles and their entries in their order, and never leaves the
    deleted profile active: the active profile is kept when it is
    another one, and replaced by the first remaining profile when it was
    the deleted one. *)
Theorem deleteProfile_effects confirmed pid st :
  let st' := deleteProfile confirmed pid st in
  ((length (profiles st) ≤ 1)%nat →
   profiles st' = profiles st
   ∧ logEntries st' = logEntries st
   ∧ activeProfileId st' = activeProfileId st
   ∧ alerts st' = alerts st ++ ["En az bir profil kalmalıdır."])
  ∧ ((1 < length (profiles st))%nat → confirmed = false → st' = st)
  ∧ ((1 < length (profiles st))%nat → confirmed = true →
     (∀ p, p ∈ profiles st' ↔ p ∈ profiles st ∧ profile_id p ≠ pid)
     ∧ (∀ e, e ∈ logEntries st' ↔ e ∈ logEntries st ∧ profileId e ≠ pid)
     ∧ activeProfileId st' ≠ Some pid
     ∧ (activeProfileId st ≠ Some pid → activeProfileId st' = activeProfileId st)
     ∧ (activeProfileId st = Some pid →
        ∀ q, List.find (fun p => negb (String.eqb (profile_id p) pid)) (profiles st)
             = Some q →
             profile_id q ≠ "" →
             activeProfileId st' = Some (profile_id q) ∧ q ∈ profiles st')
     ∧ alerts st' = alerts st).
Proof.
  cbv zeta. unfold deleteProfile. split_and!.
  - intros Hone. apply Nat.leb_le in Hone. rewrite Hone. cbn. auto.
  - intros Hmany ->. apply Nat.leb_gt in Hmany. rewrite Hmany. reflexivity.
  - intros Hmany ->. apply Nat.leb_gt in Hmany. rewrite Hmany.
    cbn [profiles logEntries activeProfileId alerts]. split_and!.
    + intros p. rewrite elem_of_filter, negb_true_iff, String.eqb_neq. reflexivity.
    + intros e. rewrite elem_of_filter, negb_true_iff, String.eqb_neq. reflexivity.
    + case_bool_decide as Hact; [| exact Hact].
      destruct (List.find _ (profiles st)) as [q |] eqn:Hfind; [| discriminate].
      apply List.find_some in Hfind as [_ Hq].
      apply negb_true_iff, String.eqb_neq in Hq.
      destruct (String.eqb (profile_id q) ""); [discriminate | congruence].
    + intros Hother. rewrite bool_decide_eq_false_2 by exact Hother. reflexivity.
    + intros Hact q Hfind Hq. rewrite bool_decide_eq_true_2 by exact Hact.
      rewrite Hfind. apply String.eqb_neq in Hq. rewrite Hq.
      split; [reflexivity |].
      apply List.find_some in Hfind as [Hin Hf].
      apply elem_of_filter. split; [apply list_elem_of_In; exact Hin | exact Hf].
    + reflexivity.
Qed.

(** ** Notifications *)

(** X28.  [addEntry] shows at most one notification, and none unless the
    entry is a blood-sugar value outside the target range while
    notifications and high/low alerts are switched on and the browser
    permission is granted; a value below the range raises the low alert
    and one above it the high alert.  Without an active profile
    [addEntry] does nothing at all. *)
Theorem addEntry_notifies_out_of_range P now granted entryData st pid
    (Hpid : activeProfileId st = Some pid)
    (Hne : pid ≠ "") :
  let s := settingsOf st in
  let on := notifications_enabled s && notifications_highLowAlerts s && granted in
  let st' := addEntry P now granted entryData st in
  (∃ n, shown st' = shown st ++ n ∧ (length n ≤ 1)%nat)
  ∧ (on = false → shown st' = shown st)
  ∧ ((∀ v m t, add_data entryData ≠ BloodSugarData v m t) → shown st' = shown st)
  ∧ (∀ v m t, add_data entryData = BloodSugarData v m t →
       (targetRange_low s ≤ v ≤ targetRange_high s → shown st' = shown st)
       ∧ (on = true → v < targetRange_low s →
          shown st' = shown st ++ [{| title := "Düşük Kan Şekeri Uyarısı";
                                     measured := v |}])
       ∧ (on = true → targetRange_low s ≤ v → targetRange_high s < v →
          shown st' = shown st ++ [{| title := "Yüksek Kan Şekeri Uyarısı";
                                     measured := v |}])).
Proof.
  cbv zeta.
  assert (Hshown : shown (addEntry P now granted entryData st)
                   = shown st
                     ++ alertFor (settingsOf st) granted
                          {| id := uuidv4 P (uuidCount st);
                             timestamp := orElse (add_timestamp entryData)
                                                 (toISOString P now);
                             profileId := pid;
                             data := add_data entryData |}).
  { unfold addEntry. rewrite Hpid. apply String.eqb_neq in Hne. rewrite Hne.
    reflexivity. }
  rewrite Hshown. unfold alertFor. cbn [data].
  split_and!.
  - eexists. split; [reflexivity |]. repeat case_match; cbn [length]; lia.
  - intros Hoff. destruct (add_data entryData); try apply app_nil_r.
    rewrite Hoff. apply app_nil_r.
  - intros Hother. destruct (add_data entryData) as [v m t | | | |];
      try apply app_nil_r.
    destruct (Hother v m t eq_refl).
  - intros v m t ->. split_and!.
    + intros [Hlo Hhi].
      apply Z.ltb_ge in Hlo. apply Z.ltb_ge in Hhi. rewrite Hlo, Hhi.
      case_match; apply app_nil_r.
    + intros Hon Hlow. rewrite Hon. apply Z.ltb_lt in Hlow. rewrite Hlow.
      reflexivity.
    + intros Hon Hlo Hhigh. rewrite Hon.
      apply Z.ltb_ge in Hlo. apply Z.ltb_lt in Hhigh. rewrite Hlo, Hhigh.
      reflexivity.
Qed.

Lemma addEntry_notifies_out_of_range_witness :
  activeProfileId freshClient = Some "p1"
  ∧ shown (addEntry Node.platform 1700000100000 true manual95 freshClient) = [].
Proof.
  split; [reflexivity |].
  refine (proj1 (proj2 (addEntry_notifies_out_of_range Node.platform 1700000100000
                          true manual95 freshClient "p1" eq_refl _)) eq_refl).
  discriminate.
Defined.

(** ** Entry identifiers *)

Lemma numberedLog_perm P count l l' :
  l ≡ₚ l' → numberedLog P count l → numberedLog P count l'.
Proof.
  intros Hp [Hnd Hall]. split.
  - apply (NoDup_Permutation_proper _ _ (fmap_Permutation id _ _ Hp)). exact Hnd.
  - rewrite Forall_forall in *. intros e He. apply Hall.
    apply list_elem_of_In. apply list_elem_of_In in He.
    exact (Permutation_in _ (Permutation_sym Hp) He).
Qed.

Lemma numberedLog_filter P count (f : LogEntry → bool) l :
  numberedLog P count l → numberedLog P count (List.filter f l).
Proof.
  intros [Hnd Hall]. split.
  - induction l as [| e l IH]; cbn [List.filter]; [constructor |].
    cbn [fmap list_fmap] in Hnd. apply NoDup_cons in Hnd as [Hnotin Hnd].
    apply Forall_cons in Hall as [_ Hall].
    destruct (f e); [| apply IH; assumption].
    cbn [fmap list_fmap]. apply NoDup_cons. split; [| apply IH; assumption].
    intros Hin. apply Hnotin.
    apply list_elem_of_fmap in Hin as (e' & Hid & He').
    apply list_elem_of_fmap. exists e'. split; [exact Hid |].
    apply elem_of_filter in He' as [He' _]. exact He'.
  - rewrite Forall_forall in *. intros e He.
    apply elem_of_filter in He as [He _]. apply Hall, He.
Qed.

Lemma numberedLog_mono P count count' l :
  (count ≤ count')%nat → numberedLog P count l → numberedLog P count' l.
Proof.
  intros Hle [Hnd Hall]. split; [exact Hnd |].
  eapply Forall_impl; [exact Hall |].
  intros e (n & Hn & He). exists n. split; [lia | exact He].
Qed.

(** Appending entries whose ids are the next [k] identifiers. *)
Lemma numberedLog_extend P count k l fresh :
  (∀ m n, uuidv4 P m = uuidv4 P n → m = n) →
  numberedLog P count l →
  id <$> fresh = uuidv4 P <$> seq count k →
  numberedLog P (count + k) (l ++ fresh).
Proof.
  intros Hinj [Hnd Hall] Hids. split.
  - rewrite fmap_app, Hids. apply NoDup_app. split_and!.
    + exact Hnd.
    + intros x Hx Hx'.
      apply list_elem_of_fmap in Hx as (e & -> & He).
      apply list_elem_of_fmap in Hx' as (j & Hj & Hseq).
      rewrite Forall_forall in Hall. destruct (Hall e He) as (n & Hn & Hid).
      rewrite Hid in Hj. apply Hinj in Hj. subst j.
      apply elem_of_seq in Hseq. lia.
    + apply NoDup_fmap_2_strong; [| apply NoDup_seq].
      intros x y _ _. apply Hinj.
  - apply Forall_app. split.
    + eapply Forall_impl; [exact Hall |].
      intros e (n & Hn & He). exists n. split; [lia | exact He].
    + rewrite Forall_forall. intros e He.
      assert (Hin : id e ∈ id <$> fresh)
        by (apply list_elem_of_fmap; exists e; auto).
      rewrite Hids in Hin. apply list_elem_of_fmap in Hin as (j & Hj & Hseq).
      apply elem_of_seq in Hseq. exists j. split; [lia | exact Hj].
Qed.

Lemma ids_newEntries P pid seen n readings :
  id <$> newEntries P pid seen n readings
  = uuidv4 P <$> seq n (length (newEntries P pid seen n readings)).
Proof.
  revert n. induction readings as [| r rs IH]; intros n; cbn [newEntries];
    [reflexivity |].
  destruct (Server.value r); [| apply IH].
  destruct pid as [pid' |]; [| apply IH].
  destruct (bool_decide (Server.timestamp r ∉ seen) && negb (String.eqb pid' ""));
    [| apply IH].
  cbn [fmap list_fmap length seq id]. f_equal. apply IH.
Qed.

Lemma numbered_mergeReadings P readings st :
  (∀ m n, uuidv4 P m = uuidv4 P n → m = n) →
  numbered P st → numbered P (mergeReadings P readings st).
Proof.
  intros Hinj Hnum. unfold mergeReadings.
  pose proof (ids_newEntries P (activeProfileId st)
                (existingTimestamps (logEntries st)) (uuidCount st) readings)
    as Hids.
  destruct (newEntries P (activeProfileId st) (existingTimestamps (logEntries st))
              (uuidCount st) readings) as [| e fresh]; [exact Hnum |].
  unfold numbered. cbn [logEntries uuidCount withLog].
  eapply numberedLog_perm; [symmetry; apply sort_perm |].
  apply numberedLog_extend; [exact Hinj | exact Hnum | exact Hids].
Qed.

Lemma numbered_syncLibreData P now apiOk fetch st :
  (∀ m n, uuidv4 P m = uuidv4 P n → m = n) →
  numbered P st → numbered P (syncLibreData P now apiOk fetch st).
Proof.
  intros Hinj Hnum. unfold syncLibreData.
  destruct (libreSessionId st); [| exact Hnum].
  destruct fetch as [[m |] | [[| r rs] |]]; cbn [afterFetch]; try exact Hnum.
  - destruct (includes "Oturum" m); [| exact Hnum].
    unfold disconnectLibre. destruct apiOk; exact Hnum.
  - change (numbered P (mergeReadings P (r :: rs) st)).
    apply numbered_mergeReadings; assumption.
Qed.

Lemma numbered_addEntry P now granted entryData st :
  (∀ m n, uuidv4 P m = uuidv4 P n → m = n) →
  numbered P st → numbered P (addEntry P now granted entryData st).
Proof.
  intros Hinj Hnum. unfold addEntry.
  destruct (activeProfileId st) as [pid |]; [| exact Hnum].
  destruct (String.eqb pid ""); [exact Hnum |].
  unfold numbered. cbn [logEntries uuidCount withLog withShown].
  eapply numberedLog_perm; [symmetry; apply sort_perm |].
  apply numberedLog_extend; [exact Hinj | exact Hnum | reflexivity].
Qed.

Lemma numbered_insertion P i st :
  (∀ m n, uuidv4 P m = uuidv4 P n → m = n) →
  numbered P st → numbered P (insertion P st i).
Proof.
  intros Hinj Hnum. destruct i as [now granted entryData | now readings];
    cbn [insertion].
  - change (numbered P (addEntry P now granted entryData st)).
    apply numbered_addEntry; assumption.
  - change (numbered P (syncLibreData P now true (Resolves (Some readings)) st)).
    apply numbered_syncLibreData; assumption.
Qed.

Lemma length_filter_unique (l : list LogEntry) e :
  NoDup (id <$> l) →
  e ∈ l →
  S (length (List.filter (fun x => negb (String.eqb (id x) (id e))) l)) = length l.
Proof.
  induction l as [| x l IH]; intros Hnd He; [inversion He |].
  cbn [fmap list_fmap] in Hnd. apply NoDup_cons in Hnd as [Hnotin Hnd].
  cbn [List.filter length].
  apply elem_of_cons in He as [-> | He].
  - rewrite String.eqb_refl. cbn [negb]. f_equal.
    f_equal. apply filter_all. intros y Hy.
    apply negb_true_iff, String.eqb_neq. intros Heq. apply Hnotin.
    apply list_elem_of_fmap. exists y. split; [symmetry; exact Heq | exact Hy].
  - assert (Hne : id x ≠ id e).
    { intros Heq. apply Hnotin. apply list_elem_of_fmap. exists e. auto. }
    apply String.eqb_neq in Hne. rewrite Hne. cbn [negb length]. f_equal.
    apply IH; assumption.
Qed.

(** X29.  As long as the identifier generator never repeats itself, the
    entries of the log keep pairwise different ids through any sequence
    of manual additions and sync merges, through deletions of entries and
    of profiles and through the addition of profiles; so deleting an
    entry by its id removes that entry and no other. *)
Theorem entry_ids_stay_unique P (ops : list Insertion) (st : State)
    (Hinj : ∀ m n, uuidv4 P m = uuidv4 P n → m = n)
    (Hnum : numbered P st) :
  let st' := insertions P ops st in
  numbered P st'
  ∧ NoDup (id <$> logEntries st')
  ∧ (∀ entryId, numbered P (deleteEntry entryId st'))
  ∧ (∀ confirmed pid, numbered P (deleteProfile confirmed pid st'))
  ∧ (∀ name, numbered P (addProfile P name st'))
  ∧ (∀ e, e ∈ logEntries st' →
          S (length (logEntries (deleteEntry (id e) st'))) = length (logEntries st')
          ∧ e ∉ logEntries (deleteEntry (id e) st')).
Proof.
  cbv zeta.
  assert (Hnum' : numbered P (insertions P ops st)).
  { unfold insertions. revert st Hnum.
    induction ops as [| i ops IH]; intros st Hnum; cbn [foldl]; [exact Hnum |].
    apply IH. apply numbered_insertion; assumption. }
  split_and!.
  - exact Hnum'.
  - exact (proj1 Hnum').
  - intros entryId. apply numberedLog_filter. exact Hnum'.
  - intros confirmed pid. unfold deleteProfile.
    destruct (length (profiles (insertions P ops st)) <=? 1)%nat; [exact Hnum' |].
    destruct confirmed; [| exact Hnum'].
    apply numberedLog_filter. exact Hnum'.
  - intros name. unfold numbered, addProfile. cbn [logEntries uuidCount].
    eapply numberedLog_mono; [| exact Hnum']. lia.
  - intros e He. split.
    + apply length_filter_unique; [exact (proj1 Hnum') | exact He].
    + unfold deleteEntry. cbn [logEntries withEntries].
      rewrite elem_of_filter, String.eqb_refl. intros [_ Hf]. discriminate Hf.
Qed.

Lemma showZ_inj a b : showZ a = showZ b → a = b.
Proof.
  unfold showZ. intros H.
  assert (Hnn : ∀ z, Z.to_int z ≠ Decimal.Pos Decimal.Nil
                     ∧ Z.to_int z ≠ Decimal.Neg Decimal.Nil).
  { intros z. split; intros Hz; pose proof (DecimalZ.of_to z) as Hof;
      rewrite Hz in Hof; cbn in Hof; subst z; vm_compute in Hz; discriminate Hz. }
  apply DecimalZ.to_int_inj.
  assert (Hs : Some (Z.to_int a) = Some (Z.to_int b)).
  { rewrite <- (NilZero.isi (Z.to_int a)) by apply Hnn.
    rewrite <- (NilZero.isi (Z.to_int b)) by apply Hnn.
    rewrite H. reflexivity. }
  injection Hs as Hs. exact Hs.
Qed.

Lemma uuid_node_inj m n :
  uuidv4 Node.platform m = uuidv4 Node.platform n → m = n.
Proof.
  cbn [uuidv4 Node.platform]. intros H.
  cbn in H. injection H as H. apply showZ_inj in H. lia.
Qed.

Lemma entry_ids_stay_unique_witness :
  numbered Node.platform freshClient
  ∧ NoDup (id <$> logEntries
                    (insertions Node.platform
                       [Merge 1700000000000 [reading110];
                        Manual 1700000100000 false manual95]
                       freshClient)).
Proof.
  assert (Hnum : numbered Node.platform freshClient)
    by (split; constructor).
  split; [exact Hnum |].
  exact (proj1 (proj2 (entry_ids_stay_unique Node.platform
                         [Merge 1700000000000 [reading110];
                          Manual 1700000100000 false manual95]
                         freshClient uuid_node_inj Hnum))).
Defined.

End ClientExtra.
